(** * Auto-Ops: the drift-triggered retraining control loop

    A shallow embedding of the decision logic of the Auto-Ops pipeline:

    - [Py]: the Python values the code inspects (JSON-like report and
      configuration documents, binary64 floats, exceptions);
    - [Sys]: the process environment the code acts on (marker files,
      environment variables, the parsed [config.yaml], outbound HTTP calls)
      and the state-and-exception monad the effectful functions run in;
    - [Ingestion]: [preprocess_data] of [src/data_ingestion.py];
    - [Drift]: [get_predictions_from_api], [check_drift],
      [trigger_retraining] and [monitor_drift] of [src/drift_detector.py];
    - [Dag]: [check_retrain_trigger] of [airflow/dags/retrain_dag.py];
    - [Serve]: [TripRequest], [predict] and [predict_batch] of [src/serve.py];
    - [Bounds], [Report], [Trigger], [Sampling], [Request]: the vocabulary
      the theorems are stated in;
    - [Doubles]: concrete collaborators and inputs, on which the code is run.

    Third-party libraries (Evidently, numpy's generator, requests, pandas'
    datetime arithmetic, the fitted scikit-learn estimator) are not part of
    the repository; they appear as section variables, so every theorem holds
    for every behaviour of those collaborators. *)

From Stdlib Require Import ZArith QArith Lia Bool.
From Stdlib Require Import SpecFloat DecimalString.
From stdpp Require Import gmap strings list.

#[local] Open Scope Z_scope.
#[local] Set Warnings "-register-all".

(* ===================================================================== *)
(** * Python values *)
(* ===================================================================== *)

Module Py.

(** Exceptions, all of them subclasses of [Exception] (so that a bare
    [except Exception] catches each one). *)
Inductive exn : Type :=
| AttributeError
| TypeError
| KeyError
| IndexError
| ValueError
| OverflowError
| FileNotFoundError
| NotADirectoryError
| IsADirectoryError
| RequestException
| RuntimeError (msg : string).

(** The outcome of evaluating an expression: a value or a raised exception. *)
Inductive res (A : Type) : Type :=
| Ok (a : A)
| Raise (e : exn).

Arguments Ok {A} a.
Arguments Raise {A} e.

Definition res_bind {A B : Type} (r : res A) (k : A -> res B) : res B :=
  match r with
  | Ok a => k a
  | Raise e => Raise e
  end.

(** ** Floats

    A Python [float] is an IEEE 754 binary64 number: [spec_float] with
    precision 53 and maximal exponent 1024. *)

Definition float : Type := spec_float.
Definition prec : Z := 53.
Definition emax : Z := 1024.

(** The number a float stands for: a rational, an infinity or NaN. *)
Inductive xreal : Type :=
| XNaN
| XInf (neg : bool)
| XFin (q : Q).

Definition F2X (f : float) : xreal :=
  match f with
  | S754_zero _ => XFin 0%Q
  | S754_infinity s => XInf s
  | S754_nan => XNaN
  | S754_finite s m e =>
      XFin (Qmult (inject_Z (cond_Zopp s (Zpos m))) (Qpower (2 # 1) e))
  end.

Definition Z2X (n : Z) : xreal := XFin (inject_Z n).

Definition Qltb (p q : Q) : bool := negb (Qle_bool q p).

(** [x < y], [x <= y] and [x == y] as Python and pandas evaluate them on
    numbers: exact on the represented values, false as soon as one side is
    NaN. Mixed int/float comparisons are exact in Python as well. *)
Definition xlt (a b : xreal) : bool :=
  match a, b with
  | XNaN, _ => false
  | _, XNaN => false
  | XInf true, XInf true => false
  | XInf true, _ => true
  | _, XInf true => false
  | XInf false, _ => false
  | XFin _, XInf false => true
  | XFin p, XFin q => Qltb p q
  end.

Definition xle (a b : xreal) : bool :=
  match a, b with
  | XNaN, _ => false
  | _, XNaN => false
  | XInf true, _ => true
  | _, XInf true => false
  | _, XInf false => true
  | XInf false, _ => false
  | XFin p, XFin q => Qle_bool p q
  end.

Definition xeq (a b : xreal) : bool :=
  match a, b with
  | XInf s, XInf t => Bool.eqb s t
  | XFin p, XFin q => Qeq_bool p q
  | _, _ => false
  end.

(** [float(n)] for a Python [int]: round to nearest even; an [int] too
    large for binary64 raises [OverflowError]. *)
Definition float_of_int (n : Z) : res float :=
  match binary_normalize prec emax n 0 false with
  | S754_infinity _ => Raise OverflowError
  | f => Ok f
  end.

Definition float_zero : float := S754_zero false.

(** ** JSON-like values

    The documents the code walks through ([Report.as_dict()], the parsed
    [config.yaml], a JSON response body): dictionaries keep their insertion
    order and have string keys. *)
Inductive pyval : Type :=
| PyNone
| PyBool (b : bool)
| PyInt (n : Z)
| PyFloat (f : float)
| PyStr (s : string)
| PyList (l : list pyval)
| PyDict (d : list (string * pyval)).

Fixpoint assoc_get {A : Type} (k : string) (d : list (string * A)) : option A :=
  match d with
  | [] => None
  | (k', v) :: d' => if String.eqb k k' then Some v else assoc_get k d'
  end.

(** [v.get(k, dflt)]: only dictionaries have a [get] method. *)
Definition dict_get (v : pyval) (k : string) (dflt : pyval) : res pyval :=
  match v with
  | PyDict d => Ok (default dflt (assoc_get k d))
  | _ => Raise AttributeError
  end.

(** [v[k]] with a string key. *)
Definition getitem (v : pyval) (k : string) : res pyval :=
  match v with
  | PyDict d =>
      match assoc_get k d with
      | Some x => Ok x
      | None => Raise KeyError
      end
  | _ => Raise TypeError
  end.

Fixpoint chars (s : string) : list pyval :=
  match s with
  | EmptyString => []
  | String c s' => PyStr (String c EmptyString) :: chars s'
  end.

(** [for x in v]: the elements a [for] loop visits. *)
Definition iter (v : pyval) : res (list pyval) :=
  match v with
  | PyList l => Ok l
  | PyDict d => Ok (map (fun kv => PyStr (fst kv)) d)
  | PyStr s => Ok (chars s)
  | _ => Raise TypeError
  end.

(** [v == s] for a string literal [s]. *)
Definition eq_str (v : pyval) (s : string) : bool :=
  match v with
  | PyStr s' => String.eqb s' s
  | _ => false
  end.

(** [v in index] for a pandas column index of strings: unhashable values
    raise, values of another type are not members. *)
Definition in_columns (v : pyval) (cols : list string) : res bool :=
  match v with
  | PyStr s => Ok (existsb (String.eqb s) cols)
  | PyList _ | PyDict _ => Raise TypeError
  | _ => Ok false
  end.

(** A pandas [DataFrame] as the control loop sees it: named columns and
    rows of cells. *)
Record DataFrame : Type := {
  columns : list string;
  rows : list (list pyval)
}.

Definition len (df : DataFrame) : Z := Z.of_nat (length (rows df)).

(** [pd.DataFrame(data)] for a list of records sharing their keys. *)
Definition frame_of_records (data : list (list (string * pyval))) : DataFrame :=
  {| columns := match data with
                | [] => []
                | d :: _ => map fst d
                end;
     rows := map (map snd) data |}.

End Py.

(* ===================================================================== *)
(** * The process environment *)
(* ===================================================================== *)

Module Sys.
Import Py.

(** A path is the list of its components below the filesystem root;
    [Path.parent] drops the last one and [/] appends one. *)
Definition path : Type := list string.

Definition parent (p : path) : path := removelast p.
Definition child (p : path) (name : string) : path := p ++ [name].

Inductive node : Type :=
| File
| Dir.

(** An outbound HTTP POST: the two endpoints the control loop talks to.
    The URL stays structured (base address and, for Airflow, the configured
    workflow identifier) instead of being formatted into one string. *)
Inductive request : Type :=
| PostDagRuns (airflow_url : string) (dag_id : pyval) (user password : string)
| PostPredict (api_url : string) (trip : list (string * pyval)).

Record response : Type := {
  status_code : Z;
  json : res pyval   (* what [response.json()] evaluates to *)
}.

Inductive http_outcome : Type :=
| Answered (r : response)
| Failed (e : exn).   (* connection refused, timeout, ... *)

(** What the code can observe and change: the filesystem (existence of
    files and directories only, no contents and no permissions), the
    environment variables, the document [yaml.safe_load] yields for
    [config.yaml] (or the exception reading it raises), and the requests
    sent so far, oldest first. *)
Record World : Type := {
  files : gmap path node;
  environ : gmap string string;
  config_yaml : res pyval;
  http_log : list request
}.

Definition set_files (fs : gmap path node) (w : World) : World :=
  {| files := fs; environ := environ w; config_yaml := config_yaml w;
     http_log := http_log w |}.

Definition log_request (rq : request) (w : World) : World :=
  {| files := files w; environ := environ w; config_yaml := config_yaml w;
     http_log := http_log w ++ [rq] |}.

(** Effectful code: a state transformer that may raise. The world reached
    when an exception is raised is kept, since effects performed before a
    [raise] persist. *)
Definition M (A : Type) : Type := World -> World * res A.

Definition ret {A : Type} (a : A) : M A := fun w => (w, Ok a).

Definition raise {A : Type} (e : exn) : M A := fun w => (w, Raise e).

Definition bind {A B : Type} (m : M A) (k : A -> M B) : M B :=
  fun w =>
    match m w with
    | (w', Ok a) => k a w'
    | (w', Raise e) => (w', Raise e)
    end.

(** [try: m except Exception: h]. *)
Definition try_except {A : Type} (m : M A) (h : exn -> M A) : M A :=
  fun w =>
    match m w with
    | (w', Ok a) => (w', Ok a)
    | (w', Raise e) => h e w'
    end.

Definition lift {A : Type} (r : res A) : M A := fun w => (w, r).

Declare Scope py_scope.
Delimit Scope py_scope with py.
Notation "x <- m ;; k" := (bind m (fun x => k))
  (at level 100, m at next level, right associativity) : py_scope.
Notation "m ;;; k" := (bind m (fun _ => k))
  (at level 100, right associativity) : py_scope.

(** [load_config()], the same function in each module. *)
Definition load_config : M pyval := fun w => (w, config_yaml w).

(** [os.getenv(name, dflt)]. *)
Definition getenv (name dflt : string) : M string :=
  fun w => (w, Ok (default dflt (environ w !! name))).

(** [Path.exists()]. *)
Definition path_exists (p : path) : M bool :=
  fun w => (w, Ok (bool_decide (is_Some (files w !! p)))).

(** [Path.touch()] with its default [exist_ok=True]: an existing path only
    has its timestamps refreshed; otherwise the file is created, which needs
    the parent directory. *)
Definition touch (p : path) : M unit :=
  fun w =>
    match files w !! p with
    | Some _ => (w, Ok tt)
    | None =>
        match files w !! parent p with
        | Some Dir => (set_files (<[p := File]> (files w)) w, Ok tt)
        | Some File => (w, Raise NotADirectoryError)
        | None => (w, Raise FileNotFoundError)
        end
    end.

(** [Path.unlink()]. *)
Definition unlink (p : path) : M unit :=
  fun w =>
    match files w !! p with
    | Some File => (set_files (delete p (files w)) w, Ok tt)
    | Some Dir => (w, Raise IsADirectoryError)
    | None => (w, Raise FileNotFoundError)
    end.

Section Network.

(** The remote side: what a POST yields, given the requests sent before. *)
Variable remote : list request -> request -> http_outcome.

(** [requests.post(...)]: the request is sent (recorded), then answered or
    failed. *)
Definition requests_post (rq : request) : M response :=
  fun w =>
    match remote (http_log w) rq with
    | Answered r => (log_request rq w, Ok r)
    | Failed e => (log_request rq w, Raise e)
    end.

End Network.

End Sys.

(* ===================================================================== *)
(** * Data ingestion: [src/data_ingestion.py] *)
(* ===================================================================== *)

Module Ingestion.
Import Py.

(** One row of the raw month file, restricted to the columns the cleaning
    reads. Distances and passenger counts are float columns; identifiers
    are nullable integers; timestamps count nanoseconds since the epoch,
    [None] standing for [NaT]. The two timestamp columns carry their
    green-taxi names; the code reads them under [pickup_datetime] and
    [dropoff_datetime] as well, when a file names them so. *)
Record RawTrip : Type := {
  raw_trip_distance : float;
  raw_passenger_count : float;
  PULocationID : option Z;
  DOLocationID : option Z;
  lpep_pickup_datetime : option Z;
  lpep_dropoff_datetime : option Z
}.

(** One row of the frame [preprocess_data] returns. *)
Record Trip : Type := {
  trip_distance : float;
  passenger_count : float;
  hour : option Z;
  day_of_week : option Z;
  month : option Z;
  pickup_location_id : Z;
  dropoff_location_id : Z;
  trip_duration_minutes : float
}.

(** Modelled from the spec: [config.yaml] is not among the sources. The
    spec's data model gives the configured target as the trip duration in
    minutes, that is the column [trip_duration_minutes] computed below, so
    the column selection keeps the seven features and that column. *)
Definition config_target : string := "trip_duration_minutes".

Definition available_features : list string :=
  ["trip_distance"; "passenger_count"; "hour"; "day_of_week"; "month";
   "pickup_location_id"; "dropoff_location_id"] ++ [config_target].

Definition isna (f : float) : bool :=
  match f with
  | S754_nan => true
  | _ => false
  end.

Definition notna {A : Type} (o : option A) : bool :=
  match o with
  | Some _ => true
  | None => false
  end.

(** The comparisons of the two boolean masks, against integer literals. *)
Definition gt_lit (x : float) (c : Z) : bool := xlt (Z2X c) (F2X x).
Definition lt_lit (x : float) (c : Z) : bool := xlt (F2X x) (Z2X c).
Definition le_lit (x : float) (c : Z) : bool := xle (F2X x) (Z2X c).

(** [Series.astype(int)] on one cell: a missing value cannot be cast. *)
Definition astype_int (o : option Z) : res Z :=
  match o with
  | Some n => Ok n
  | None => Raise ValueError
  end.

Fixpoint map_res {A B : Type} (f : A -> res B) (l : list A) : res (list B) :=
  match l with
  | [] => Ok []
  | a :: l' =>
      res_bind (f a) (fun b => res_bind (map_res f l') (fun bs => Ok (b :: bs)))
  end.

Section Pandas.

(** [pd.read_parquet]. *)
Variable read_parquet : string -> res (list RawTrip).

(** [(dropoff - pickup).dt.total_seconds() / 60] on two timestamps. *)
Variable minutes_between : Z -> Z -> float.

(** The [.dt.hour], [.dt.dayofweek] and [.dt.month] accessors. *)
Variable dt_hour : Z -> Z.
Variable dt_dayofweek : Z -> Z.
Variable dt_month : Z -> Z.

(** The first mask (lines 84-91). *)
Definition valid_record (r : RawTrip) : bool :=
  gt_lit (raw_trip_distance r) 0
  && lt_lit (raw_trip_distance r) 100
  && gt_lit (raw_passenger_count r) 0
  && le_lit (raw_passenger_count r) 6
  && notna (PULocationID r)
  && notna (DOLocationID r).

(** The duration column (lines 105-107): [NaT] propagates to NaN. *)
Definition duration_of (r : RawTrip) : float :=
  match lpep_pickup_datetime r, lpep_dropoff_datetime r with
  | Some p, Some d => minutes_between p d
  | _, _ => S754_nan
  end.

(** The second mask (line 110). *)
Definition valid_duration (r : RawTrip) : bool :=
  gt_lit (duration_of r) 0 && le_lit (duration_of r) 180.

(** Lines 113-138: temporal features, integer identifiers, and the
    selected columns, those of [available_features]. *)
Definition select (r : RawTrip) : res Trip :=
  res_bind (astype_int (PULocationID r)) (fun pu =>
  res_bind (astype_int (DOLocationID r)) (fun do =>
  Ok {| trip_distance := raw_trip_distance r;
        passenger_count := raw_passenger_count r;
        hour := option_map dt_hour (lpep_pickup_datetime r);
        day_of_week := option_map dt_dayofweek (lpep_pickup_datetime r);
        month := option_map dt_month (lpep_pickup_datetime r);
        pickup_location_id := pu;
        dropoff_location_id := do;
        trip_duration_minutes := duration_of r |})).

(** [DataFrame.dropna()] on the selected columns (line 141). *)
Definition complete (t : Trip) : bool :=
  negb (isna (trip_distance t))
  && negb (isna (passenger_count t))
  && notna (hour t) && notna (day_of_week t) && notna (month t)
  && negb (isna (trip_duration_minutes t)).

Definition preprocess_data (filepath : string) : res (list Trip) :=
  res_bind (read_parquet filepath) (fun df =>
  let df := List.filter valid_record df in
  let df := List.filter valid_duration df in
  res_bind (map_res select df) (fun df =>
  Ok (List.filter complete df))).

End Pandas.

End Ingestion.

(* ===================================================================== *)
(** * Drift monitor and retraining trigger: [src/drift_detector.py] *)
(* ===================================================================== *)

Module Drift.
Import Py Sys.
#[local] Open Scope py_scope.

(** Evidently's [ColumnMapping], as [check_drift] fills it in. *)
Record ColumnMapping : Type := {
  numerical_features : list pyval;
  categorical_features : list pyval;
  target : option pyval;
  prediction : option string
}.

(** The [drift_info] dictionary (lines 155-161). *)
Record drift_info : Type := {
  drift_detected : bool;
  drift_score : pyval;
  threshold : float;
  reference_samples : Z;
  current_samples : Z
}.

(** How one pass through the body of the [for] loop ends. *)
Inductive flow : Type :=
| Continue
| Break
| Raised (e : exn).

(** The locals [drift_detected] and [drift_score]. *)
Definition locals : Type := (bool * pyval)%type.

(** The body of the loop over the metrics (lines 142-149). An exception
    leaves the locals as they were when it was raised. *)
Definition scan_metric (thr : float) (metric : pyval) (v : locals)
  : locals * flow :=
  match dict_get metric "metric" PyNone with
  | Raise e => (v, Raised e)
  | Ok name =>
      if eq_str name "DatasetDriftMetric" then
        match dict_get metric "result" (PyDict []) with
        | Raise e => (v, Raised e)
        | Ok result =>
            match dict_get result "dataset_drift" (PyBool false) with
            | Raise e => (v, Raised e)
            | Ok score =>
                match score with
                | PyBool b => ((b, score), Break)
                | PyInt n =>
                    let detected := xlt (F2X thr) (Z2X n) in
                    match float_of_int n with
                    | Ok f => ((detected, PyFloat f), Break)
                    | Raise e => ((detected, score), Raised e)
                    end
                | PyFloat f => ((xlt (F2X thr) (F2X f), PyFloat f), Break)
                | _ => ((fst v, score), Break)
                end
            end
        end
      else (v, Continue)
  end.

Fixpoint scan_metrics (thr : float) (metrics : list pyval) (v : locals)
  : locals * option exn :=
  match metrics with
  | [] => (v, None)
  | metric :: rest =>
      match scan_metric thr metric v with
      | (v', Continue) => scan_metrics thr rest v'
      | (v', Break) => (v', None)
      | (v', Raised e) => (v', Some e)
      end
  end.

(** Lines 135-153: the defaults, the [try] block and its handler, which
    resets [drift_detected] only. *)
Definition extract_drift (report_dict : pyval) (thr : float) : locals :=
  let v0 : locals := (false, PyFloat float_zero) in
  let '(v, raised) :=
    match dict_get report_dict "metrics" (PyList []) with
    | Raise e => (v0, Some e)
    | Ok metrics =>
        match iter metrics with
        | Raise e => (v0, Some e)
        | Ok ms => scan_metrics thr ms v0
        end
    end in
  match raised with
  | Some _ => (false, snd v)
  | None => v
  end.

Fixpoint filter_res {A : Type} (f : A -> res bool) (l : list A) : res (list A) :=
  match l with
  | [] => Ok []
  | a :: l' =>
      res_bind (f a) (fun b =>
      res_bind (filter_res f l') (fun r => Ok (if b then a :: r else r)))
  end.

(** NYC bounds and the other literals of [get_predictions_from_api]. *)
Definition nyc_lon_min : Q := (-743 # 10)%Q.
Definition nyc_lon_max : Q := (-737 # 10)%Q.
Definition nyc_lat_min : Q := (405 # 10)%Q.
Definition nyc_lat_max : Q := (409 # 10)%Q.

Section Collaborators.

(** Where the repository is checked out. *)
Variable repo_root : path.

(** The servers behind [requests.post]. *)
Variable remote : list request -> request -> http_outcome.

(** Evidently: [Report(metrics=[DataDriftPreset()])], [run] and [as_dict]. *)
Variable evidently_report : ColumnMapping -> DataFrame -> DataFrame -> res pyval.

(** numpy's global generator: its state, [seed], [uniform] and [randint]. *)
Variable rng : Type.
Variable np_seed : Z -> rng.
Variable np_uniform : Q -> Q -> rng -> float * rng.
Variable np_randint : Z -> Z -> rng -> Z * rng.

(** [data_ingestion.ingest_data], download included. *)
Variable ingest_data : string -> bool -> M DataFrame.

Definition load_reference_data (month : string) : M DataFrame :=
  ingest_data month false.

(** The trip dictionary built at each iteration (lines 67-77), its nine
    draws taken in the order of the dictionary display. *)
Definition draw_trip (g : rng) : list (string * pyval) * rng :=
  let '(pickup_longitude, g) := np_uniform nyc_lon_min nyc_lon_max g in
  let '(pickup_latitude, g) := np_uniform nyc_lat_min nyc_lat_max g in
  let '(dropoff_longitude, g) := np_uniform nyc_lon_min nyc_lon_max g in
  let '(dropoff_latitude, g) := np_uniform nyc_lat_min nyc_lat_max g in
  let '(passenger_count, g) := np_randint 1 7 g in
  let '(trip_distance, g) := np_uniform (1 # 2) 20 g in
  let '(hour, g) := np_randint 0 24 g in
  let '(day_of_week, g) := np_randint 0 7 g in
  let '(month, g) := np_randint 1 13 g in
  ([("pickup_longitude", PyFloat pickup_longitude);
    ("pickup_latitude", PyFloat pickup_latitude);
    ("dropoff_longitude", PyFloat dropoff_longitude);
    ("dropoff_latitude", PyFloat dropoff_latitude);
    ("passenger_count", PyInt passenger_count);
    ("trip_distance", PyFloat trip_distance);
    ("hour", PyInt hour);
    ("day_of_week", PyInt day_of_week);
    ("month", PyInt month)], g).

Definition with_prediction (trip : list (string * pyval)) (p : pyval)
  : list (string * pyval) :=
  trip ++ [("predicted_duration", p)].

(** One iteration of the sampling loop (lines 67-89), on the generator
    state and the list [data]. *)
Definition sample_once (api_url : string)
    (st : rng * list (list (string * pyval)))
  : M (rng * list (list (string * pyval))) :=
  let '(trip, g) := draw_trip (fst st) in
  let data := snd st in
  try_except
    (response <- requests_post remote (PostPredict api_url trip) ;;
     if status_code response =? 200 then
       result <- lift (json response) ;;
       p <- lift (getitem result "predicted_duration_minutes") ;;
       ret (g, data ++ [with_prediction trip p])
     else ret (g, data))
    (fun _ =>
       let '(mock, g') := np_uniform 5 60 g in
       ret (g', data ++ [with_prediction trip (PyFloat mock)])).

Fixpoint sample_loop (api_url : string) (n : nat)
    (st : rng * list (list (string * pyval)))
  : M (rng * list (list (string * pyval))) :=
  match n with
  | O => ret st
  | S n' => st' <- sample_once api_url st ;; sample_loop api_url n' st'
  end.

(** [range(n_samples)] is empty for a negative count. *)
Definition get_predictions_from_api (api_url : string) (n_samples : Z)
  : M DataFrame :=
  st <- sample_loop api_url (Z.to_nat n_samples) (np_seed 42, []) ;;
  ret (frame_of_records (snd st)).

(** Lines 110-132 of [check_drift]: configuration, column mapping, and the
    collaborator's report as a dictionary. None of it is inside the [try]. *)
Definition drift_report_dict (reference_data current_data : DataFrame)
  : M pyval :=
  config <- load_config ;;
  model_config <- lift (getitem config "model") ;;
  features <- lift (getitem model_config "features") ;;
  model_config <- lift (getitem config "model") ;;
  target <- lift (getitem model_config "target") ;;
  fs <- lift (iter features) ;;
  numerical <- lift (filter_res (fun f => in_columns f (columns reference_data)) fs) ;;
  has_target <- lift (in_columns target (columns reference_data)) ;;
  lift (evidently_report
          {| numerical_features := numerical;
             categorical_features := [];
             target := if has_target then Some target else None;
             prediction :=
               if existsb (String.eqb "predicted_duration") (columns current_data)
               then Some "predicted_duration" else None |}
          reference_data current_data).

Definition check_drift (reference_data current_data : DataFrame) (thr : float)
  : M (bool * drift_info) :=
  report_dict <- drift_report_dict reference_data current_data ;;
  let '(detected, score) := extract_drift report_dict thr in
  ret (detected,
       {| drift_detected := detected;
          drift_score := score;
          threshold := thr;
          reference_samples := len reference_data;
          current_samples := len current_data |}).

(** [__file__] of this module, and the marker next to the DAG folder. *)
Definition module_file : path := repo_root ++ ["src"; "drift_detector.py"].

Definition trigger_file : path :=
  child (child (parent (parent module_file)) "airflow") "trigger_retrain.flag".

(** The [try] block of [trigger_retraining] (lines 196-215): [Some true]
    when it returns from the function, [None] when control falls through to
    the file-based fallback. *)
Definition trigger_via_api (dag_id : pyval) (airflow_url user password : string)
  : M (option bool) :=
  try_except
    (response <- requests_post remote (PostDagRuns airflow_url dag_id user password) ;;
     if (status_code response =? 200) || (status_code response =? 201)
     then ret (Some true)
     else ret None)
    (fun _ => ret None).

Definition trigger_retraining : M bool :=
  config <- load_config ;;
  airflow_config <- lift (getitem config "airflow") ;;
  dag_id <- lift (getitem airflow_config "dag_id") ;;
  airflow_url <- getenv "AIRFLOW_URL" "http://localhost:8080" ;;
  airflow_user <- getenv "AIRFLOW_USER" "airflow" ;;
  airflow_password <- getenv "AIRFLOW_PASSWORD" "airflow" ;;
  returned <- trigger_via_api dag_id airflow_url airflow_user airflow_password ;;
  match returned with
  | Some b => ret b
  | None => touch trigger_file ;;; ret true
  end.

(** [if current_month:] holds for a non-empty string only. *)
Definition truthy (current_month : option string) : bool :=
  match current_month with
  | Some s => negb (String.eqb s "")
  | None => false
  end.

(** Lines 251-258 of [monitor_drift]: the current sample comes from a later
    month when one is given, from live predictions otherwise. *)
Definition current_sample (current_month : option string) (api_url : string)
    (n_samples : Z) : M DataFrame :=
  match current_month with
  | Some m =>
      if truthy current_month
      then ingest_data m false
      else get_predictions_from_api api_url n_samples
  | None => get_predictions_from_api api_url n_samples
  end.

Definition monitor_drift (reference_month : string)
    (current_month : option string) (api_url : string) (thr : float)
    (n_samples : Z) : M bool :=
  reference_data <- load_reference_data reference_month ;;
  current_data <- current_sample current_month api_url n_samples ;;
  verdict <- check_drift reference_data current_data thr ;;
  if fst verdict
  then trigger_retraining ;;; ret true
  else ret false.

End Collaborators.

End Drift.

(* ===================================================================== *)
(** * Orchestration, first step: [airflow/dags/retrain_dag.py] *)
(* ===================================================================== *)

Module Dag.
Import Py Sys.
#[local] Open Scope py_scope.

Section Checkout.

Variable repo_root : path.

Definition module_file : path :=
  repo_root ++ ["airflow"; "dags"; "retrain_dag.py"].

Definition trigger_file : path :=
  child (child (parent (parent (parent module_file))) "airflow")
        "trigger_retrain.flag".

Definition check_retrain_trigger : M bool :=
  found <- path_exists trigger_file ;;
  if found
  then unlink trigger_file ;;; ret true
  else ret false.

End Checkout.

End Dag.

(* ===================================================================== *)
(** * Model serving: [src/serve.py] *)
(* ===================================================================== *)

Module Serve.
Import Py.

(** The numeric constraints of a pydantic [Field(..., gt=, ge=, le=)]. *)
Record Field : Type := {
  gt : option Z;
  ge : option Z;
  le : option Z
}.

Definition holds_int (f : Field) (v : Z) : bool :=
  from_option (fun c => c <? v) true (gt f)
  && from_option (fun c => c <=? v) true (ge f)
  && from_option (fun c => v <=? c) true (le f).

Definition holds_float (f : Field) (v : float) : bool :=
  from_option (fun c => xlt (Z2X c) (F2X v)) true (gt f)
  && from_option (fun c => xle (Z2X c) (F2X v)) true (ge f)
  && from_option (fun c => xle (F2X v) (Z2X c)) true (le f).

(** A decoded request body with the declared field types; the constraints
    are those of the class [TripRequest] (lines 87-95). *)
Record TripRequest : Type := {
  trip_distance : float;
  passenger_count : Z;
  hour : Z;
  day_of_week : Z;
  month : Z;
  pickup_location_id : Z;
  dropoff_location_id : Z
}.

Definition trip_distance_field : Field :=
  {| gt := Some 0; ge := None; le := None |}.
Definition passenger_count_field : Field :=
  {| gt := None; ge := Some 1; le := Some 6 |}.
Definition hour_field : Field :=
  {| gt := None; ge := Some 0; le := Some 23 |}.
Definition day_of_week_field : Field :=
  {| gt := None; ge := Some 0; le := Some 6 |}.
Definition month_field : Field :=
  {| gt := None; ge := Some 1; le := Some 12 |}.
Definition pickup_location_id_field : Field :=
  {| gt := None; ge := Some 1; le := None |}.
Definition dropoff_location_id_field : Field :=
  {| gt := None; ge := Some 1; le := None |}.

(** The validation pydantic runs when FastAPI builds the handler's
    argument. *)
Definition validate (t : TripRequest) : bool :=
  holds_float trip_distance_field (trip_distance t)
  && holds_int passenger_count_field (passenger_count t)
  && holds_int hour_field (hour t)
  && holds_int day_of_week_field (day_of_week t)
  && holds_int month_field (month t)
  && holds_int pickup_location_id_field (pickup_location_id t)
  && holds_int dropoff_location_id_field (dropoff_location_id t).

Record TripResponse : Type := {
  predicted_duration_minutes : float;
  model_version : string
}.

(** What a route answers: the handler's value, a request-validation
    failure (422), or the [HTTPException(500)] a handler raises. *)
Inductive reply (A : Type) : Type :=
| Success (a : A)
| ValidationFailure
| ServerError (cause : exn).

Arguments Success {A} a.
Arguments ValidationFailure {A}.
Arguments ServerError {A} cause.

(** [pd.DataFrame(data, columns=columns)] for a list of rows. *)
Definition make_frame (data : list (list pyval)) (cols : list string)
  : res DataFrame :=
  if forallb (fun r => Nat.eqb (length r) (length cols)) data
  then Ok {| columns := cols; rows := data |}
  else Raise ValueError.

Definition feature_row (trip : TripRequest) : list pyval :=
  [PyFloat (trip_distance trip);
   PyInt (passenger_count trip);
   PyInt (hour trip);
   PyInt (day_of_week trip);
   PyInt (month trip);
   PyInt (pickup_location_id trip);
   PyInt (dropoff_location_id trip)].

Section App.

(** The module-level state loaded at startup: the estimator's [predict],
    the feature names, and [serving_config['model_version']]. *)
Variable model_predict : DataFrame -> res (list float).
Variable features : list string.
Variable serving_model_version : string.

(** The handlers return the frames handed to [model.predict] next to their
    answer. *)
Definition predict (trip : TripRequest) : list DataFrame * reply TripResponse :=
  match make_frame [feature_row trip] features with
  | Raise e => ([], ServerError e)
  | Ok X =>
      match model_predict X with
      | Raise e => ([X], ServerError e)
      | Ok [] => ([X], ServerError IndexError)
      | Ok (prediction :: _) =>
          ([X], Success {| predicted_duration_minutes := prediction;
                           model_version := serving_model_version |})
      end
  end.

Definition batch_item (pred : float) : list (string * pyval) :=
  [("predicted_duration_minutes", PyFloat pred);
   ("model_version", PyStr serving_model_version)].

Definition predict_batch (trips : list TripRequest)
  : list DataFrame * reply (list (list (string * pyval))) :=
  match make_frame (map feature_row trips) features with
  | Raise e => ([], ServerError e)
  | Ok X =>
      match model_predict X with
      | Raise e => ([X], ServerError e)
      | Ok predictions => ([X], Success (map batch_item predictions))
      end
  end.

(** The routes [POST /predict] and [POST /predict_batch]: validation comes
    before the handler. *)
Definition route_predict (body : TripRequest)
  : list DataFrame * reply TripResponse :=
  if validate body then predict body else ([], ValidationFailure).

Definition route_predict_batch (body : list TripRequest)
  : list DataFrame * reply (list (list (string * pyval))) :=
  if forallb validate body then predict_batch body else ([], ValidationFailure).

End App.

End Serve.

(* ===================================================================== *)
(** * Specification vocabulary *)
(* ===================================================================== *)

Module Bounds.
Import Py.

(** [x] is a finite number strictly between [lo] and [hi]. *)
Definition in_open (x : float) (lo hi : Z) : Prop :=
  exists q : Q, F2X x = XFin q /\ (inject_Z lo < q)%Q /\ (q < inject_Z hi)%Q.

(** [x] is a finite number above [lo] and at most [hi]. *)
Definition in_left_open (x : float) (lo hi : Z) : Prop :=
  exists q : Q, F2X x = XFin q /\ (inject_Z lo < q)%Q /\ (q <= inject_Z hi)%Q.

(** [x] is a finite number from [lo] to [hi], both included. *)
Definition in_closed (x : float) (lo hi : Z) : Prop :=
  exists q : Q, F2X x = XFin q /\ (inject_Z lo <= q)%Q /\ (q <= inject_Z hi)%Q.

(** [x] is the whole number [n]. *)
Definition whole (x : float) (n : Z) : Prop :=
  exists q : Q, F2X x = XFin q /\ (q == inject_Z n)%Q.

(** The bounds the cleaning enforces on distance, passenger count and
    duration. *)
Definition within_bounds (distance passengers minutes : float) : Prop :=
  in_open distance 0 100
  /\ in_left_open passengers 0 6
  /\ in_left_open minutes 0 180.

End Bounds.

Module Report.
Import Py.

(** A metric entry whose name is [DatasetDriftMetric]. *)
Definition named_dataset_drift (md : list (string * pyval)) : bool :=
  eq_str (default PyNone (assoc_get "metric" md)) "DatasetDriftMetric".

(** [first_dataset_metric ms md]: [md] is the first dataset-level entry of
    the metric list [ms], and every entry before it is a dictionary. *)
Inductive first_dataset_metric : list pyval -> list (string * pyval) -> Prop :=
| found_here (md : list (string * pyval)) (rest : list pyval) :
    named_dataset_drift md = true ->
    first_dataset_metric (PyDict md :: rest) md
| found_later (d : list (string * pyval)) (rest : list pyval)
    (md : list (string * pyval)) :
    named_dataset_drift d = false ->
    first_dataset_metric rest md ->
    first_dataset_metric (PyDict d :: rest) md.

(** The collaborator's dataset-level result is [s]: the report lists a
    dataset-level metric whose result dictionary gives [s] under
    [dataset_drift] ([False] when that key, or the result, is left out). *)
Definition reports (report s : pyval) : Prop :=
  exists d ms md rd,
    report = PyDict d
    /\ assoc_get "metrics" d = Some (PyList ms)
    /\ first_dataset_metric ms md
    /\ default (PyDict []) (assoc_get "result" md) = PyDict rd
    /\ default (PyBool false) (assoc_get "dataset_drift" rd) = s.

(** The number a numeric result stands for. *)
Definition number (s : pyval) : option xreal :=
  match s with
  | PyInt n => Some (Z2X n)
  | PyFloat f => Some (F2X f)
  | _ => None
  end.

(** A result the interpretation policy covers: a boolean, a float, or an
    integer that [float] can convert. *)
Definition understood (s : pyval) : Prop :=
  match s with
  | PyBool _ => True
  | PyFloat _ => True
  | PyInt n => exists f, float_of_int n = Ok f
  | _ => False
  end.

(** What the loop body leaves in the locals at the dataset-level entry
    whose result is [s], and the exception it ends with, if any. *)
Definition interpreted (thr : float) (s : pyval)
  : (bool * pyval) * option exn :=
  match s with
  | PyBool b => ((b, s), None)
  | PyInt n =>
      match float_of_int n with
      | Ok f => ((xlt (F2X thr) (Z2X n), PyFloat f), None)
      | Raise e => ((xlt (F2X thr) (Z2X n), s), Some e)
      end
  | PyFloat f => ((xlt (F2X thr) (F2X f), PyFloat f), None)
  | _ => ((false, s), None)
  end.

(** The verdict [check_drift] returns once the collaborator's report is in. *)
Definition verdict_of (report : pyval) (thr : float)
    (reference_data current_data : DataFrame) : bool * Drift.drift_info :=
  (fst (Drift.extract_drift report thr),
   {| Drift.drift_detected := fst (Drift.extract_drift report thr);
      Drift.drift_score := snd (Drift.extract_drift report thr);
      Drift.threshold := thr;
      Drift.reference_samples := len reference_data;
      Drift.current_samples := len current_data |}).

End Report.

Module Trigger.
Import Py Sys.

(** The workflow identifier [trigger_retraining] reads from the
    configuration. *)
Definition configured_dag (w : World) : res pyval :=
  res_bind (config_yaml w) (fun config =>
  res_bind (getitem config "airflow") (fun airflow_config =>
  getitem airflow_config "dag_id")).

(** The run-creation request sent from world [w]. *)
Definition run_request (w : World) (dag_id : pyval) : request :=
  PostDagRuns
    (default "http://localhost:8080" (environ w !! "AIRFLOW_URL"))
    dag_id
    (default "airflow" (environ w !! "AIRFLOW_USER"))
    (default "airflow" (environ w !! "AIRFLOW_PASSWORD")).

(** The primary path succeeded: the service answered 200 or 201. *)
Definition accepted (o : http_outcome) : bool :=
  match o with
  | Answered r => (status_code r =? 200) || (status_code r =? 201)
  | Failed _ => false
  end.

(** The primary path failed in the words of the spec: the service was
    unreachable or answered outside 2xx. *)
Definition unreachable_or_non_2xx (o : http_outcome) : Prop :=
  match o with
  | Answered r => status_code r < 200 \/ 300 <= status_code r
  | Failed _ => True
  end.

(** [p] can be touched: it exists, or its parent is a directory. *)
Definition touchable (w : World) (p : path) : bool :=
  match files w !! p with
  | Some _ => true
  | None =>
      match files w !! parent p with
      | Some Dir => true
      | _ => false
      end
  end.

End Trigger.

Module Sampling.
Import Py Sys.

(** The serving side never answers with a status other than 200 (it may
    fail to answer at all). *)
Definition never_refuses (remote : list request -> request -> http_outcome)
  : Prop :=
  forall log rq,
    match remote log rq with
    | Answered r => status_code r = 200
    | Failed _ => True
    end.

End Sampling.

Module Request.
Import Py Serve.

(** A float above zero: a positive rational or plus infinity. *)
Definition positive (x : float) : Prop :=
  (exists q : Q, F2X x = XFin q /\ (0 < q)%Q) \/ F2X x = XInf false.

(** The documented bounds of a prediction request. *)
Definition within_field_bounds (t : TripRequest) : Prop :=
  positive (trip_distance t)
  /\ 1 <= passenger_count t <= 6
  /\ 0 <= hour t <= 23
  /\ 0 <= day_of_week t <= 6
  /\ 1 <= month t <= 12
  /\ 1 <= pickup_location_id t
  /\ 1 <= dropoff_location_id t.

(** An estimator answers with one prediction per row. *)
Definition rowwise (model_predict : DataFrame -> res (list float)) : Prop :=
  forall X ys, model_predict X = Ok ys -> length ys = length (rows X).

End Request.

(* ===================================================================== *)
(** * Test doubles: concrete collaborators and inputs *)
(* ===================================================================== *)

Module Doubles.
Import Py.

(** The float nearest to [m * 2^e]. *)
Definition float_of (m e : Z) : float := binary_normalize prec emax m e false.

(** Pandas' datetime arithmetic on nanosecond timestamps:
    [total_seconds()] divides the nanoseconds by 1e9, and the result is
    divided by 60. *)
Definition minutes_between (pickup dropoff : Z) : float :=
  SFdiv prec emax
    (SFdiv prec emax (float_of (dropoff - pickup) 0) (float_of 1000000000 0))
    (float_of 60 0).

Definition dt_hour (t : Z) : Z := (t / 3600000000000) mod 24.

Definition dt_dayofweek (t : Z) : Z := (t / 86400000000000 + 3) mod 7.

Definition dt_month (t : Z) : Z :=
  let z := t / 86400000000000 + 719468 in
  let doe := z mod 146097 in
  let yoe := (doe - doe / 1460 + doe / 36524 - doe / 146096) / 365 in
  let doy := doe - (365 * yoe + yoe / 4 - yoe / 100) in
  let mp := (5 * doy + 2) / 153 in
  if mp <? 10 then mp + 3 else mp - 9.

(** 2023-01-01 00:00:00 UTC, in nanoseconds. *)
Definition new_year_2023 : Z := 1672531200000000000.

(** A ten-minute, 2.5-mile ride with one passenger. *)
Definition ride : Ingestion.RawTrip :=
  {| Ingestion.raw_trip_distance := float_of 5 (-1);
     Ingestion.raw_passenger_count := float_of 1 0;
     Ingestion.PULocationID := Some 74;
     Ingestion.DOLocationID := Some 41;
     Ingestion.lpep_pickup_datetime := Some new_year_2023;
     Ingestion.lpep_dropoff_datetime := Some (new_year_2023 + 600000000000) |}.

(** The same ride recorded with 120 miles. *)
Definition long_ride : Ingestion.RawTrip :=
  {| Ingestion.raw_trip_distance := float_of 120 0;
     Ingestion.raw_passenger_count := float_of 1 0;
     Ingestion.PULocationID := Some 74;
     Ingestion.DOLocationID := Some 41;
     Ingestion.lpep_pickup_datetime := Some new_year_2023;
     Ingestion.lpep_dropoff_datetime := Some (new_year_2023 + 600000000000) |}.

(** The same ride recorded with a passenger count of 0.5. *)
Definition half_ride : Ingestion.RawTrip :=
  {| Ingestion.raw_trip_distance := float_of 5 (-1);
     Ingestion.raw_passenger_count := float_of 1 (-1);
     Ingestion.PULocationID := Some 74;
     Ingestion.DOLocationID := Some 41;
     Ingestion.lpep_pickup_datetime := Some new_year_2023;
     Ingestion.lpep_dropoff_datetime := Some (new_year_2023 + 600000000000) |}.

Definition read_month (_ : string) : res (list Ingestion.RawTrip) :=
  Ok [ride; long_ride].

Definition read_half (_ : string) : res (list Ingestion.RawTrip) :=
  Ok [half_ride].

Definition cleaned (r : Ingestion.RawTrip) : Ingestion.Trip :=
  {| Ingestion.trip_distance := Ingestion.raw_trip_distance r;
     Ingestion.passenger_count := Ingestion.raw_passenger_count r;
     Ingestion.hour := Some 0;
     Ingestion.day_of_week := Some 6;
     Ingestion.month := Some 1;
     Ingestion.pickup_location_id := 74;
     Ingestion.dropoff_location_id := 41;
     Ingestion.trip_duration_minutes := float_of 10 0 |}.

(** A parsed [config.yaml]. *)
Definition config : pyval :=
  PyDict
    [("model",
      PyDict [("features",
               PyList [PyStr "trip_distance"; PyStr "passenger_count";
                       PyStr "hour"; PyStr "day_of_week"; PyStr "month";
                       PyStr "pickup_location_id"; PyStr "dropoff_location_id"]);
              ("target", PyStr "trip_duration_minutes")]);
     ("airflow", PyDict [("dag_id", PyStr "retrain_model_dag")])].

Definition repo_root : Sys.path := ["opt"; "auto-ops"].

Definition airflow_dir : Sys.path := repo_root ++ ["airflow"].

Definition marker : Sys.path := airflow_dir ++ ["trigger_retrain.flag"].

(** A checkout with its [airflow] folder and no pending trigger. *)
Definition idle : Sys.World :=
  {| Sys.files := {[ repo_root := Sys.Dir; airflow_dir := Sys.Dir ]};
     Sys.environ := ∅;
     Sys.config_yaml := Ok config;
     Sys.http_log := [] |}.

(** The same checkout with a trigger pending. *)
Definition pending : Sys.World :=
  Sys.set_files (<[marker := Sys.File]> (Sys.files idle)) idle.

(** A deployment without the [airflow] folder. *)
Definition bare : Sys.World :=
  Sys.set_files {[ repo_root := Sys.Dir ]} idle.

Definition answer (status : Z) (body : pyval) : Sys.http_outcome :=
  Sys.Answered {| Sys.status_code := status; Sys.json := Ok body |}.

(** Remote sides: nothing listens; every request is accepted; every
    request is refused with 422; the service is unavailable. *)
Definition remote_down (_ : list Sys.request) (_ : Sys.request) : Sys.http_outcome :=
  Sys.Failed RequestException.

Definition remote_accepting (_ : list Sys.request) (_ : Sys.request)
  : Sys.http_outcome :=
  answer 200 (PyDict [("predicted_duration_minutes", PyFloat (float_of 12 0));
                      ("model_version", PyStr "latest")]).

(** The serving API answers; the orchestration service is down. *)
Definition remote_serving_only (log : list Sys.request) (rq : Sys.request)
  : Sys.http_outcome :=
  match rq with
  | Sys.PostPredict _ _ => remote_accepting log rq
  | Sys.PostDagRuns _ _ _ _ => remote_down log rq
  end.

Definition remote_refusing (_ : list Sys.request) (_ : Sys.request)
  : Sys.http_outcome :=
  answer 422 (PyDict [("detail", PyStr "field required")]).

Definition remote_unavailable (_ : list Sys.request) (_ : Sys.request)
  : Sys.http_outcome :=
  answer 503 PyNone.

(** A report in the shape Evidently gives, with [s] as its dataset-level
    result. *)
Definition report_of (s : pyval) : pyval :=
  PyDict
    [("metrics",
      PyList [PyDict [("metric", PyStr "DataDriftTable");
                      ("result", PyDict [("number_of_columns", PyInt 7)])];
              PyDict [("metric", PyStr "DatasetDriftMetric");
                      ("result", PyDict [("drift_share", PyFloat (float_of 1 (-1)));
                                         ("dataset_drift", s)])]])].

Definition evidently_says (report : pyval)
    (_ : Drift.ColumnMapping) (_ _ : DataFrame) : res pyval :=
  Ok report.

(** A generator that counts its draws and always returns the lower bound. *)
Definition np_seed (_ : Z) : nat := O.

Definition np_uniform (lo _ : Q) (g : nat) : float * nat :=
  (SFdiv prec emax (float_of (Qnum lo) 0) (float_of (Zpos (Qden lo)) 0), S g).

Definition np_randint (lo _ : Z) (g : nat) : Z * nat := (lo, S g).

Definition frame : DataFrame :=
  {| columns := ["trip_distance"; "passenger_count"; "trip_duration_minutes"];
     rows := [[PyFloat (float_of 5 (-1)); PyFloat (float_of 1 0);
               PyFloat (float_of 10 0)]] |}.

Definition ingest_data (_ : string) (_ : bool) : Sys.M DataFrame :=
  Sys.ret frame.

Definition half : float := float_of 1 (-1).

(** A dataset-level score no float can hold. *)
Definition huge : Z := 2 ^ 1024.

(** The request of the spec's example: every field at its minimum, with a
    distance of 0.1. *)
Definition minimal_request : Serve.TripRequest :=
  {| Serve.trip_distance := SFdiv prec emax (float_of 1 0) (float_of 10 0);
     Serve.passenger_count := 1;
     Serve.hour := 0;
     Serve.day_of_week := 0;
     Serve.month := 1;
     Serve.pickup_location_id := 1;
     Serve.dropoff_location_id := 1 |}.

(** The same request with seven passengers. *)
Definition crowded_request : Serve.TripRequest :=
  {| Serve.trip_distance := SFdiv prec emax (float_of 1 0) (float_of 10 0);
     Serve.passenger_count := 7;
     Serve.hour := 0;
     Serve.day_of_week := 0;
     Serve.month := 1;
     Serve.pickup_location_id := 1;
     Serve.dropoff_location_id := 1 |}.

Definition feature_names : list string :=
  ["trip_distance"; "passenger_count"; "hour"; "day_of_week"; "month";
   "pickup_location_id"; "dropoff_location_id"].

(** An estimator that predicts twelve minutes for every row, and one that
    was never loaded. *)
Definition constant_model (X : DataFrame) : res (list float) :=
  Ok (map (fun _ => float_of 12 0) (rows X)).

Definition missing_model (_ : DataFrame) : res (list float) :=
  Raise AttributeError.

End Doubles.

(* ===================================================================== *)
(** * Further vocabulary *)
(* ===================================================================== *)

Module Sampled.

(** The column names of a record sampled from live predictions. *)
Definition sample_columns : list string :=
  ["pickup_longitude"; "pickup_latitude"; "dropoff_longitude";
   "dropoff_latitude"; "passenger_count"; "trip_distance"; "hour";
   "day_of_week"; "month"; "predicted_duration"].

End Sampled.

Module Estimator.
Import Py.

(** An estimator that predicts each row on its own, as a fitted forest
    does. *)
Definition pointwise (model_predict : DataFrame -> res (list float)) : Prop :=
  exists f : list pyval -> float,
    forall X, model_predict X = Ok (map f (rows X)).

End Estimator.

(* ===================================================================== *)
(** * Model loading: [load_model] of [src/serve.py] and [streamlit_app.py] *)
(* ===================================================================== *)

Module Loader.
Import Py Sys.
#[local] Open Scope py_scope.

Fixpoint ends_with_slash (s : string) : bool :=
  match s with
  | EmptyString => false
  | String c EmptyString => String.eqb (String c EmptyString) "/"
  | String _ s' => ends_with_slash s'
  end.

(** [os.path.join(a, b)] on POSIX for a relative [b]. *)
Definition path_join (a b : string) : string :=
  if String.eqb a "" || ends_with_slash a
  then a ++ b
  else a ++ "/" ++ b.

(** [os.path.join(v, b)] for a value read from the configuration: only a
    string is a path. *)
Definition os_path_join (v : pyval) (b : string) : res string :=
  match v with
  | PyStr a => Ok (path_join a b)
  | _ => Raise TypeError
  end.

Section Libraries.

(** A fitted estimator, as MLflow and joblib hand it over. *)
Variable estimator : Type.

(** [mlflow.set_tracking_uri(uri)] followed by
    [mlflow.sklearn.load_model(model_uri=...)]. *)
Variable mlflow_load_model : pyval -> string -> res estimator.

(** [joblib.load] on the estimator file and on the feature file. *)
Variable joblib_load_model : string -> res estimator.
Variable joblib_load_features : string -> res pyval.

(** How the operating system resolves a path string. *)
Variable resolve : string -> path.

Definition os_path_exists (p : string) : M bool := path_exists (resolve p).

(** [load_model] of [src/serve.py] (lines 33-78). *)
Definition load_model (model_version : string) : M (estimator * pyval) :=
  config <- load_config ;;
  mlflow_config <- lift (getitem config "mlflow") ;;
  try_except
    (tracking_uri <- lift (getitem mlflow_config "tracking_uri") ;;
     model <- lift (if String.eqb model_version "latest"
                    then mlflow_load_model tracking_uri
                           "models:/nyc_taxi_trip_duration/latest"
                    else mlflow_load_model tracking_uri
                           ("models:/nyc_taxi_trip_duration/" ++ model_version)) ;;
     model_config <- lift (getitem config "model") ;;
     features <- lift (getitem model_config "features") ;;
     ret (model, features))
    (fun _ =>
       model_config <- lift (getitem config "model") ;;
       model_dir <- lift (getitem model_config "model_dir") ;;
       model_path <- lift (os_path_join model_dir "model.joblib") ;;
       feature_path <- lift (os_path_join model_dir "features.joblib") ;;
       found <- os_path_exists model_path ;;
       if negb found
       then raise FileNotFoundError
       else
         model <- lift (joblib_load_model model_path) ;;
         has_features <- os_path_exists feature_path ;;
         features <-
           (if has_features
            then lift (joblib_load_features feature_path)
            else model_config <- lift (getitem config "model") ;;
                 lift (getitem model_config "features")) ;;
         ret (model, features)).

(** [load_model] of [streamlit_app.py] (lines 50-78); [None] stands for the
    pair [(None, None)]. *)
Definition dashboard_load_model : M (option (estimator * pyval)) :=
  config <- load_config ;;
  mlflow_config <- lift (getitem config "mlflow") ;;
  try_except
    (tracking_uri <- lift (getitem mlflow_config "tracking_uri") ;;
     model <- lift (mlflow_load_model tracking_uri
                      "models:/nyc_taxi_trip_duration/latest") ;;
     model_config <- lift (getitem config "model") ;;
     features <- lift (getitem model_config "features") ;;
     ret (Some (model, features)))
    (fun _ =>
       model_config <- lift (getitem config "model") ;;
       model_dir <- lift (getitem model_config "model_dir") ;;
       model_path <- lift (os_path_join model_dir "model.joblib") ;;
       feature_path <- lift (os_path_join model_dir "features.joblib") ;;
       found <- os_path_exists model_path ;;
       if found
       then
         model <- lift (joblib_load_model model_path) ;;
         has_features <- os_path_exists feature_path ;;
         features <-
           (if has_features
            then lift (joblib_load_features feature_path)
            else model_config <- lift (getitem config "model") ;;
                 lift (getitem model_config "features")) ;;
         ret (Some (model, features))
       else ret None).

End Libraries.

(** The registry is down: every attempt to load from it raises. *)
Definition registry_down {estimator : Type}
    (mlflow_load_model : pyval -> string -> res estimator) : Prop :=
  forall tracking_uri model_uri,
    exists e, mlflow_load_model tracking_uri model_uri = Raise e.

(** The configured features and model directory. *)
Definition configured_features (config : pyval) : res pyval :=
  res_bind (getitem config "model") (fun model_config =>
  getitem model_config "features").

Definition configured_model_dir (config : pyval) : res pyval :=
  res_bind (getitem config "model") (fun model_config =>
  getitem model_config "model_dir").

End Loader.

(* ===================================================================== *)
(** * The month to retrain on: [get_latest_month] of the DAG *)
(* ===================================================================== *)

Module Calendar.

(** [f"{n}"] for an integer. *)
Definition str_int (n : Z) : string := NilZero.string_of_int (Z.to_int n).

(** [f"{n:02d}"]: padded with a zero to two characters. *)
Definition format_02d (n : Z) : string :=
  let s := str_int n in
  if (String.length s <? 2)%nat then "0" ++ s else s.

(** [get_latest_month] (lines 58-70), on the year and month of
    [datetime.now()]. *)
Definition get_latest_month (now_year now_month : Z) : string :=
  if now_month =? 1
  then str_int (now_year - 1) ++ "-12"
  else str_int now_year ++ "-" ++ format_02d (now_month - 1).

End Calendar.

(* ===================================================================== *)
(** * The dashboard's prediction: [predict_trip_duration] *)
(* ===================================================================== *)

Module Dashboard.
Import Py.

Section App.

Variable model_predict : DataFrame -> res (list float).
Variable features : list string.

(** [predict_trip_duration] of [streamlit_app.py] (lines 88-106): [None]
    on any exception. Like the handlers of [Serve], it returns the frames
    handed to [model.predict] next to its result. *)
Definition predict_trip_duration (trip_data : pyval)
  : list DataFrame * option float :=
  match
    res_bind (getitem trip_data "trip_distance") (fun trip_distance =>
    res_bind (getitem trip_data "passenger_count") (fun passenger_count =>
    res_bind (getitem trip_data "hour") (fun hour =>
    res_bind (getitem trip_data "day_of_week") (fun day_of_week =>
    res_bind (getitem trip_data "month") (fun month =>
    res_bind (getitem trip_data "pickup_location_id") (fun pickup_location_id =>
    res_bind (getitem trip_data "dropoff_location_id") (fun dropoff_location_id =>
    Serve.make_frame
      [[trip_distance; passenger_count; hour; day_of_week; month;
        pickup_location_id; dropoff_location_id]] features)))))))
  with
  | Raise _ => ([], None)
  | Ok X =>
      match model_predict X with
      | Raise _ => ([X], None)
      | Ok [] => ([X], None)
      | Ok (prediction :: _) => ([X], Some prediction)
      end
  end.

End App.

(** The dictionary the dashboard builds from the seven inputs of a trip. *)
Definition trip_dict (t : Serve.TripRequest) : pyval :=
  PyDict [("trip_distance", PyFloat (Serve.trip_distance t));
          ("passenger_count", PyInt (Serve.passenger_count t));
          ("hour", PyInt (Serve.hour t));
          ("day_of_week", PyInt (Serve.day_of_week t));
          ("month", PyInt (Serve.month t));
          ("pickup_location_id", PyInt (Serve.pickup_location_id t));
          ("dropoff_location_id", PyInt (Serve.dropoff_location_id t))].

(** The seven keys [predict_trip_duration] reads. *)
Definition trip_keys : list string :=
  ["trip_distance"; "passenger_count"; "hour"; "day_of_week"; "month";
   "pickup_location_id"; "dropoff_location_id"].

End Dashboard.

(* ===================================================================== *)
(** * Download and ingestion: [src/data_ingestion.py] *)
(* ===================================================================== *)

Module Fetch.
Import Py.

(** What is found at a path: a directory, or a file with its bytes. *)
Inductive entry : Type :=
| Folder
| Document (content : string).

(** What [requests.get(url, stream=True)] and the iteration over
    [response.iter_content] yield: no answer at all, or a status and the
    chunks received, possibly cut short by an exception. *)
Inductive get_outcome : Type :=
| GetFailed (e : exn)
| GetAnswered (status : Z) (chunks : list string) (broken : option exn).

(** [FileExistsError] has no constructor in [exn]; it is carried by name. *)
Definition FileExistsError : exn := RuntimeError "FileExistsError".

(** The download acts on the files with their contents, reads the parsed
    [config.yaml], and sends GET requests; a request is recorded by the
    configured source address and the file name asked for. *)
Record Store : Type := {
  disk : gmap Sys.path entry;
  config_yaml : res pyval;
  fetched : list (pyval * string)
}.

Definition set_disk (d : gmap Sys.path entry) (s : Store) : Store :=
  {| disk := d; config_yaml := config_yaml s; fetched := fetched s |}.

Definition F (A : Type) : Type := Store -> Store * res A.

Definition ret {A : Type} (a : A) : F A := fun s => (s, Ok a).

Definition raise {A : Type} (e : exn) : F A := fun s => (s, Raise e).

Definition bind {A B : Type} (m : F A) (k : A -> F B) : F B :=
  fun s =>
    match m s with
    | (s', Ok a) => k a s'
    | (s', Raise e) => (s', Raise e)
    end.

Definition lift {A : Type} (r : res A) : F A := fun s => (s, r).

Declare Scope fetch_scope.
Delimit Scope fetch_scope with fetch.
Notation "x <- m ;; k" := (bind m (fun x => k))
  (at level 100, m at next level, right associativity) : fetch_scope.
Notation "m ;;; k" := (bind m (fun _ => k))
  (at level 100, right associativity) : fetch_scope.
#[local] Open Scope fetch_scope.

Definition load_config : F pyval := fun s => (s, config_yaml s).

(** [Path.mkdir(parents=True, exist_ok=True)], walking down from the root:
    [done] is the part of the path already visited. Directories on the
    way are kept, missing ones are made, and a file on the way stops the
    walk. *)
Fixpoint make_dirs (done rest : Sys.path) (d : gmap Sys.path entry)
  : res (gmap Sys.path entry) :=
  match d !! done with
  | Some (Document _) =>
      Raise (match rest with
             | [] => FileExistsError
             | _ :: _ => NotADirectoryError
             end)
  | found =>
      let d' := match found with
                | None => <[done := Folder]> d
                | Some _ => d
                end in
      match rest with
      | [] => Ok d'
      | name :: rest' => make_dirs (done ++ [name]) rest' d'
      end
  end.

Definition mkdir_parents (p : Sys.path) : F unit :=
  fun s =>
    match make_dirs [] p (disk s) with
    | Ok d => (set_disk d s, Ok tt)
    | Raise e => (s, Raise e)
    end.

(** [open(path, 'wb')]: the file is created or emptied. *)
Definition open_wb (p : Sys.path) : F unit :=
  fun s =>
    match disk s !! p with
    | Some Folder => (s, Raise IsADirectoryError)
    | _ =>
        match disk s !! Sys.parent p with
        | Some Folder => (set_disk (<[p := Document ""]> (disk s)) s, Ok tt)
        | Some (Document _) => (s, Raise NotADirectoryError)
        | None => (s, Raise FileNotFoundError)
        end
    end.

(** [f.write(chunk)] on the file opened at [p]. *)
Definition write (p : Sys.path) (chunk : string) : F unit :=
  fun s =>
    match disk s !! p with
    | Some (Document content) =>
        (set_disk (<[p := Document (content ++ chunk)]> (disk s)) s, Ok tt)
    | _ => (s, Raise FileNotFoundError)
    end.

Fixpoint write_all (p : Sys.path) (chunks : list string) : F unit :=
  match chunks with
  | [] => ret tt
  | chunk :: chunks' => write p chunk ;;; write_all p chunks'
  end.

(** [response.raise_for_status()]. *)
Definition raise_for_status (status : Z) : F unit :=
  if (400 <=? status) && (status <? 600)
  then raise RequestException
  else ret tt.

(** The frame [preprocess_data] returns: the selected column names over
    the rows as they are after line 119, each the row read from the month
    file with the columns computed from it. *)
Record Frame : Type := {
  selected : list string;
  records : list (Ingestion.RawTrip * Ingestion.Trip)
}.

(** The columns of the frame after line 119, for a month file with the
    columns of [Ingestion.RawTrip]. *)
Definition frame_columns : list string :=
  ["trip_distance"; "passenger_count"; "PULocationID"; "DOLocationID";
   "lpep_pickup_datetime"; "lpep_dropoff_datetime";
   "pickup_datetime"; "dropoff_datetime"; "trip_duration_minutes";
   "hour"; "day_of_week"; "month";
   "pickup_location_id"; "dropoff_location_id"].

(** The list [available_features] before the target is appended (lines
    124-132). *)
Definition feature_columns : list string :=
  ["trip_distance"; "passenger_count"; "hour"; "day_of_week"; "month";
   "pickup_location_id"; "dropoff_location_id"].

(** Lines 135-138: the target is appended, and the names that are columns
    of the frame are kept. The seven features are; the target is tested
    with [col in df.columns]. *)
Definition selected_columns (target : pyval) : res (list string) :=
  res_bind (in_columns target frame_columns) (fun found =>
  Ok (feature_columns ++
      match target with
      | PyStr t => if found then [t] else []
      | _ => []
      end)).

(** Whether the cell of a row under a column is missing (NaN or NaT). The
    two integer identifiers never are. *)
Definition missing (row : Ingestion.RawTrip * Ingestion.Trip) (col : string)
  : bool :=
  let '(r, t) := row in
  if String.eqb col "trip_distance" then Ingestion.isna (Ingestion.trip_distance t)
  else if String.eqb col "passenger_count"
  then Ingestion.isna (Ingestion.passenger_count t)
  else if String.eqb col "PULocationID"
  then negb (Ingestion.notna (Ingestion.PULocationID r))
  else if String.eqb col "DOLocationID"
  then negb (Ingestion.notna (Ingestion.DOLocationID r))
  else if String.eqb col "lpep_pickup_datetime" || String.eqb col "pickup_datetime"
  then negb (Ingestion.notna (Ingestion.lpep_pickup_datetime r))
  else if String.eqb col "lpep_dropoff_datetime"
          || String.eqb col "dropoff_datetime"
  then negb (Ingestion.notna (Ingestion.lpep_dropoff_datetime r))
  else if String.eqb col "trip_duration_minutes"
  then Ingestion.isna (Ingestion.trip_duration_minutes t)
  else if String.eqb col "hour" then negb (Ingestion.notna (Ingestion.hour t))
  else if String.eqb col "day_of_week"
  then negb (Ingestion.notna (Ingestion.day_of_week t))
  else if String.eqb col "month" then negb (Ingestion.notna (Ingestion.month t))
  else false.

(** [DataFrame.dropna()] on the selected columns (line 141). *)
Definition dropna (cols : list string)
    (rows : list (Ingestion.RawTrip * Ingestion.Trip))
  : list (Ingestion.RawTrip * Ingestion.Trip) :=
  List.filter (fun row => forallb (fun col => negb (missing row col)) cols) rows.

Section Collaborators.

(** The file server: what a GET yields, given the requests sent before. *)
Variable origin : list (pyval * string) -> pyval * string -> get_outcome.

(** How the operating system resolves a path string. *)
Variable resolve : string -> Sys.path.

(** [pd.read_parquet] on the bytes of a file, and the text
    [DataFrame.to_csv(index=False)] writes. *)
Variable parse_parquet : string -> res (list Ingestion.RawTrip).
Variable render_csv : Frame -> string.

(** Pandas' datetime arithmetic, as in [Ingestion]. *)
Variable minutes_between : Z -> Z -> float.
Variable dt_hour : Z -> Z.
Variable dt_dayofweek : Z -> Z.
Variable dt_month : Z -> Z.

Definition os_path_exists (p : string) : F bool :=
  fun s => (s, Ok (bool_decide (is_Some (disk s !! resolve p)))).

(** [requests.get(url, stream=True)]: the request is sent (recorded); the
    answer comes with its status and its stream of chunks. *)
Definition requests_get (base_url : pyval) (filename : string)
  : F (Z * list string * option exn) :=
  fun s =>
    let s' := {| disk := disk s; config_yaml := config_yaml s;
                 fetched := fetched s ++ [(base_url, filename)] |} in
    match origin (fetched s) (base_url, filename) with
    | GetFailed e => (s', Raise e)
    | GetAnswered status chunks broken => (s', Ok (status, chunks, broken))
    end.

(** Lines 52-62 of [download_nyc_taxi_data]: the request, the status
    check, and the chunks written to the file as they arrive. *)
Definition transfer (base_url : pyval) (filename filepath : string)
  : F string :=
  response <- requests_get base_url filename ;;
  let '(status, chunks, broken) := response in
  raise_for_status status ;;;
  open_wb (resolve filepath) ;;;
  write_all (resolve filepath) chunks ;;;
  match broken with
  | Some e => raise e
  | None => ret filepath
  end.

(** [download_nyc_taxi_data] (lines 25-65). The handler of
    [RequestException] logs and re-raises, so every exception leaves the
    function as it was raised. *)
Definition download_nyc_taxi_data (month : string) (data_dir : pyval)
  : F string :=
  config <- load_config ;;
  data_config <- lift (getitem config "data") ;;
  base_url <- lift (getitem data_config "source_url") ;;
  dir <- lift (match data_dir with
               | PyStr dir => Ok dir
               | _ => Raise TypeError
               end) ;;
  mkdir_parents (resolve dir) ;;;
  let filename := ("green_tripdata_" ++ month ++ ".parquet")%string in
  let filepath := Loader.path_join dir filename in
  found <- os_path_exists filepath ;;
  if found
  then ret filepath
  else transfer base_url filename filepath.

(** [pd.read_parquet(filepath)] on the current disk. *)
Definition read_parquet (s : Store) (filepath : string)
  : res (list Ingestion.RawTrip) :=
  match disk s !! resolve filepath with
  | Some (Document content) => parse_parquet content
  | Some Folder => Raise IsADirectoryError
  | None => Raise FileNotFoundError
  end.

(** Lines 113-119 on one row: the computed columns, kept next to the row
    they come from. *)
Definition derive (r : Ingestion.RawTrip)
  : res (Ingestion.RawTrip * Ingestion.Trip) :=
  res_bind (Ingestion.select minutes_between dt_hour dt_dayofweek dt_month r)
    (fun t => Ok (r, t)).

(** [preprocess_data] (lines 68-146) on the current disk and the current
    configuration: the month file is read (line 79) and the two masks and
    the computed columns applied (lines 84-119) with the definitions of
    [Ingestion]; then the configuration is loaded and its target read
    (lines 122 and 135), the columns selected (line 138) and the rows with
    a missing value dropped (line 141). *)
Definition preprocess_data (filepath : string) : F Frame :=
  fun s =>
    (s,
     res_bind (read_parquet s filepath) (fun df =>
     let df := List.filter Ingestion.valid_record df in
     let df := List.filter (Ingestion.valid_duration minutes_between) df in
     res_bind (Ingestion.map_res derive df) (fun df =>
     res_bind (config_yaml s) (fun config =>
     res_bind (getitem config "model") (fun model_config =>
     res_bind (getitem model_config "target") (fun target =>
     res_bind (selected_columns target) (fun cols =>
     Ok {| selected := cols; records := dropna cols df |}))))))).

(** [df.to_csv(path, index=False)]. *)
Definition to_csv (df : Frame) (p : string) : F unit :=
  open_wb (resolve p) ;;; write (resolve p) (render_csv df).

(** [ingest_data] (lines 149-175). *)
Definition ingest_data (month : string) (save_processed : bool)
  : F Frame :=
  config <- load_config ;;
  data_config <- lift (getitem config "data") ;;
  data_dir <- lift (getitem data_config "data_dir") ;;
  filepath <- download_nyc_taxi_data month data_dir ;;
  df <- preprocess_data filepath ;;
  if save_processed
  then
    processed_path <-
      lift (Loader.os_path_join data_dir
              ("processed_" ++ month ++ ".csv")%string) ;;
    to_csv df processed_path ;;;
    ret df
  else ret df.

End Collaborators.

(** The name and the path string of the month file. *)
Definition month_file (month : string) : string :=
  ("green_tripdata_" ++ month ++ ".parquet")%string.

Definition month_path (dir month : string) : string :=
  Loader.path_join dir (month_file month).

(** [p] and every directory above it exist as directories. *)
Definition directory (d : gmap Sys.path entry) (p : Sys.path) : Prop :=
  forall q : Sys.path, q `prefix_of` p -> d !! q = Some Folder.

(** The configured source address. *)
Definition configured_source (s : Store) : res pyval :=
  res_bind (config_yaml s) (fun config =>
  res_bind (getitem config "data") (fun data_config =>
  getitem data_config "source_url")).

(** The configured data directory. *)
Definition configured_data_dir (s : Store) : res pyval :=
  res_bind (config_yaml s) (fun config =>
  res_bind (getitem config "data") (fun data_config =>
  getitem data_config "data_dir")).

(** The configured target column. *)
Definition configured_target (s : Store) : res pyval :=
  res_bind (config_yaml s) (fun config =>
  res_bind (getitem config "model") (fun model_config =>
  getitem model_config "target")).

(** The name and the path string of the processed file. *)
Definition processed_path (dir month : string) : string :=
  Loader.path_join dir ("processed_" ++ month ++ ".csv")%string.

(** The bytes of a file written chunk after chunk. *)
Definition joined (chunks : list string) : string :=
  fold_right String.append EmptyString chunks.

(** The status lets [raise_for_status] pass. *)
Definition passes (status : Z) : Prop := status < 400 \/ 600 <= status.

End Fetch.

(* ===================================================================== *)
(** * Further test doubles *)
(* ===================================================================== *)

Module Stand.
Import Py.

(** A drift collaborator that rejects its input. *)
Definition evidently_fails (_ : Drift.ColumnMapping) (_ _ : DataFrame)
  : res pyval :=
  Raise ValueError.

(** A checkout whose [config.yaml] has no [airflow] section. *)
Definition unconfigured : Sys.World :=
  {| Sys.files := Sys.files Doubles.idle;
     Sys.environ := ∅;
     Sys.config_yaml := Ok (PyDict [("model", PyDict [])]);
     Sys.http_log := [] |}.

(** An ingestion that finds no month file. *)
Definition ingest_fails (_ : string) (_ : bool) : Sys.M DataFrame :=
  Sys.raise FileNotFoundError.

(** The segments of a path string. *)
Fixpoint split_path (segment p : string) : list string :=
  let closed := if String.eqb segment "" then [] else [segment] in
  match p with
  | EmptyString => closed
  | String c p' =>
      if String.eqb (String c EmptyString) "/"
      then closed ++ split_path "" p'
      else split_path (segment ++ String c EmptyString)%string p'
  end.

(** Path resolution with the checkout as working directory. *)
Definition resolve (p : string) : Sys.path :=
  if String.prefix "/" p
  then split_path "" p
  else Doubles.repo_root ++ split_path "" p.

(** A parsed [config.yaml] with the sections the loaders and the
    ingestion read. *)
Definition config : pyval :=
  PyDict
    [("data",
      PyDict [("source_url",
               PyStr "https://d37ci6vzurychx.cloudfront.net/trip-data");
              ("data_dir", PyStr "data")]);
     ("model",
      PyDict [("features", PyList (map PyStr Doubles.feature_names));
              ("target", PyStr "trip_duration_minutes");
              ("model_dir", PyStr "models")]);
     ("mlflow", PyDict [("tracking_uri", PyStr "sqlite:///mlflow.db")])].

Definition mlflow_config : pyval :=
  PyDict [("tracking_uri", PyStr "sqlite:///mlflow.db")].

(** Estimators are told apart by where they were loaded from. *)
Definition mlflow_serving (_ : pyval) (model_uri : string) : res string :=
  Ok model_uri.

Definition mlflow_down (_ : pyval) (_ : string) : res string :=
  Raise (RuntimeError "MlflowException").

Definition joblib_load_model (model_path : string) : res string :=
  Ok model_path.

Definition joblib_load_features (_ : string) : res pyval :=
  Ok (PyList [PyStr "trip_distance"]).

Definition models_dir : Sys.path := Doubles.repo_root ++ ["models"].

(** A checkout before any training, and one with a trained local model
    but no stored feature list. *)
Definition untrained : Sys.World :=
  {| Sys.files := {[ Doubles.repo_root := Sys.Dir ]};
     Sys.environ := ∅;
     Sys.config_yaml := Ok config;
     Sys.http_log := [] |}.

Definition trained : Sys.World :=
  {| Sys.files := {[ Doubles.repo_root := Sys.Dir;
                     models_dir := Sys.Dir;
                     models_dir ++ ["model.joblib"] := Sys.File ]};
     Sys.environ := ∅;
     Sys.config_yaml := Ok config;
     Sys.http_log := [] |}.

(** A trip dictionary without its [hour]. *)
Definition no_hour : list (string * pyval) :=
  [("trip_distance", PyFloat (Doubles.float_of 5 (-1)));
   ("passenger_count", PyInt 1)].

Definition data_dir : Sys.path := Doubles.repo_root ++ ["data"].

Definition folders : gmap Sys.path Fetch.entry :=
  {[ [] := Fetch.Folder;
     ["opt"] := Fetch.Folder;
     Doubles.repo_root := Fetch.Folder;
     data_dir := Fetch.Folder ]}.

(** The checkout with an empty data directory. *)
Definition empty_store : Fetch.Store :=
  {| Fetch.disk := folders;
     Fetch.config_yaml := Ok config;
     Fetch.fetched := [] |}.

(** The bytes of a month file, as two chunks and as one content. *)
Definition month_chunks : list string := ["PAR1"; "rides"].

Definition month_bytes : string := "PAR1rides".

(** The checkout with the file of January 2023 downloaded. *)
Definition january_store : Fetch.Store :=
  Fetch.set_disk
    (<[data_dir ++ ["green_tripdata_2023-01.parquet"]
       := Fetch.Document month_bytes]> folders)
    empty_store.

(** The same with a file that is cut off after its first chunk. *)
Definition cut_store : Fetch.Store :=
  Fetch.set_disk
    (<[data_dir ++ ["green_tripdata_2023-01.parquet"]
       := Fetch.Document "PAR1"]> folders)
    empty_store.

(** File servers: one that serves the month file, one that is down, one
    that has no such file, and one whose stream breaks after the first
    chunk. *)
Definition origin_serving (_ : list (pyval * string)) (_ : pyval * string)
  : Fetch.get_outcome :=
  Fetch.GetAnswered 200 month_chunks None.

Definition origin_down (_ : list (pyval * string)) (_ : pyval * string)
  : Fetch.get_outcome :=
  Fetch.GetFailed RequestException.

Definition origin_missing (_ : list (pyval * string)) (_ : pyval * string)
  : Fetch.get_outcome :=
  Fetch.GetAnswered 404 [] None.

Definition origin_cut (_ : list (pyval * string)) (_ : pyval * string)
  : Fetch.get_outcome :=
  Fetch.GetAnswered 200 ["PAR1"] (Some RequestException).

(** A reader that accepts the complete month file only. *)
Definition parse_parquet (content : string) : res (list Ingestion.RawTrip) :=
  if String.eqb content month_bytes
  then Ok [Doubles.ride; Doubles.long_ride]
  else Raise ValueError.

Definition newline : string := String (Ascii.ascii_of_nat 10) EmptyString.

(** A writer that names the selected columns and puts the two location
    ids of each row on a line. *)
Definition render_csv (df : Fetch.Frame) : string :=
  (fold_right (fun col text => col ++ "," ++ text) "" (Fetch.selected df) ++
   fold_right
     (fun row text =>
        newline ++
        Calendar.str_int (Ingestion.pickup_location_id (snd row)) ++ "," ++
        Calendar.str_int (Ingestion.dropoff_location_id (snd row)) ++ text)
     "" (Fetch.records df))%string.

(** The checkout with the file of January 2023 downloaded and a
    configuration that has only its [data] section. *)
Definition untargeted_store : Fetch.Store :=
  {| Fetch.disk := Fetch.disk january_store;
     Fetch.config_yaml :=
       Ok (PyDict
             [("data",
               PyDict [("source_url",
                        PyStr "https://d37ci6vzurychx.cloudfront.net/trip-data");
                       ("data_dir", PyStr "data")])]);
     Fetch.fetched := [] |}.

(** The checkout before the data directory is made. *)
Definition fresh_store : Fetch.Store :=
  {| Fetch.disk := {[ [] := Fetch.Folder;
                      ["opt"] := Fetch.Folder;
                      Doubles.repo_root := Fetch.Folder ]};
     Fetch.config_yaml := Ok config;
     Fetch.fetched := [] |}.

End Stand.

(* ===================================================================== *)
(** * Theorems *)
(* ===================================================================== *)

Import Py.

Section PyFacts.
Import Py.

Lemma Qltb_lt (p q : Q) : Qltb p q = true <-> (p < q)%Q.
Proof.
  unfold Qltb. rewrite negb_true_iff.
  split; intro H.
  - apply Qnot_le_lt. intro Hle. apply Qle_bool_iff in Hle. congruence.
  - destruct (Qle_bool q p) eqn:E; [|reflexivity].
    apply Qle_bool_iff in E. exfalso. exact (Qlt_not_le _ _ H E).
Qed.

Lemma xlt_fin (p q : Q) : xlt (XFin p) (XFin q) = true <-> (p < q)%Q.
Proof. apply Qltb_lt. Qed.

Lemma xle_fin (p q : Q) : xle (XFin p) (XFin q) = true <-> (p <= q)%Q.
Proof. apply Qle_bool_iff. Qed.

Lemma xlt_xeq (a b : xreal) : xeq a b = true -> xlt b a = false.
Proof.
  destruct a as [|[]|p], b as [|[]|q]; simpl; try congruence.
  intro H. apply Qeq_bool_iff in H.
  destruct (Qltb q p) eqn:E; [|reflexivity].
  apply Qltb_lt in E. rewrite H in E. exfalso. exact (Qlt_irrefl _ E).
Qed.

End PyFacts.


Section IngestionFacts.
Import Py Ingestion Bounds.

Variable read_parquet : string -> res (list RawTrip).
Variable minutes_between : Z -> Z -> float.
Variable dt_hour dt_dayofweek dt_month : Z -> Z.

#[local] Abbreviation duration_of := (Ingestion.duration_of minutes_between).
#[local] Abbreviation valid_duration := (Ingestion.valid_duration minutes_between).
#[local] Abbreviation select :=
  (Ingestion.select minutes_between dt_hour dt_dayofweek dt_month).
#[local] Abbreviation preprocess_data :=
  (Ingestion.preprocess_data read_parquet minutes_between
     dt_hour dt_dayofweek dt_month).

Lemma gt_lt_lit (x : float) (lo hi : Z) :
  gt_lit x lo && lt_lit x hi = true <-> in_open x lo hi.
Proof.
  unfold gt_lit, lt_lit, in_open, Z2X.
  destruct (F2X x) as [|[]|q]; simpl;
    try (split; [discriminate | intros (q' & E & _); discriminate]).
  rewrite andb_true_iff, !Qltb_lt. split.
  - intros [H1 H2]. exists q. auto.
  - intros (q' & E & H1 & H2). injection E as <-. auto.
Qed.

Lemma gt_le_lit (x : float) (lo hi : Z) :
  gt_lit x lo && le_lit x hi = true <-> in_left_open x lo hi.
Proof.
  unfold gt_lit, le_lit, in_left_open, Z2X.
  destruct (F2X x) as [|[]|q]; simpl;
    try (split; [discriminate | intros (q' & E & _); discriminate]).
  rewrite andb_true_iff, Qltb_lt, Qle_bool_iff. split.
  - intros [H1 H2]. exists q. auto.
  - intros (q' & E & H1 & H2). injection E as <-. auto.
Qed.

Lemma valid_record_spec (r : RawTrip) :
  valid_record r = true <->
  in_open (raw_trip_distance r) 0 100
  /\ in_left_open (raw_passenger_count r) 0 6
  /\ is_Some (PULocationID r) /\ is_Some (DOLocationID r).
Proof.
  unfold valid_record.
  rewrite <- gt_lt_lit, <- gt_le_lit, !andb_true_iff.
  assert (Hn : forall o : option Z, notna o = true <-> is_Some o).
  { intros [n|]; simpl; split; intro H; eauto; try discriminate.
    destruct H as [? H]; discriminate. }
  rewrite !Hn. tauto.
Qed.

Lemma valid_duration_spec (r : RawTrip) :
  valid_duration r = true <-> in_left_open (duration_of r) 0 180.
Proof. apply gt_le_lit. Qed.

Lemma select_fields (r : RawTrip) (t : Trip) :
  select r = Ok t ->
  trip_distance t = raw_trip_distance r
  /\ passenger_count t = raw_passenger_count r
  /\ trip_duration_minutes t = duration_of r.
Proof.
  unfold Ingestion.select.
  destruct (PULocationID r), (DOLocationID r); simpl; try discriminate.
  intros [= <-]. auto.
Qed.

Lemma select_total (r : RawTrip) :
  valid_record r = true -> exists t, select r = Ok t.
Proof.
  intros H. apply valid_record_spec in H as (_ & _ & [pu Hpu] & [do Hdo]).
  unfold Ingestion.select. rewrite Hpu, Hdo. simpl. eauto.
Qed.

Lemma map_res_total {A B : Type} (f : A -> res B) (l : list A) :
  (forall a, In a l -> exists b, f a = Ok b) ->
  exists l', map_res f l = Ok l'.
Proof.
  induction l as [|a l IH]; intros H; simpl.
  - eauto.
  - destruct (H a) as [b Hb]; [now left|].
    destruct IH as [l' Hl']; [intros; apply H; now right|].
    rewrite Hb, Hl'. simpl. eauto.
Qed.

Lemma map_res_In {A B : Type} (f : A -> res B) (l : list A) (l' : list B) :
  map_res f l = Ok l' ->
  forall b, In b l' -> exists a, In a l /\ f a = Ok b.
Proof.
  revert l'. induction l as [|a l IH]; intros l' H b Hb; simpl in H.
  - injection H as <-. destruct Hb.
  - destruct (f a) as [b0|] eqn:Ea; simpl in H; [|discriminate].
    destruct (map_res f l) as [bs|] eqn:El; simpl in H; [|discriminate].
    injection H as <-. destruct Hb as [<-|Hb].
    + exists a. split; [now left | assumption].
    + destruct (IH bs eq_refl b Hb) as (a' & Ha' & Hf).
      exists a'. split; [now right | assumption].
Qed.

(** C7, as the code has it. The frame [preprocess_data] returns holds only
    rows with a distance in (0,100), a passenger count in (0,6] and a
    duration in (0,180]; a whole passenger count is then in [1,6]. Each
    returned row is an input row with those three fields unchanged, and no
    input row outside the bounds is among them. *)
Theorem preprocess_data_bounds (filepath : string) (raw : list RawTrip) :
  read_parquet filepath = Ok raw ->
  exists out : list Trip,
    preprocess_data filepath = Ok out
    /\ (forall t, In t out ->
          within_bounds (trip_distance t) (passenger_count t)
            (trip_duration_minutes t)
          /\ (forall n, whole (passenger_count t) n -> 1 <= n <= 6)
          /\ exists r, In r raw /\ select r = Ok t)
    /\ (forall r t, In r raw -> select r = Ok t ->
          ~ within_bounds (raw_trip_distance r) (raw_passenger_count r)
              (duration_of r) ->
          ~ In t out).
Proof.
  intros Hread.
  unfold Ingestion.preprocess_data. rewrite Hread. simpl.
  set (kept := List.filter valid_duration (List.filter valid_record raw)).
  assert (Hkept : forall r, In r kept ->
            In r raw /\ valid_record r = true /\ valid_duration r = true).
  { intros r Hr. unfold kept in Hr.
    apply filter_In in Hr as [Hr Hd]. apply filter_In in Hr as [Hr Hv]. auto. }
  destruct (map_res_total select kept) as [sel Hsel].
  { intros r Hr. apply select_total. now apply Hkept. }
  rewrite Hsel. simpl. eexists. split; [reflexivity|].
  assert (Hout : forall t, In t (List.filter complete sel) ->
            within_bounds (trip_distance t) (passenger_count t)
              (trip_duration_minutes t)
            /\ exists r, In r raw /\ select r = Ok t).
  { intros t Ht. apply filter_In in Ht as [Ht _].
    destruct (map_res_In _ _ _ Hsel t Ht) as (r & Hr & Hs).
    destruct (Hkept r Hr) as (Hraw & Hv & Hd).
    destruct (select_fields r t Hs) as (-> & -> & ->).
    apply valid_record_spec in Hv as (Hdist & Hpass & _).
    apply valid_duration_spec in Hd.
    split; [repeat split; assumption | eauto]. }
  split.
  - intros t Ht. destruct (Hout t Ht) as [Hb Hr].
    split; [exact Hb|]. split; [|exact Hr].
    intros n (q & Eq & Hq).
    destruct Hb as (_ & (q' & Eq' & Hlo & Hhi) & _).
    rewrite Eq in Eq'. injection Eq' as <-.
    rewrite Hq in Hlo, Hhi.
    rewrite <- Zlt_Qlt in Hlo. rewrite <- Zle_Qle in Hhi. lia.
  - intros r t Hr Hs Hviol Ht.
    destruct (Hout t Ht) as [Hb _].
    destruct (select_fields r t Hs) as (E1 & E2 & E3).
    rewrite E1, E2, E3 in Hb. exact (Hviol Hb).
Qed.

End IngestionFacts.

(** The theorem at a month file of two rows, one of them 120 miles long. *)
Lemma preprocess_data_bounds_witness :
  exists out : list Ingestion.Trip,
    Ingestion.preprocess_data Doubles.read_month Doubles.minutes_between
      Doubles.dt_hour Doubles.dt_dayofweek Doubles.dt_month
      "green_tripdata_2023-01.parquet" = Ok out
    /\ (forall t, In t out ->
          Bounds.within_bounds (Ingestion.trip_distance t)
            (Ingestion.passenger_count t) (Ingestion.trip_duration_minutes t)
          /\ (forall n, Bounds.whole (Ingestion.passenger_count t) n -> 1 <= n <= 6)
          /\ exists r, In r [Doubles.ride; Doubles.long_ride]
               /\ Ingestion.select Doubles.minutes_between Doubles.dt_hour
                    Doubles.dt_dayofweek Doubles.dt_month r = Ok t)
    /\ (forall r t, In r [Doubles.ride; Doubles.long_ride] ->
          Ingestion.select Doubles.minutes_between Doubles.dt_hour
            Doubles.dt_dayofweek Doubles.dt_month r = Ok t ->
          ~ Bounds.within_bounds (Ingestion.raw_trip_distance r)
              (Ingestion.raw_passenger_count r)
              (Ingestion.duration_of Doubles.minutes_between r) ->
          ~ In t out).
Proof.
  apply (preprocess_data_bounds Doubles.read_month Doubles.minutes_between
           Doubles.dt_hour Doubles.dt_dayofweek Doubles.dt_month
           "green_tripdata_2023-01.parquet" [Doubles.ride; Doubles.long_ride]).
  reflexivity.
Defined.

Example preprocess_data_month :
  Ingestion.preprocess_data Doubles.read_month Doubles.minutes_between
    Doubles.dt_hour Doubles.dt_dayofweek Doubles.dt_month
    "green_tripdata_2023-01.parquet" = Ok [Doubles.cleaned Doubles.ride].
Proof. vm_compute. reflexivity. Qed.

(** C7 as stated fails: a row with a passenger count of 0.5 passes both
    masks, and 0.5 is not in [1,6]. *)
Lemma preprocess_data_keeps_half_passenger :
  Ingestion.preprocess_data Doubles.read_half Doubles.minutes_between
    Doubles.dt_hour Doubles.dt_dayofweek Doubles.dt_month
    "green_tripdata_2023-01.parquet" = Ok [Doubles.cleaned Doubles.half_ride]
  /\ ~ Bounds.in_closed
        (Ingestion.passenger_count (Doubles.cleaned Doubles.half_ride)) 1 6.
Proof.
  split; [vm_compute; reflexivity|].
  intros (q & E & Hlo & _).
  vm_compute in E. injection E as <-.
  vm_compute in Hlo. now apply Hlo.
Qed.

Section ExtractFacts.
Import Py Drift Report.

Lemma scan_metric_other (thr : float) (d : list (string * pyval)) (v : locals) :
  named_dataset_drift d = false ->
  scan_metric thr (PyDict d) v = (v, Continue).
Proof.
  unfold named_dataset_drift, scan_metric. simpl. now intros ->.
Qed.

Lemma scan_metrics_found (thr : float) (ms : list pyval)
    (md rd : list (string * pyval)) (sc0 : pyval) :
  first_dataset_metric ms md ->
  default (PyDict []) (assoc_get "result" md) = PyDict rd ->
  scan_metrics thr ms (false, sc0)
  = interpreted thr (default (PyBool false) (assoc_get "dataset_drift" rd)).
Proof.
  intros Hfirst Hres.
  induction Hfirst as [md rest Hname | d rest md Hname Hfirst IH].
  - simpl. unfold scan_metric. simpl.
    unfold named_dataset_drift in Hname. rewrite Hname, Hres. simpl.
    destruct (default (PyBool false) (assoc_get "dataset_drift" rd)) as [|b|n|f|s|l|dd];
      simpl; try reflexivity.
    destruct (float_of_int n); reflexivity.
  - simpl. rewrite (scan_metric_other thr d _ Hname). exact (IH Hres).
Qed.

Lemma scan_metrics_bad_result (thr : float) (ms : list pyval)
    (md : list (string * pyval)) (v : locals) :
  first_dataset_metric ms md ->
  (forall rd, default (PyDict []) (assoc_get "result" md) <> PyDict rd) ->
  scan_metrics thr ms v = (v, Some AttributeError).
Proof.
  intros Hfirst Hres.
  induction Hfirst as [md rest Hname | d rest md Hname Hfirst IH].
  - simpl. unfold scan_metric. simpl.
    unfold named_dataset_drift in Hname. rewrite Hname.
    destruct (default (PyDict []) (assoc_get "result" md)) as [|b|n|f|s|l|dd];
      simpl; try reflexivity.
    now destruct (Hres dd).
  - simpl. rewrite (scan_metric_other thr d _ Hname). exact (IH Hres).
Qed.

Lemma scan_metrics_none (thr : float) (ms : list pyval) (v : locals) :
  (forall md, ~ first_dataset_metric ms md) ->
  exists r, scan_metrics thr ms v = (v, r).
Proof.
  induction ms as [|m ms IH]; intros Hnone; simpl.
  - eauto.
  - destruct m as [|b|n|f|s|l|d];
      try (unfold scan_metric; simpl; eauto; fail).
    destruct (named_dataset_drift d) eqn:Hname.
    + destruct (Hnone d). now constructor.
    + rewrite (scan_metric_other thr d v Hname).
      apply IH. intros md Hmd. apply (Hnone md). now constructor.
Qed.

Lemma first_dataset_metric_dec (ms : list pyval) :
  (exists md, first_dataset_metric ms md)
  \/ (forall md, ~ first_dataset_metric ms md).
Proof.
  induction ms as [|m ms IH].
  - right. intros md H. inversion H.
  - destruct m as [|b|n|f|s|l|d];
      try (right; intros md H; inversion H; fail).
    destruct (named_dataset_drift d) eqn:Hname.
    + left. exists d. now constructor.
    + destruct IH as [[md Hmd] | Hnone].
      * left. exists md. now constructor.
      * right. intros md H. inversion H; subst; [congruence|].
        now apply (Hnone md).
Qed.

Lemma no_dict_no_metric (ms : list pyval) :
  (forall m, In m ms -> exists s, m = PyStr s) ->
  forall md, ~ first_dataset_metric ms md.
Proof.
  intros Hstr md H.
  destruct H as [md rest _ | d rest md _ _];
    destruct (Hstr (PyDict _) (or_introl eq_refl)) as [s Hs]; discriminate.
Qed.

Lemma chars_str (s : string) (m : pyval) :
  In m (chars s) -> exists c, m = PyStr c.
Proof.
  induction s as [|a s IH]; simpl; [tauto|].
  intros [<-|H]; eauto.
Qed.

(** The locals after the [try] block and its handler, when the report gives
    a dataset-level result. *)
Lemma extract_drift_reports (report s : pyval) (thr : float) :
  reports report s ->
  extract_drift report thr
  = match snd (interpreted thr s) with
    | Some _ => (false, snd (fst (interpreted thr s)))
    | None => fst (interpreted thr s)
    end.
Proof.
  intros (d & ms & md & rd & -> & Hms & Hfirst & Hres & <-).
  unfold extract_drift. simpl. rewrite Hms. simpl.
  rewrite (scan_metrics_found thr ms md rd _ Hfirst Hres).
  destruct (interpreted thr _) as [v [e|]]; reflexivity.
Qed.

(** Without a dataset-level result the locals keep their defaults. *)
Lemma extract_drift_silent (report : pyval) (thr : float) :
  (forall s, ~ reports report s) ->
  extract_drift report thr = (false, PyFloat float_zero).
Proof.
  intros Hnone. unfold extract_drift.
  destruct report as [|b|n|f|s|l|d]; try reflexivity.
  simpl.
  destruct (assoc_get "metrics" d) as [metrics|] eqn:Hms; simpl; [|reflexivity].
  assert (Hscan : forall ms, (forall md, ~ first_dataset_metric ms md) ->
            (let '(v, raised) := scan_metrics thr ms (false, PyFloat float_zero) in
             match raised with Some _ => (false, snd v) | None => v end)
            = (false, PyFloat float_zero)).
  { intros ms H. destruct (scan_metrics_none thr ms (false, PyFloat float_zero) H)
      as [r ->]. destruct r; reflexivity. }
  destruct metrics as [|b|n|f|s|ms|dd]; simpl; try reflexivity.
  - apply Hscan, no_dict_no_metric. apply chars_str.
  - destruct (first_dataset_metric_dec ms) as [[md Hmd] | Hno].
    + rewrite (scan_metrics_bad_result thr ms md _ Hmd); [reflexivity|].
      intros rd Hrd. apply (Hnone (default (PyBool false) (assoc_get "dataset_drift" rd))).
      exists d, ms, md, rd. auto.
    + now apply Hscan.
  - apply Hscan, no_dict_no_metric.
    intros m Hm. apply in_map_iff in Hm as (kv & <- & _). eauto.
Qed.

Lemma first_dataset_metric_unique (ms : list pyval)
    (md md' : list (string * pyval)) :
  first_dataset_metric ms md -> first_dataset_metric ms md' -> md = md'.
Proof.
  intros H. revert md'.
  induction H as [md rest Hname | d rest md Hname H IH]; intros md' H';
    inversion H'; subst; try congruence.
  now apply IH.
Qed.

Lemma reports_dec (report : pyval) :
  (exists s, reports report s) \/ (forall s, ~ reports report s).
Proof.
  destruct report as [|b|n|f|s|l|d];
    try (right; intros s0 (d0 & ms & md & rd & E & _); discriminate).
  destruct (assoc_get "metrics" d) as [metrics|] eqn:Hms.
  2:{ right. intros s0 (d0 & ms & md & rd & [= <-] & E & _). congruence. }
  destruct metrics as [|b|n|f|s|ms|dd];
    try (right; intros s0 (d0 & ms0 & md & rd & [= <-] & E & _); congruence).
  destruct (first_dataset_metric_dec ms) as [[md Hmd] | Hno].
  - destruct (default (PyDict []) (assoc_get "result" md)) as [|b|n|f|s|l|rd] eqn:Hres.
    7:{ left. exists (default (PyBool false) (assoc_get "dataset_drift" rd)).
        exists d, ms, md, rd. auto. }
    all: right; intros s0 (d0 & ms0 & md0 & rd0 & [= <-] & E & Hf & Hr & _);
      rewrite Hms in E; injection E as <-;
      rewrite (first_dataset_metric_unique _ _ _ Hf Hmd) in Hr; congruence.
  - right. intros s0 (d0 & ms0 & md0 & rd0 & [= <-] & E & Hf & _).
    rewrite Hms in E. injection E as <-. exact (Hno _ Hf).
Qed.

End ExtractFacts.

Section CheckDriftFacts.
Import Py Sys Drift Report.

Variable evidently_report : ColumnMapping -> DataFrame -> DataFrame -> res pyval.

#[local] Abbreviation drift_report_dict := (Drift.drift_report_dict evidently_report).
#[local] Abbreviation check_drift := (Drift.check_drift evidently_report).

Lemma check_drift_of_report (reference_data current_data : DataFrame)
    (thr : float) (w w' : World) (report : pyval) :
  drift_report_dict reference_data current_data w = (w', Ok report) ->
  check_drift reference_data current_data thr w
  = (w', Ok (verdict_of report thr reference_data current_data)).
Proof.
  intros H. unfold Drift.check_drift, bind. rewrite H.
  unfold verdict_of. destruct (extract_drift report thr). reflexivity.
Qed.

(** Building the report reads the configuration and changes nothing. *)
Lemma drift_report_dict_world (reference_data current_data : DataFrame)
    (w : World) :
  fst (drift_report_dict reference_data current_data w) = w.
Proof.
  unfold Drift.drift_report_dict, bind, load_config, lift.
  repeat match goal with
         | |- context [match ?r with Ok _ => _ | Raise _ => _ end] =>
             destruct r; simpl; try reflexivity
         | |- context [let (_, _) := ?p in _] => destruct p; simpl
         end.
Qed.

(** C1, as the code has it. When the collaborator's dataset-level result
    is a boolean, a float, or an integer that [float] can convert,
    [check_drift] returns a verdict in which a boolean result is the
    detected flag itself and a numeric result gives detected exactly when
    it is strictly greater than the threshold; a score equal to the
    threshold gives detected = false. *)
Theorem check_drift_threshold (reference_data current_data : DataFrame)
    (thr : float) (w w' : World) (report s : pyval) :
  drift_report_dict reference_data current_data w = (w', Ok report) ->
  reports report s ->
  understood s ->
  exists info : drift_info,
    check_drift reference_data current_data thr w
    = (w', Ok (drift_detected info, info))
    /\ (forall b, s = PyBool b -> drift_detected info = b)
    /\ (forall x, number s = Some x ->
          drift_detected info = xlt (F2X thr) x
          /\ (xeq x (F2X thr) = true -> drift_detected info = false)
          /\ (forall p q, x = XFin p -> F2X thr = XFin q ->
                (drift_detected info = true <-> (q < p)%Q))).
Proof.
  intros Hrep Hs Hund.
  rewrite (check_drift_of_report _ _ thr _ _ _ Hrep).
  exists (snd (verdict_of report thr reference_data current_data)).
  split; [reflexivity|]. simpl.
  assert (Hnum : forall x, fst (extract_drift report thr) = xlt (F2X thr) x ->
            fst (extract_drift report thr) = xlt (F2X thr) x
            /\ (xeq x (F2X thr) = true -> fst (extract_drift report thr) = false)
            /\ (forall p q, x = XFin p -> F2X thr = XFin q ->
                  (fst (extract_drift report thr) = true <-> (q < p)%Q))).
  { intros x ->. split; [reflexivity|]. split.
    - apply xlt_xeq.
    - intros p q -> ->. apply xlt_fin. }
  rewrite (extract_drift_reports report s thr Hs) in *.
  destruct s as [|b|n|f|str|l|d]; simpl in *; try contradiction.
  - split; [now intros b' [= <-] | discriminate].
  - destruct Hund as [f Hf]. rewrite Hf in *. simpl in *.
    split; [discriminate|]. intros x [= <-]. now apply Hnum.
  - split; [discriminate|]. intros x [= <-]. now apply Hnum.
Qed.

(** C2, as the code has it. When the collaborator's report gives no
    dataset-level result that the policy covers, [check_drift] does not
    raise and its verdict has detected = false. The score is 0.0 when no
    dataset-level result was read at all; otherwise it is the value that
    was read. *)
Theorem check_drift_fail_closed (reference_data current_data : DataFrame)
    (thr : float) (w w' : World) (report : pyval) :
  drift_report_dict reference_data current_data w = (w', Ok report) ->
  (forall s, reports report s -> ~ understood s) ->
  exists info : drift_info,
    check_drift reference_data current_data thr w = (w', Ok (false, info))
    /\ drift_detected info = false
    /\ ((forall s, ~ reports report s) -> drift_score info = PyFloat float_zero)
    /\ (forall s, reports report s -> drift_score info = s).
Proof.
  intros Hrep Hbad.
  rewrite (check_drift_of_report _ _ thr _ _ _ Hrep).
  assert (Hread : forall s, reports report s ->
            extract_drift report thr = (false, s)).
  { intros s Hs. rewrite (extract_drift_reports report s thr Hs).
    specialize (Hbad s Hs).
    destruct s as [|b|n|f|str|l|d]; simpl in *; try reflexivity;
      try (now destruct Hbad).
    destruct (float_of_int n) as [f|e]; [|reflexivity].
    destruct Hbad. eauto. }
  assert (Hdet : fst (extract_drift report thr) = false).
  { destruct (reports_dec report) as [[s Hs] | Hno].
    - now rewrite (Hread s Hs).
    - now rewrite (extract_drift_silent report thr Hno). }
  exists (snd (verdict_of report thr reference_data current_data)).
  unfold verdict_of. simpl. rewrite Hdet.
  split; [reflexivity|]. split; [reflexivity|]. split.
  - intros Hno. now rewrite (extract_drift_silent report thr Hno).
  - intros s Hs. now rewrite (Hread s Hs).
Qed.

End CheckDriftFacts.

Section TriggerFacts.
Import Py Sys Drift Trigger.

Variable repo_root : path.
Variable remote : list request -> request -> http_outcome.

#[local] Abbreviation trigger_file := (Drift.trigger_file repo_root).
#[local] Abbreviation trigger_retraining := (Drift.trigger_retraining repo_root remote).

Lemma parent_child (p : path) (name : string) : parent (child p name) = p.
Proof. apply removelast_last. Qed.

Lemma trigger_file_path :
  trigger_file = repo_root ++ ["airflow"; "trigger_retrain.flag"].
Proof.
  unfold Drift.trigger_file, Drift.module_file.
  replace (repo_root ++ ["src"; "drift_detector.py"])
    with (child (child repo_root "src") "drift_detector.py")
    by (unfold child; now rewrite <- app_assoc).
  rewrite !parent_child. unfold child. now rewrite <- app_assoc.
Qed.

(** One run of [trigger_retraining] from a world whose configuration names
    a workflow: the request goes out; an accepted request ends the run,
    anything else leads to the marker. *)
Lemma trigger_retraining_run (w : World) (dag_id : pyval) :
  configured_dag w = Ok dag_id ->
  trigger_retraining w
  = if accepted (remote (http_log w) (run_request w dag_id))
    then (log_request (run_request w dag_id) w, Ok true)
    else bind (touch trigger_file) (fun _ => ret true)
           (log_request (run_request w dag_id) w).
Proof.
  unfold configured_dag. intros Hcfg.
  unfold Drift.trigger_retraining, bind at 1, load_config.
  destruct (config_yaml w) as [config|]; simpl in Hcfg; [|discriminate].
  unfold bind at 1, lift.
  destruct (getitem config "airflow") as [airflow_config|]; simpl in Hcfg;
    [|discriminate].
  unfold bind at 1. rewrite Hcfg.
  unfold bind at 1, getenv. unfold bind at 1. unfold bind at 1.
  unfold bind at 1, trigger_via_api, try_except, bind at 1, requests_post.
  fold (run_request w dag_id).
  destruct (remote (http_log w) (run_request w dag_id)) as [r|e]; simpl.
  - destruct ((status_code r =? 200) || (status_code r =? 201)); reflexivity.
  - reflexivity.
Qed.

Lemma touch_touchable (w : World) (p : path) :
  touchable w p = true ->
  exists w', touch p w = (w', Ok tt)
    /\ is_Some (files w' !! p)
    /\ (forall p', p' <> p -> files w' !! p' = files w !! p')
    /\ http_log w' = http_log w.
Proof.
  unfold touchable, touch. intros H.
  destruct (files w !! p) as [n|] eqn:Hp.
  - exists w. rewrite Hp. repeat split; eauto.
  - destruct (files w !! parent p) as [[|]|]; try discriminate.
    eexists. split; [reflexivity|]. simpl. repeat split.
    + rewrite lookup_insert_eq. eauto.
    + intros p' Hne. now rewrite lookup_insert_ne.
Qed.

Lemma touch_untouchable (w : World) (p : path) :
  touchable w p = false -> exists e, touch p w = (w, Raise e).
Proof.
  unfold touchable, touch. intros H.
  destruct (files w !! p); [discriminate|].
  destruct (files w !! parent p) as [[|]|]; try discriminate; eauto.
Qed.

(** A path that cannot be touched is missing, and stays so: [touch]
    raises and changes nothing. *)
Lemma touch_untouchable_error (w : World) (p : path) :
  touchable w p = false ->
  exists e,
    (e = FileNotFoundError \/ e = NotADirectoryError)
    /\ touch p w = (w, Raise e)
    /\ files w !! p = None.
Proof.
  unfold touchable, touch. intros H.
  destruct (files w !! p); [discriminate|].
  destruct (files w !! parent p) as [[|]|]; try discriminate; eauto.
Qed.

(** A [touch] that returns leaves the path in place. *)
Lemma touch_returns (w w' : World) (p : path) (u : unit) :
  touch p w = (w', Ok u) -> is_Some (files w' !! p).
Proof.
  destruct (touchable w p) eqn:Ht.
  - destruct (touch_touchable w p Ht) as (w1 & H1 & Hm & _).
    rewrite H1. now intros [= <- _].
  - destruct (touch_untouchable w p Ht) as (e & H1).
    rewrite H1. discriminate.
Qed.

Lemma non_2xx_not_accepted (o : http_outcome) :
  unreachable_or_non_2xx o -> accepted o = false.
Proof.
  destruct o as [r|e]; simpl; [|reflexivity].
  intros H. apply orb_false_iff. split; apply Z.eqb_neq; lia.
Qed.

(** The fallback path: the primary call was not accepted and the marker
    can be touched. *)
Lemma trigger_retraining_fallback (w : World) (dag_id : pyval) :
  configured_dag w = Ok dag_id ->
  accepted (remote (http_log w) (run_request w dag_id)) = false ->
  touchable w trigger_file = true ->
  exists w',
    trigger_retraining w = (w', Ok true)
    /\ is_Some (files w' !! trigger_file)
    /\ (forall p, p <> trigger_file -> files w' !! p = files w !! p)
    /\ http_log w' = http_log w ++ [run_request w dag_id].
Proof.
  intros Hcfg Hacc Htouch.
  rewrite (trigger_retraining_run w dag_id Hcfg), Hacc.
  destruct (touch_touchable (log_request (run_request w dag_id) w) trigger_file)
    as (w' & Ht & Hm & Hrest & Hlog); [exact Htouch|].
  exists w'. unfold bind. rewrite Ht. auto.
Qed.

(** The fallback path when the marker cannot be touched: the run ends with
    the exception of [touch], after the request, and without a marker. *)
Lemma trigger_retraining_fallback_raises (w : World) (dag_id : pyval) :
  configured_dag w = Ok dag_id ->
  accepted (remote (http_log w) (run_request w dag_id)) = false ->
  touchable w trigger_file = false ->
  exists e,
    (e = FileNotFoundError \/ e = NotADirectoryError)
    /\ trigger_retraining w = (log_request (run_request w dag_id) w, Raise e)
    /\ files w !! trigger_file = None.
Proof.
  intros Hcfg Hacc Htouch.
  rewrite (trigger_retraining_run w dag_id Hcfg), Hacc.
  destruct (touch_untouchable_error (log_request (run_request w dag_id) w)
              trigger_file) as (e & He & Ht & Hnone); [exact Htouch|].
  exists e. unfold bind. rewrite Ht. auto.
Qed.

(** Without a workflow to name, the run ends before anything is sent. *)
Lemma trigger_retraining_unconfigured (w : World) (e : exn) :
  configured_dag w = Raise e -> trigger_retraining w = (w, Raise e).
Proof.
  unfold configured_dag, Drift.trigger_retraining, bind, load_config, lift.
  destruct (config_yaml w) as [config|e0]; simpl; [|now intros [= <-]].
  destruct (getitem config "airflow") as [airflow_config|e1]; simpl;
    [|now intros [= <-]].
  intros ->. reflexivity.
Qed.

(** [trigger_retraining] has no other return value than [True]. *)
Lemma trigger_retraining_returns_true (w w' : World) (b : bool) :
  trigger_retraining w = (w', Ok b) -> b = true.
Proof.
  unfold Drift.trigger_retraining, bind, load_config, lift, getenv,
    trigger_via_api, try_except, bind, requests_post, ret.
  destruct (config_yaml w) as [config|]; [|discriminate].
  destruct (getitem config "airflow") as [airflow_config|]; [|discriminate].
  destruct (getitem airflow_config "dag_id") as [dag_id|]; [|discriminate].
  destruct (remote _ _) as [r|e].
  - destruct ((status_code r =? 200) || (status_code r =? 201)).
    + now intros [= _ <-].
    + destruct (touch _ _) as [w1 [[]|e]]; [now intros [= _ <-] | discriminate].
  - destruct (touch _ _) as [w1 [[]|e']]; [now intros [= _ <-] | discriminate].
Qed.

(** A run that returns after a primary call that was not accepted has
    gone through the fallback: the marker exists. *)
Lemma trigger_retraining_fallback_returns (w w' : World) (dag_id : pyval)
    (b : bool) :
  configured_dag w = Ok dag_id ->
  accepted (remote (http_log w) (run_request w dag_id)) = false ->
  trigger_retraining w = (w', Ok b) ->
  b = true /\ is_Some (files w' !! trigger_file).
Proof.
  intros Hcfg Hacc.
  rewrite (trigger_retraining_run w dag_id Hcfg), Hacc.
  unfold bind, ret.
  destruct (touch trigger_file (log_request (run_request w dag_id) w))
    as [w1 [u|e]] eqn:Ht; [|discriminate].
  intros [= <- <-]. split; [reflexivity|].
  exact (touch_returns _ _ _ _ Ht).
Qed.

(** C3, as the code has it. A run of [trigger_retraining] goes one of four
    ways. Without a workflow named in the configuration it raises before
    anything is sent. When the run-creation call is accepted (200 or 201)
    it returns true at once and leaves the filesystem as it was. When the
    call is not accepted (no answer, or another status), the run consists
    of sending the request, touching the marker and returning true, in that
    order: if the marker can be touched (it exists, or its folder is a
    directory), it exists afterwards, nothing else in the filesystem has
    changed and the run returns true; if it cannot, the run raises
    [FileNotFoundError] or [NotADirectoryError] after the request and no
    marker exists. *)
Theorem trigger_retraining_marker (w : World) :
  (forall e, configured_dag w = Raise e -> trigger_retraining w = (w, Raise e))
  /\ (forall dag_id,
        configured_dag w = Ok dag_id ->
        (accepted (remote (http_log w) (run_request w dag_id)) = true ->
         trigger_retraining w = (log_request (run_request w dag_id) w, Ok true)
         /\ files (log_request (run_request w dag_id) w) = files w)
        /\ (accepted (remote (http_log w) (run_request w dag_id)) = false ->
            trigger_retraining w
            = bind (touch trigger_file) (fun _ => ret true)
                (log_request (run_request w dag_id) w)
            /\ (touchable w trigger_file = true ->
                exists w',
                  trigger_retraining w = (w', Ok true)
                  /\ is_Some (files w' !! trigger_file)
                  /\ (forall p, p <> trigger_file ->
                        files w' !! p = files w !! p)
                  /\ http_log w' = http_log w ++ [run_request w dag_id])
            /\ (touchable w trigger_file = false ->
                exists e,
                  (e = FileNotFoundError \/ e = NotADirectoryError)
                  /\ trigger_retraining w
                     = (log_request (run_request w dag_id) w, Raise e)
                  /\ files (log_request (run_request w dag_id) w) = files w
                  /\ files w !! trigger_file = None))).
Proof.
  split; [exact (trigger_retraining_unconfigured w)|].
  intros dag_id Hcfg. split.
  - intros Hacc. rewrite (trigger_retraining_run w dag_id Hcfg), Hacc.
    split; reflexivity.
  - intros Hacc. split; [|split].
    + now rewrite (trigger_retraining_run w dag_id Hcfg), Hacc.
    + now apply trigger_retraining_fallback.
    + intros Htouch.
      destruct (trigger_retraining_fallback_raises w dag_id Hcfg Hacc Htouch)
        as (e & He & Hrun & Hnone).
      exists e. auto.
Qed.

(** C4, as the code has it. When the run-creation call fails (the service
    is unreachable or answers outside 2xx) in a run whose configuration
    names the workflow: if the marker can be touched (it exists, or its
    folder is a directory), [trigger_retraining] creates the marker and
    returns true; if it cannot, the run raises [FileNotFoundError] or
    [NotADirectoryError] instead of returning, with the filesystem
    unchanged and no marker in it. Every run that completes without
    throwing has created the marker and returns true; and whatever the
    primary outcome, a run that returns, returns true. *)
Theorem trigger_retraining_survives_primary_failure (w : World)
    (dag_id : pyval) :
  configured_dag w = Ok dag_id ->
  unreachable_or_non_2xx (remote (http_log w) (run_request w dag_id)) ->
  (forall w' b,
     trigger_retraining w = (w', Ok b) ->
     b = true /\ is_Some (files w' !! trigger_file))
  /\ (touchable w trigger_file = true ->
      exists w',
        trigger_retraining w = (w', Ok true)
        /\ is_Some (files w' !! trigger_file))
  /\ (touchable w trigger_file = false ->
      exists w' e,
        (e = FileNotFoundError \/ e = NotADirectoryError)
        /\ trigger_retraining w = (w', Raise e)
        /\ files w' = files w
        /\ files w' !! trigger_file = None)
  /\ (forall w0 w1 b, trigger_retraining w0 = (w1, Ok b) -> b = true).
Proof.
  intros Hcfg Hfail.
  pose proof (non_2xx_not_accepted _ Hfail) as Hacc.
  split; [|split; [|split]].
  - intros w' b. now apply trigger_retraining_fallback_returns with dag_id.
  - intros Htouch.
    destruct (trigger_retraining_fallback w dag_id Hcfg Hacc Htouch)
      as (w' & H1 & H2 & _).
    eauto.
  - intros Htouch.
    destruct (trigger_retraining_fallback_raises w dag_id Hcfg Hacc Htouch)
      as (e & He & Hrun & Hnone).
    exists (log_request (run_request w dag_id) w), e. auto.
  - apply trigger_retraining_returns_true.
Qed.

End TriggerFacts.


Section DagFacts.
Import Py Sys.

Variable repo_root : path.

#[local] Abbreviation dag_trigger_file := (Dag.trigger_file repo_root).
#[local] Abbreviation check_retrain_trigger := (Dag.check_retrain_trigger repo_root).

Lemma dag_trigger_file_path :
  dag_trigger_file = repo_root ++ ["airflow"; "trigger_retrain.flag"].
Proof.
  unfold Dag.trigger_file, Dag.module_file.
  replace (repo_root ++ ["airflow"; "dags"; "retrain_dag.py"])
    with (child (child (child repo_root "airflow") "dags") "retrain_dag.py")
    by (unfold child; now rewrite <- !app_assoc).
  rewrite !parent_child. unfold child. now rewrite <- app_assoc.
Qed.

(** The monitor and the DAG agree on where the marker is. *)
Lemma same_trigger_file : dag_trigger_file = Drift.trigger_file repo_root.
Proof. now rewrite dag_trigger_file_path, trigger_file_path. Qed.

(** C5. With the marker file present, [check_retrain_trigger] returns true
    and deletes it, and a second call right after returns false and changes
    nothing; with the marker absent it returns false and changes nothing. *)
Theorem check_retrain_trigger_consumes_once (w : World) :
  (files w !! dag_trigger_file = Some File ->
   exists w',
     check_retrain_trigger w = (w', Ok true)
     /\ files w' = delete dag_trigger_file (files w)
     /\ files w' !! dag_trigger_file = None
     /\ check_retrain_trigger w' = (w', Ok false))
  /\ (files w !! dag_trigger_file = None ->
      check_retrain_trigger w = (w, Ok false)).
Proof.
  unfold Dag.check_retrain_trigger, bind, path_exists, unlink, ret.
  split.
  - intros Hfile. rewrite Hfile.
    rewrite bool_decide_eq_true_2 by eauto.
    rewrite Hfile.
    eexists. split; [reflexivity|]. simpl.
    rewrite lookup_delete_eq.
    rewrite bool_decide_eq_false_2 by (intros [? ?]; discriminate).
    auto.
  - intros Hnone. rewrite Hnone.
    rewrite bool_decide_eq_false_2 by (intros [? ?]; discriminate).
    reflexivity.
Qed.

End DagFacts.


Section SamplingFacts.
Import Py Sys Drift.

Variable remote : list request -> request -> http_outcome.
Variable rng : Type.
Variable np_seed : Z -> rng.
Variable np_uniform : Q -> Q -> rng -> float * rng.
Variable np_randint : Z -> Z -> rng -> Z * rng.

#[local] Abbreviation draw_trip := (Drift.draw_trip rng np_uniform np_randint).
#[local] Abbreviation sample_once :=
  (Drift.sample_once remote rng np_uniform np_randint).
#[local] Abbreviation sample_loop :=
  (Drift.sample_loop remote rng np_uniform np_randint).
#[local] Abbreviation get_predictions_from_api :=
  (Drift.get_predictions_from_api remote rng np_seed np_uniform np_randint).

#[local] Abbreviation never_refuses := (Sampling.never_refuses remote).

(** Closes a branch of [sample_once] in which one record was appended. *)
Ltac one_appended :=
  do 2 eexists; split; [reflexivity|]; simpl;
  rewrite length_app; simpl; split; intros; lia.

(** One iteration never raises and appends at most one record; it appends
    exactly one unless the request is answered with another status than 200. *)
Lemma sample_once_appends (api_url : string)
    (st : rng * list (list (string * pyval))) (w : World) :
  exists w' st',
    sample_once api_url st w = (w', Ok st')
    /\ (length (snd st') <= S (length (snd st)))%nat
    /\ (match remote (http_log w)
                (PostPredict api_url (fst (draw_trip (fst st)))) with
        | Answered r => status_code r = 200
        | Failed _ => True
        end -> length (snd st') = S (length (snd st))).
Proof.
  unfold Drift.sample_once.
  destruct (draw_trip (fst st)) as [trip g] eqn:Hdraw. simpl.
  unfold try_except, bind at 1, requests_post.
  destruct (remote (http_log w) (PostPredict api_url trip)) as [r|e].
  - destruct (status_code r =? 200) eqn:Hst.
    + unfold bind, lift, ret.
      destruct (json r) as [result|e].
      * destruct (getitem result "predicted_duration_minutes") as [p|e].
        -- one_appended.
        -- destruct (np_uniform 5 60 g) as [mock g']. one_appended.
      * destruct (np_uniform 5 60 g) as [mock g']. one_appended.
    + unfold ret. do 2 eexists. split; [reflexivity|]. simpl.
      split; [lia|]. intros H. apply Z.eqb_neq in Hst. contradiction.
  - destruct (np_uniform 5 60 g) as [mock g']. unfold ret. one_appended.
Qed.

Lemma sample_loop_appends (api_url : string) (n : nat)
    (st : rng * list (list (string * pyval))) (w : World) :
  exists w' st',
    sample_loop api_url n st w = (w', Ok st')
    /\ (length (snd st') <= n + length (snd st))%nat
    /\ (never_refuses -> length (snd st') = (n + length (snd st))%nat).
Proof.
  revert st w. induction n as [|n IH]; intros st w; simpl.
  - exists w, st. unfold ret. auto.
  - destruct (sample_once_appends api_url st w) as (w1 & st1 & H1 & Hle & Heq).
    destruct (IH st1 w1) as (w2 & st2 & H2 & Hle2 & Heq2).
    exists w2, st2. unfold bind. rewrite H1. split; [exact H2|].
    split; [lia|].
    intros Hnever. rewrite (Heq2 Hnever), Heq; [lia|]. apply Hnever.
Qed.

(** The sampling never raises and returns at most [n_samples] records;
    it returns exactly that many when no request is refused. *)
Lemma get_predictions_from_api_count (api_url : string) (n_samples : Z)
    (w : World) :
  exists w' df,
    get_predictions_from_api api_url n_samples w = (w', Ok df)
    /\ len df <= Z.max 0 n_samples
    /\ (never_refuses -> len df = Z.max 0 n_samples).
Proof.
  unfold Drift.get_predictions_from_api, bind.
  destruct (sample_loop_appends api_url (Z.to_nat n_samples) (np_seed 42, []) w)
    as (w' & st & H & Hle & Heq).
  rewrite H. unfold ret. do 2 eexists. split; [reflexivity|].
  unfold len, frame_of_records. simpl in *. rewrite length_map.
  split; [lia|]. intros Hn. rewrite (Heq Hn). lia.
Qed.

End SamplingFacts.

Section MonitorFacts.
Import Py Sys Drift Report Trigger.

Variable repo_root : path.
Variable remote : list request -> request -> http_outcome.
Variable evidently_report : ColumnMapping -> DataFrame -> DataFrame -> res pyval.
Variable rng : Type.
Variable np_seed : Z -> rng.
Variable np_uniform : Q -> Q -> rng -> float * rng.
Variable np_randint : Z -> Z -> rng -> Z * rng.
Variable ingest_data : string -> bool -> M DataFrame.

#[local] Abbreviation trigger_file := (Drift.trigger_file repo_root).
#[local] Abbreviation trigger_retraining := (Drift.trigger_retraining repo_root remote).
#[local] Abbreviation check_drift := (Drift.check_drift evidently_report).
#[local] Abbreviation drift_report_dict := (Drift.drift_report_dict evidently_report).
#[local] Abbreviation load_reference_data := (Drift.load_reference_data ingest_data).
#[local] Abbreviation current_sample :=
  (Drift.current_sample remote rng np_seed np_uniform np_randint ingest_data).
#[local] Abbreviation monitor_drift :=
  (Drift.monitor_drift repo_root remote evidently_report rng np_seed
     np_uniform np_randint ingest_data).

Lemma check_drift_world (reference_data current_data : DataFrame)
    (thr : float) (w : World) :
  fst (check_drift reference_data current_data thr w) = w.
Proof.
  unfold Drift.check_drift, bind.
  pose proof (drift_report_dict_world evidently_report reference_data
                current_data w) as Hw.
  destruct (Drift.drift_report_dict _ _ _ w) as [w' [report|e]];
    simpl in Hw; subst w'; [|reflexivity].
  destruct (extract_drift report thr). reflexivity.
Qed.

(** C6, as the code has it. Once both samples are in and [check_drift] has
    given its verdict, [monitor_drift] runs [trigger_retraining] when the
    verdict's detected flag is true, and returns false with no further
    effect when it is false. With the flag true it returns true if the
    trigger returns and raises what the trigger raises otherwise; so
    whatever it returns is the detected flag, but it need not return.
    With a report whose dataset-level result is [True]: given a configured
    workflow and a primary call that is accepted or a marker that can be
    touched, it returns true after attempting the remote call, and the
    marker exists unless the remote call was accepted; given a configured
    workflow, a call that is not accepted and a marker that cannot be
    touched, it raises [FileNotFoundError] or [NotADirectoryError] after
    the remote call, and no marker exists; without a configured workflow
    it raises before any call. *)
Theorem monitor_drift_triggers_iff_detected (reference_month : string)
    (current_month : option string) (api_url : string) (thr : float)
    (n_samples : Z) (w w1 w2 : World) (reference_data current_data : DataFrame) :
  load_reference_data reference_month w = (w1, Ok reference_data) ->
  current_sample current_month api_url n_samples w1 = (w2, Ok current_data) ->
  (forall w2' detected info,
     check_drift reference_data current_data thr w2
     = (w2', Ok (detected, info)) ->
     monitor_drift reference_month current_month api_url thr n_samples w
     = (if detected
        then bind trigger_retraining (fun _ => ret true) w2
        else (w2, Ok false))
     /\ (forall w3 b,
          monitor_drift reference_month current_month api_url thr n_samples w
          = (w3, Ok b) -> b = detected)
     /\ (detected = true ->
         (forall w3 b,
            trigger_retraining w2 = (w3, Ok b) ->
            monitor_drift reference_month current_month api_url thr n_samples w
            = (w3, Ok true))
         /\ (forall w3 e,
               trigger_retraining w2 = (w3, Raise e) ->
               monitor_drift reference_month current_month api_url thr
                 n_samples w
               = (w3, Raise e))))
  /\ (forall report dag_id,
       drift_report_dict reference_data current_data w2 = (w2, Ok report) ->
       reports report (PyBool true) ->
       configured_dag w2 = Ok dag_id ->
       accepted (remote (http_log w2) (run_request w2 dag_id)) = true
       \/ touchable w2 trigger_file = true ->
       exists w3,
         monitor_drift reference_month current_month api_url thr n_samples w
         = (w3, Ok true)
         /\ http_log w3 = http_log w2 ++ [run_request w2 dag_id]
         /\ (is_Some (files w3 !! trigger_file)
             \/ accepted (remote (http_log w2) (run_request w2 dag_id)) = true))
  /\ (forall report dag_id,
       drift_report_dict reference_data current_data w2 = (w2, Ok report) ->
       reports report (PyBool true) ->
       configured_dag w2 = Ok dag_id ->
       accepted (remote (http_log w2) (run_request w2 dag_id)) = false ->
       touchable w2 trigger_file = false ->
       exists e,
         (e = FileNotFoundError \/ e = NotADirectoryError)
         /\ monitor_drift reference_month current_month api_url thr n_samples w
            = (log_request (run_request w2 dag_id) w2, Raise e)
         /\ files w2 !! trigger_file = None)
  /\ (forall report e,
       drift_report_dict reference_data current_data w2 = (w2, Ok report) ->
       reports report (PyBool true) ->
       configured_dag w2 = Raise e ->
       monitor_drift reference_month current_month api_url thr n_samples w
       = (w2, Raise e)).
Proof.
  intros Href Hcur.
  assert (Hrun : forall w2' detected info,
            check_drift reference_data current_data thr w2
            = (w2', Ok (detected, info)) ->
            monitor_drift reference_month current_month api_url thr n_samples w
            = (if detected
               then bind trigger_retraining (fun _ => ret true) w2
               else (w2, Ok false))).
  { intros w2' detected info Hcheck.
    pose proof (check_drift_world reference_data current_data thr w2) as Hw.
    rewrite Hcheck in Hw. simpl in Hw. subst w2'.
    unfold Drift.monitor_drift. unfold bind at 1. rewrite Href.
    unfold bind at 1. rewrite Hcur.
    unfold bind at 1. rewrite Hcheck. simpl.
    destruct detected; reflexivity. }
  assert (Hdetected : forall report,
            drift_report_dict reference_data current_data w2 = (w2, Ok report) ->
            reports report (PyBool true) ->
            monitor_drift reference_month current_month api_url thr n_samples w
            = bind trigger_retraining (fun _ => ret true) w2).
  { intros report Hrep Hreports.
    pose proof (check_drift_of_report evidently_report reference_data
                  current_data thr w2 w2 report Hrep) as Hcheck.
    unfold verdict_of in Hcheck.
    rewrite (extract_drift_reports report (PyBool true) thr Hreports) in Hcheck.
    simpl in Hcheck.
    exact (Hrun _ _ _ Hcheck). }
  split; [|split; [|split]].
  - intros w2' detected info Hcheck.
    split; [now apply (Hrun w2' detected info)|]. split.
    + intros w3 b. rewrite (Hrun w2' detected info Hcheck).
      destruct detected.
      * unfold bind, ret. destruct (trigger_retraining w2) as [w' [b'|e]];
          [now intros [= _ <-] | discriminate].
      * now intros [= _ <-].
    + intros ->. rewrite (Hrun w2' true info Hcheck). unfold bind, ret.
      split; intros w3 r Htrigger; now rewrite Htrigger.
  - intros report dag_id Hrep Hreports Hcfg Hcan.
    rewrite (Hdetected report Hrep Hreports).
    unfold bind at 1. rewrite (trigger_retraining_run repo_root remote w2 dag_id Hcfg).
    destruct (accepted (remote (http_log w2) (run_request w2 dag_id))) eqn:Hacc.
    + eexists. split; [reflexivity|]. simpl. auto.
    + destruct Hcan as [Hcan|Hcan]; [discriminate|].
      destruct (touch_touchable (log_request (run_request w2 dag_id) w2)
                  trigger_file Hcan) as (w3 & Ht & Hm & _ & Hlog).
      exists w3. unfold bind. rewrite Ht. simpl. unfold ret. auto.
  - intros report dag_id Hrep Hreports Hcfg Hacc Htouch.
    rewrite (Hdetected report Hrep Hreports).
    destruct (trigger_retraining_fallback_raises repo_root remote w2 dag_id
                Hcfg Hacc Htouch) as (e & He & Htrigger & Hnone).
    exists e. unfold bind. rewrite Htrigger. auto.
  - intros report e Hrep Hreports Hcfg.
    rewrite (Hdetected report Hrep Hreports).
    unfold bind.
    now rewrite (trigger_retraining_unconfigured repo_root remote w2 e Hcfg).
Qed.

End MonitorFacts.


Section ServeFacts.
Import Py Serve Request.

Variable model_predict : DataFrame -> res (list float).
Variable features : list string.
Variable serving_model_version : string.

#[local] Abbreviation predict := (Serve.predict model_predict features serving_model_version).
#[local] Abbreviation predict_batch :=
  (Serve.predict_batch model_predict features serving_model_version).
#[local] Abbreviation route_predict :=
  (Serve.route_predict model_predict features serving_model_version).
#[local] Abbreviation route_predict_batch :=
  (Serve.route_predict_batch model_predict features serving_model_version).

Lemma gt_zero_positive (x : float) :
  xlt (Z2X 0) (F2X x) = true <-> positive x.
Proof.
  unfold positive, Z2X.
  destruct (F2X x) as [|[]|q]; simpl.
  - split; [discriminate | intros [(q & E & _) | E]; discriminate].
  - split; [discriminate | intros [(q & E & _) | E]; discriminate].
  - split; auto.
  - rewrite Qltb_lt. split.
    + intros H. left. eauto.
    + intros [(q' & [= <-] & H) | E]; [exact H | discriminate].
Qed.

Lemma validate_spec (t : TripRequest) :
  validate t = true <-> within_field_bounds t.
Proof.
  unfold within_field_bounds. rewrite <- gt_zero_positive.
  unfold validate, holds_float, holds_int. simpl.
  rewrite !andb_true_r, !andb_true_iff, !Z.leb_le.
  tauto.
Qed.

Lemma make_frame_singleton (row : list pyval) :
  length row = length features ->
  make_frame [row] features = Ok {| columns := features; rows := [row] |}.
Proof.
  intros H. unfold make_frame. simpl. rewrite H, Nat.eqb_refl. reflexivity.
Qed.

(** C9. A request outside the documented field bounds is answered with a
    validation failure and no frame reaches the estimator, whatever the
    estimator, feature list and version are; seven passengers is such a
    request. The request with every field at its minimum passes validation,
    and with seven feature names and an estimator that predicts for its
    row, the answer is that single prediction. *)
Theorem route_predict_validates (body : TripRequest) (p : float)
    (ps : list float) :
  (~ within_field_bounds body ->
   route_predict body = ([], ValidationFailure))
  /\ route_predict Doubles.crowded_request = ([], ValidationFailure)
  /\ validate Doubles.minimal_request = true
  /\ (length features = 7%nat ->
      model_predict {| columns := features;
                       rows := [feature_row Doubles.minimal_request] |}
      = Ok (p :: ps) ->
      route_predict Doubles.minimal_request
      = ([{| columns := features;
             rows := [feature_row Doubles.minimal_request] |}],
         Success {| predicted_duration_minutes := p;
                    model_version := serving_model_version |})).
Proof.
  repeat split.
  - intros Hbad. unfold Serve.route_predict.
    destruct (validate body) eqn:Hv; [|reflexivity].
    apply validate_spec in Hv. contradiction.
  - intros Hlen Hmodel. unfold Serve.route_predict.
    replace (validate Doubles.minimal_request) with true by reflexivity.
    unfold Serve.predict.
    rewrite make_frame_singleton by (rewrite Hlen; reflexivity).
    rewrite Hmodel. reflexivity.
Qed.

(** C10. For a valid request and an estimator that answers one prediction
    per row, the batch route on the one-element list hands the estimator
    the same frame as the single-record route and answers with one item
    carrying the same duration and the same version; when the handler of
    one route fails, so does the other, for the same reason. A valid
    request never ends in a validation failure. *)
Theorem predict_batch_singleton (trip : TripRequest) :
  validate trip = true ->
  rowwise model_predict ->
  (forall calls r,
     route_predict trip = (calls, Success r) ->
     route_predict_batch [trip]
     = (calls,
        Success [[("predicted_duration_minutes",
                   PyFloat (predicted_duration_minutes r));
                  ("model_version", PyStr (model_version r))]]))
  /\ (forall calls e,
       route_predict trip = (calls, ServerError e) ->
       route_predict_batch [trip] = (calls, ServerError e))
  /\ (forall calls, route_predict trip <> (calls, ValidationFailure)).
Proof.
  intros Hvalid Hrow.
  unfold Serve.route_predict, Serve.route_predict_batch. simpl.
  rewrite Hvalid. simpl.
  unfold Serve.predict, Serve.predict_batch. simpl.
  destruct (make_frame [feature_row trip] features) as [X|e] eqn:HX.
  2:{ repeat split; intros; congruence. }
  destruct (model_predict X) as [ys|e] eqn:Hys.
  2:{ repeat split; intros; congruence. }
  pose proof (Hrow X ys Hys) as Hlen.
  assert (HrowsX : rows X = [feature_row trip]).
  { unfold make_frame in HX.
    destruct (forallb _ _); [|discriminate]. now injection HX as <-. }
  rewrite HrowsX in Hlen.
  destruct ys as [|y [|y' ys]]; try discriminate.
  repeat split.
  - intros calls r [= <- <-]. reflexivity.
  - intros calls e. discriminate.
  - intros calls. discriminate.
Qed.

End ServeFacts.


Section Closed.
Import Py Sys.

Lemma report_of_reports (s : pyval) : Report.reports (Doubles.report_of s) s.
Proof.
  unfold Report.reports, Doubles.report_of.
  do 4 eexists. split; [reflexivity|]. split; [reflexivity|].
  split; [apply Report.found_later; [reflexivity|];
          apply Report.found_here; reflexivity|].
  split; reflexivity.
Qed.

End Closed.

(** The theorem at a score of 0.75 against a threshold of 0.5. *)
Lemma check_drift_threshold_witness :
  Report.reports (Doubles.report_of (Py.PyFloat (Doubles.float_of 3 (-2))))
    (Py.PyFloat (Doubles.float_of 3 (-2)))
  /\ exists info : Drift.drift_info,
       Drift.check_drift
         (Doubles.evidently_says
            (Doubles.report_of (Py.PyFloat (Doubles.float_of 3 (-2)))))
         Doubles.frame Doubles.frame Doubles.half Doubles.idle
       = (Doubles.idle, Py.Ok (true, info)).
Proof.
  split; [apply report_of_reports|].
  destruct (check_drift_threshold
              (Doubles.evidently_says
                 (Doubles.report_of (Py.PyFloat (Doubles.float_of 3 (-2)))))
              Doubles.frame Doubles.frame Doubles.half
              Doubles.idle Doubles.idle
              (Doubles.report_of (Py.PyFloat (Doubles.float_of 3 (-2))))
              (Py.PyFloat (Doubles.float_of 3 (-2)))
              eq_refl (report_of_reports _) I)
    as (info & Hrun & _ & Hnum).
  destruct (Hnum _ eq_refl) as (Hd & _).
  exists info. rewrite Hrun. rewrite Hd. reflexivity.
Defined.

(** C1 as stated fails: the integer score 2^1024 is greater than the
    threshold 0.5, yet the verdict is detected = false, because converting
    the score to a float raises inside the [try] block. *)
Lemma check_drift_misses_huge_score :
  Report.reports (Doubles.report_of (Py.PyInt Doubles.huge))
    (Py.PyInt Doubles.huge)
  /\ Py.xlt (Py.F2X Doubles.half) (Py.Z2X Doubles.huge) = true
  /\ Drift.check_drift
       (Doubles.evidently_says (Doubles.report_of (Py.PyInt Doubles.huge)))
       Doubles.frame Doubles.frame Doubles.half Doubles.idle
     = (Doubles.idle,
        Py.Ok (false,
               {| Drift.drift_detected := false;
                  Drift.drift_score := Py.PyInt Doubles.huge;
                  Drift.threshold := Doubles.half;
                  Drift.reference_samples := 1;
                  Drift.current_samples := 1 |})).
Proof.
  split; [apply report_of_reports|].
  split; vm_compute; reflexivity.
Qed.

(** A score equal to the threshold is no drift. *)
Example check_drift_at_threshold :
  fst <$> match snd (Drift.check_drift
                       (Doubles.evidently_says
                          (Doubles.report_of (Py.PyFloat Doubles.half)))
                       Doubles.frame Doubles.frame Doubles.half Doubles.idle) with
          | Py.Ok verdict => Some verdict
          | Py.Raise _ => None
          end = Some false.
Proof. vm_compute. reflexivity. Qed.

(** The theorem at a report that is no dictionary at all. *)
Lemma check_drift_fail_closed_witness :
  exists info : Drift.drift_info,
    Drift.check_drift (Doubles.evidently_says Py.PyNone)
      Doubles.frame Doubles.frame Doubles.half Doubles.idle
    = (Doubles.idle, Py.Ok (false, info))
    /\ Drift.drift_score info = Py.PyFloat Py.float_zero.
Proof.
  assert (Hno : forall s, ~ Report.reports Py.PyNone s).
  { intros s (d & ms & md & rd & E & _). discriminate E. }
  destruct (check_drift_fail_closed (Doubles.evidently_says Py.PyNone)
              Doubles.frame Doubles.frame Doubles.half
              Doubles.idle Doubles.idle Py.PyNone eq_refl
              (fun s Hs _ => Hno s Hs))
    as (info & Hrun & _ & Hzero & _).
  exists info. split; [exact Hrun | exact (Hzero Hno)].
Defined.

(** C2 as stated fails: a dataset-level result of an unexpected type, here
    the string "high", is not parsed, and the verdict carries that string
    as its score instead of 0.0. *)
Lemma check_drift_keeps_unparsed_score :
  Report.reports (Doubles.report_of (Py.PyStr "high")) (Py.PyStr "high")
  /\ ~ Report.understood (Py.PyStr "high")
  /\ Drift.check_drift
       (Doubles.evidently_says (Doubles.report_of (Py.PyStr "high")))
       Doubles.frame Doubles.frame Doubles.half Doubles.idle
     = (Doubles.idle,
        Py.Ok (false,
               {| Drift.drift_detected := false;
                  Drift.drift_score := Py.PyStr "high";
                  Drift.threshold := Doubles.half;
                  Drift.reference_samples := 1;
                  Drift.current_samples := 1 |}))
  /\ Py.PyStr "high" <> Py.PyFloat Py.float_zero.
Proof.
  split; [apply report_of_reports|].
  split; [intros H; exact H|].
  split; [vm_compute; reflexivity | discriminate].
Qed.

(** The theorem at an idle checkout, once with nothing listening and once
    with a service that accepts the run, and at a checkout without the
    [airflow] folder. *)
Lemma trigger_retraining_marker_witness :
  (exists w',
     Drift.trigger_retraining Doubles.repo_root Doubles.remote_down Doubles.idle
     = (w', Py.Ok true)
     /\ is_Some (Sys.files w' !! Drift.trigger_file Doubles.repo_root))
  /\ (exists w',
        Drift.trigger_retraining Doubles.repo_root Doubles.remote_accepting
          Doubles.idle
        = (w', Py.Ok true)
        /\ Sys.files w' = Sys.files Doubles.idle)
  /\ (exists w' e,
        Drift.trigger_retraining Doubles.repo_root Doubles.remote_down
          Doubles.bare
        = (w', Py.Raise e)
        /\ Sys.files w' = Sys.files Doubles.bare).
Proof.
  split; [|split].
  - destruct (trigger_retraining_marker Doubles.repo_root Doubles.remote_down
                Doubles.idle) as [_ Hconfigured].
    destruct (Hconfigured (Py.PyStr "retrain_model_dag") eq_refl)
      as [_ Hfallback].
    destruct (Hfallback eq_refl) as (_ & Htouched & _).
    destruct (Htouched eq_refl) as (w' & Hrun & Hm & _).
    exists w'. split; assumption.
  - destruct (trigger_retraining_marker Doubles.repo_root
                Doubles.remote_accepting Doubles.idle) as [_ Hconfigured].
    destruct (Hconfigured (Py.PyStr "retrain_model_dag") eq_refl)
      as [Haccepted _].
    destruct (Haccepted eq_refl) as [Hrun Hfiles].
    eexists. split; [exact Hrun | exact Hfiles].
  - destruct (trigger_retraining_marker Doubles.repo_root Doubles.remote_down
                Doubles.bare) as [_ Hconfigured].
    destruct (Hconfigured (Py.PyStr "retrain_model_dag") eq_refl)
      as [_ Hfallback].
    destruct (Hfallback eq_refl) as (_ & _ & Hraises).
    destruct (Hraises eq_refl) as (e & _ & Hrun & Hfiles & _).
    eexists. exists e. split; [exact Hrun | exact Hfiles].
Defined.

(** C3 as stated fails: when the run-creation call is answered with 200,
    [trigger_retraining] returns true and no marker exists afterwards. *)
Lemma trigger_retraining_skips_marker_when_accepted :
  snd (Drift.trigger_retraining Doubles.repo_root Doubles.remote_accepting
         Doubles.idle) = Py.Ok true
  /\ Sys.files
       (fst (Drift.trigger_retraining Doubles.repo_root Doubles.remote_accepting
               Doubles.idle))
     !! Drift.trigger_file Doubles.repo_root = None.
Proof. split; vm_compute; reflexivity. Qed.

(** The theorem at an idle checkout with the service answering 503, and
    at a checkout without the [airflow] folder. *)
Lemma trigger_retraining_survives_primary_failure_witness :
  (exists w',
     Drift.trigger_retraining Doubles.repo_root Doubles.remote_unavailable
       Doubles.idle
     = (w', Py.Ok true)
     /\ is_Some (Sys.files w' !! Drift.trigger_file Doubles.repo_root))
  /\ (exists w' e,
        Drift.trigger_retraining Doubles.repo_root Doubles.remote_unavailable
          Doubles.bare
        = (w', Py.Raise e)
        /\ Sys.files w' !! Drift.trigger_file Doubles.repo_root = None).
Proof.
  split.
  - destruct (trigger_retraining_survives_primary_failure Doubles.repo_root
                Doubles.remote_unavailable Doubles.idle
                (Py.PyStr "retrain_model_dag") eq_refl)
      as (_ & Hrun & _).
    + right. vm_compute. discriminate.
    + exact (Hrun eq_refl).
  - destruct (trigger_retraining_survives_primary_failure Doubles.repo_root
                Doubles.remote_unavailable Doubles.bare
                (Py.PyStr "retrain_model_dag") eq_refl)
      as (_ & _ & Hraises & _).
    + right. vm_compute. discriminate.
    + destruct (Hraises eq_refl) as (w' & e & _ & Hrun & _ & Hnone).
      exists w', e. split; [exact Hrun | exact Hnone].
Defined.

(** C4 as stated fails: in a checkout without the [airflow] folder, with a
    configuration that names the workflow and nothing listening, the
    run-creation call fails, and [trigger_retraining] neither creates the
    marker nor returns true: it raises [FileNotFoundError]. *)
Lemma trigger_retraining_raises_without_airflow_folder :
  Trigger.configured_dag Doubles.bare = Py.Ok (Py.PyStr "retrain_model_dag")
  /\ Trigger.unreachable_or_non_2xx
       (Doubles.remote_down (Sys.http_log Doubles.bare)
          (Trigger.run_request Doubles.bare (Py.PyStr "retrain_model_dag")))
  /\ snd (Drift.trigger_retraining Doubles.repo_root Doubles.remote_down
            Doubles.bare)
     = Py.Raise Py.FileNotFoundError
  /\ Sys.files
       (fst (Drift.trigger_retraining Doubles.repo_root Doubles.remote_down
               Doubles.bare))
     !! Drift.trigger_file Doubles.repo_root = None.
Proof.
  split; [reflexivity|]. split; [exact I|].
  split; vm_compute; reflexivity.
Qed.

(** Without the [airflow] folder the fallback throws: the run ends with
    [FileNotFoundError] instead of returning. *)
Example trigger_retraining_bare :
  snd (Drift.trigger_retraining Doubles.repo_root Doubles.remote_down
         Doubles.bare) = Py.Raise Py.FileNotFoundError.
Proof. vm_compute. reflexivity. Qed.

(** The theorem at a checkout with a pending trigger. *)
Lemma check_retrain_trigger_consumes_once_witness :
  exists w',
    Dag.check_retrain_trigger Doubles.repo_root Doubles.pending
    = (w', Py.Ok true)
    /\ Sys.files w' !! Dag.trigger_file Doubles.repo_root = None
    /\ Dag.check_retrain_trigger Doubles.repo_root w' = (w', Py.Ok false).
Proof.
  destruct (check_retrain_trigger_consumes_once Doubles.repo_root
              Doubles.pending) as [Hpresent _].
  destruct (Hpresent eq_refl) as (w' & H1 & _ & H2 & H3).
  exists w'. repeat split; assumption.
Defined.


(** Fire, then consume twice: with the orchestration service down, the
    monitor's trigger leaves a marker that the DAG's first step consumes
    once. *)
Example fire_then_consume_twice :
  let fired := fst (Drift.trigger_retraining Doubles.repo_root
                      Doubles.remote_down Doubles.idle) in
  let first := Dag.check_retrain_trigger Doubles.repo_root fired in
  let second := Dag.check_retrain_trigger Doubles.repo_root (fst first) in
  (snd first, snd second) = (Py.Ok true, Py.Ok false).
Proof. vm_compute. reflexivity. Qed.

(** The theorem at the spec's example: reference month 2023-01, no current
    month, ten live samples, threshold 0.5, a collaborator reporting
    [dataset_drift: True], and an orchestration service that is down. *)
Lemma monitor_drift_triggers_iff_detected_witness :
  exists w3,
    Drift.monitor_drift Doubles.repo_root Doubles.remote_serving_only
      (Doubles.evidently_says (Doubles.report_of (Py.PyBool true)))
      nat Doubles.np_seed Doubles.np_uniform Doubles.np_randint
      Doubles.ingest_data "2023-01" None "http://localhost:8000"
      Doubles.half 10 Doubles.idle
    = (w3, Py.Ok true)
    /\ is_Some (Sys.files w3 !! Drift.trigger_file Doubles.repo_root).
Proof.
  destruct (Drift.current_sample Doubles.remote_serving_only nat
              Doubles.np_seed Doubles.np_uniform Doubles.np_randint
              Doubles.ingest_data None "http://localhost:8000" 10 Doubles.idle)
    as [w2 [current_data|e]] eqn:Hcur;
    [|vm_compute in Hcur; discriminate Hcur].
  destruct (monitor_drift_triggers_iff_detected Doubles.repo_root
              Doubles.remote_serving_only
              (Doubles.evidently_says (Doubles.report_of (Py.PyBool true)))
              nat Doubles.np_seed Doubles.np_uniform Doubles.np_randint
              Doubles.ingest_data "2023-01" None "http://localhost:8000"
              Doubles.half 10 Doubles.idle Doubles.idle w2
              Doubles.frame current_data eq_refl Hcur)
    as (_ & Hfires & _).
  assert (Hw2 : Sys.files w2 = Sys.files Doubles.idle
                /\ Sys.environ w2 = Sys.environ Doubles.idle
                /\ Sys.config_yaml w2 = Sys.config_yaml Doubles.idle).
  { vm_compute in Hcur. injection Hcur as <- _. repeat split. }
  destruct Hw2 as (Hfiles & Henv & Hcfg).
  destruct (Hfires (Doubles.report_of (Py.PyBool true))
              (Py.PyStr "retrain_model_dag"))
    as (w3 & Hrun & _ & Hmarker).
  - unfold Drift.drift_report_dict, Sys.bind, Sys.load_config, Sys.lift.
    rewrite Hcfg. reflexivity.
  - apply report_of_reports.
  - unfold Trigger.configured_dag. rewrite Hcfg. reflexivity.
  - right. unfold Trigger.touchable. rewrite Hfiles. reflexivity.
  - exists w3. split; [exact Hrun|].
    destruct Hmarker as [Hm|Hacc]; [exact Hm|].
    unfold Trigger.run_request in Hacc. discriminate Hacc.
Defined.

(** C6 as stated fails: at the spec's example in a checkout without the
    [airflow] folder, with the orchestration service down, the collaborator
    reports [dataset_drift: True] and [check_drift] gives detected = true,
    yet [monitor_drift] does not return true: the run-creation call is
    attempted, the marker cannot be created, and [FileNotFoundError] leaves
    the function. *)
Lemma monitor_drift_raises_without_airflow_folder :
  match snd (Drift.check_drift
               (Doubles.evidently_says (Doubles.report_of (Py.PyBool true)))
               Doubles.frame Doubles.frame Doubles.half Doubles.bare) with
  | Py.Ok verdict => Some (fst verdict)
  | Py.Raise _ => None
  end = Some true
  /\ snd (Drift.monitor_drift Doubles.repo_root Doubles.remote_serving_only
            (Doubles.evidently_says (Doubles.report_of (Py.PyBool true)))
            nat Doubles.np_seed Doubles.np_uniform Doubles.np_randint
            Doubles.ingest_data "2023-01" None "http://localhost:8000"
            Doubles.half 10 Doubles.bare)
     = Py.Raise Py.FileNotFoundError
  /\ Sys.files
       (fst (Drift.monitor_drift Doubles.repo_root Doubles.remote_serving_only
               (Doubles.evidently_says (Doubles.report_of (Py.PyBool true)))
               nat Doubles.np_seed Doubles.np_uniform Doubles.np_randint
               Doubles.ingest_data "2023-01" None "http://localhost:8000"
               Doubles.half 10 Doubles.bare))
     !! Drift.trigger_file Doubles.repo_root = None
  /\ length
       (Sys.http_log
          (fst (Drift.monitor_drift Doubles.repo_root
                  Doubles.remote_serving_only
                  (Doubles.evidently_says (Doubles.report_of (Py.PyBool true)))
                  nat Doubles.np_seed Doubles.np_uniform Doubles.np_randint
                  Doubles.ingest_data "2023-01" None "http://localhost:8000"
                  Doubles.half 10 Doubles.bare)))
     = 11%nat.
Proof. repeat split; vm_compute; reflexivity. Qed.

(** C8 fails on the code: three samples are requested, the serving API
    refuses each request with 422, and the returned frame is empty. The
    three requests were sent; no fallback prediction was substituted. *)
Theorem get_predictions_from_api_drops_refused_samples :
  snd (Drift.get_predictions_from_api Doubles.remote_refusing nat
         Doubles.np_seed Doubles.np_uniform Doubles.np_randint
         "http://localhost:8000" 3 Doubles.idle)
  = Py.Ok {| Py.columns := []; Py.rows := [] |}
  /\ length (Sys.http_log
               (fst (Drift.get_predictions_from_api Doubles.remote_refusing nat
                       Doubles.np_seed Doubles.np_uniform Doubles.np_randint
                       "http://localhost:8000" 3 Doubles.idle))) = 3%nat.
Proof. split; vm_compute; reflexivity. Qed.

(** With nothing listening every sample gets its fallback prediction. *)
Example get_predictions_from_api_offline :
  Py.len <$> match snd (Drift.get_predictions_from_api Doubles.remote_down nat
                          Doubles.np_seed Doubles.np_uniform Doubles.np_randint
                          "http://localhost:8000" 3 Doubles.idle) with
             | Py.Ok df => Some df
             | Py.Raise _ => None
             end = Some 3.
Proof. vm_compute. reflexivity. Qed.

(** The theorem with an estimator that was never loaded: seven passengers
    are refused all the same; and with a working one, the minimal request
    is answered. *)
Lemma route_predict_validates_witness :
  Serve.route_predict Doubles.missing_model Doubles.feature_names "latest"
    Doubles.crowded_request
  = ([], Serve.ValidationFailure)
  /\ Serve.route_predict Doubles.constant_model Doubles.feature_names "latest"
       Doubles.minimal_request
     = ([{| Py.columns := Doubles.feature_names;
            Py.rows := [Serve.feature_row Doubles.minimal_request] |}],
        Serve.Success {| Serve.predicted_duration_minutes := Doubles.float_of 12 0;
                         Serve.model_version := "latest" |}).
Proof.
  split.
  - destruct (route_predict_validates Doubles.missing_model
                Doubles.feature_names "latest" Doubles.crowded_request
                Py.float_zero []) as (Hrefused & _).
    apply Hrefused.
    intros (_ & [_ Hmax] & _). vm_compute in Hmax. apply Hmax. reflexivity.
  - destruct (route_predict_validates Doubles.constant_model
                Doubles.feature_names "latest" Doubles.minimal_request
                (Doubles.float_of 12 0) []) as (_ & _ & _ & Hanswered).
    apply Hanswered; reflexivity.
Defined.

Lemma constant_model_rowwise : Request.rowwise Doubles.constant_model.
Proof.
  intros X ys [= <-]. apply length_map.
Qed.

(** The theorem at the minimal request and the constant estimator. *)
Lemma predict_batch_singleton_witness :
  Serve.route_predict_batch Doubles.constant_model Doubles.feature_names
    "latest" [Doubles.minimal_request]
  = ([{| Py.columns := Doubles.feature_names;
         Py.rows := [Serve.feature_row Doubles.minimal_request] |}],
     Serve.Success [[("predicted_duration_minutes",
                      Py.PyFloat (Doubles.float_of 12 0));
                     ("model_version", Py.PyStr "latest")]]).
Proof.
  destruct (predict_batch_singleton Doubles.constant_model
              Doubles.feature_names "latest" Doubles.minimal_request
              eq_refl constant_model_rowwise) as (Hsame & _).
  exact (Hsame _ _ eq_refl).
Defined.

(* ===================================================================== *)
(** * Further properties of the code *)
(* ===================================================================== *)

Section IngestionMore.
Import Py Ingestion Bounds.

Variable read_parquet : string -> res (list RawTrip).
Variable minutes_between : Z -> Z -> float.
Variable dt_hour dt_dayofweek dt_month : Z -> Z.

#[local] Abbreviation duration_of := (Ingestion.duration_of minutes_between).
#[local] Abbreviation valid_duration := (Ingestion.valid_duration minutes_between).
#[local] Abbreviation select :=
  (Ingestion.select minutes_between dt_hour dt_dayofweek dt_month).
#[local] Abbreviation preprocess_data :=
  (Ingestion.preprocess_data read_parquet minutes_between
     dt_hour dt_dayofweek dt_month).

Lemma in_open_notna (x : float) (lo hi : Z) : in_open x lo hi -> isna x = false.
Proof. intros (q & E & _). destruct x; simpl in *; congruence. Qed.

Lemma in_left_open_notna (x : float) (lo hi : Z) :
  in_left_open x lo hi -> isna x = false.
Proof. intros (q & E & _). destruct x; simpl in *; congruence. Qed.

(** A row that passes both masks has both timestamps, so the row selected
    from it has no missing value. *)
Lemma select_complete (r : RawTrip) (t : Trip) :
  valid_record r = true -> valid_duration r = true -> select r = Ok t ->
  complete t = true.
Proof.
  intros Hv Hd Hs.
  apply (valid_record_spec r) in Hv as (Hdist & Hpass & _).
  apply (valid_duration_spec minutes_between r) in Hd.
  destruct (select_fields minutes_between dt_hour dt_dayofweek dt_month r t Hs)
    as (E1 & E2 & E3).
  unfold complete. rewrite E1, E2, E3.
  rewrite (in_open_notna _ _ _ Hdist), (in_left_open_notna _ _ _ Hpass),
    (in_left_open_notna _ _ _ Hd). simpl.
  assert (Hpick : is_Some (lpep_pickup_datetime r)).
  { destruct Hd as (q & E & _). unfold Ingestion.duration_of in E.
    destruct (lpep_pickup_datetime r); [eauto | discriminate]. }
  destruct Hpick as [p Hp].
  unfold Ingestion.select in Hs.
  destruct (PULocationID r), (DOLocationID r); simpl in Hs; try discriminate.
  injection Hs as <-. simpl. rewrite Hp. reflexivity.
Qed.

Lemma map_res_Forall2 {A B : Type} (f : A -> res B) (l : list A) (l' : list B) :
  map_res f l = Ok l' -> Forall2 (fun a b => f a = Ok b) l l'.
Proof.
  revert l'. induction l as [|a l IH]; intros l' H; simpl in H.
  - injection H as <-. constructor.
  - destruct (f a) as [b|] eqn:Ea; simpl in H; [|discriminate].
    destruct (map_res f l) as [bs|] eqn:El; simpl in H; [|discriminate].
    injection H as <-. constructor; auto.
Qed.

Lemma filter_all {A : Type} (p : A -> bool) (l : list A) :
  (forall a, In a l -> p a = true) -> List.filter p l = l.
Proof.
  induction l as [|a l IH]; intros H; simpl; [reflexivity|].
  rewrite (H a) by now left. f_equal. apply IH. intros; apply H; now right.
Qed.

(** X1. Once the month file is read, [preprocess_data] returns, in input
    order, exactly one row for each input row that passes the two masks:
    the final [dropna] drops nothing. In particular every input row with a
    distance in (0,100), a passenger count in (0,6], a duration in (0,180]
    and both location ids is kept, and no returned row has a missing
    value. *)
Theorem preprocess_data_keeps_valid_rows (filepath : string)
    (raw : list RawTrip) :
  read_parquet filepath = Ok raw ->
  exists out : list Trip,
    preprocess_data filepath = Ok out
    /\ Forall2 (fun r t => select r = Ok t)
         (List.filter (fun r => valid_record r && valid_duration r) raw) out
    /\ (forall r, In r raw ->
          within_bounds (raw_trip_distance r) (raw_passenger_count r)
            (duration_of r) ->
          is_Some (PULocationID r) -> is_Some (DOLocationID r) ->
          exists t, In t out /\ select r = Ok t)
    /\ (forall t, In t out -> complete t = true).
Proof.
  intros Hread.
  unfold Ingestion.preprocess_data. rewrite Hread. simpl.
  set (kept := List.filter valid_duration (List.filter valid_record raw)).
  assert (Hkept : forall r, In r kept <->
            In r raw /\ valid_record r = true /\ valid_duration r = true).
  { intros r. unfold kept. rewrite !filter_In. tauto. }
  destruct (map_res_total select kept) as [sel Hsel].
  { intros r Hr. apply select_total. now apply Hkept. }
  rewrite Hsel. simpl.
  assert (Hcomplete : forall t, In t sel -> complete t = true).
  { intros t Ht. destruct (map_res_In _ _ _ Hsel t Ht) as (r & Hr & Hs).
    apply Hkept in Hr as (_ & Hv & Hd). exact (select_complete r t Hv Hd Hs). }
  rewrite (filter_all complete sel Hcomplete).
  exists sel. split; [reflexivity|].
  pose proof (map_res_Forall2 _ _ _ Hsel) as HF.
  split; [|split].
  - replace (List.filter (fun r => valid_record r && valid_duration r) raw)
      with kept; [exact HF|].
    unfold kept. clear. induction raw as [|r l IH]; simpl; [reflexivity|].
    destruct (valid_record r); simpl; [|exact IH].
    destruct (valid_duration r); simpl; [now rewrite IH | exact IH].
  - intros r Hr (Hdist & Hpass & Hdur) Hpu Hdo.
    assert (Hin : In r kept).
    { apply Hkept. split; [exact Hr|]. split.
      - apply valid_record_spec. auto.
      - now apply valid_duration_spec. }
    clear - HF Hin. induction HF as [|r0 t0 l l' H0 HF IH]; [destruct Hin|].
    destruct Hin as [<-|Hin].
    + exists t0. split; [now left | exact H0].
    + destruct (IH Hin) as (t & Ht & Hs). exists t. split; [now right | exact Hs].
  - exact Hcomplete.
Qed.

End IngestionMore.

(** The theorem at a month file of two rows, one of them 120 miles long. *)
Lemma preprocess_data_keeps_valid_rows_witness :
  exists out : list Ingestion.Trip,
    Ingestion.preprocess_data Doubles.read_month Doubles.minutes_between
      Doubles.dt_hour Doubles.dt_dayofweek Doubles.dt_month
      "green_tripdata_2023-01.parquet" = Ok out
    /\ length out = 1%nat.
Proof.
  destruct (preprocess_data_keeps_valid_rows Doubles.read_month
              Doubles.minutes_between Doubles.dt_hour Doubles.dt_dayofweek
              Doubles.dt_month "green_tripdata_2023-01.parquet"
              [Doubles.ride; Doubles.long_ride] eq_refl)
    as (out & Hrun & Hrows & _).
  exists out. split; [exact Hrun|].
  apply Forall2_length in Hrows. rewrite <- Hrows. reflexivity.
Defined.

Section CheckDriftMore.
Import Py Sys Drift.

Variable evidently_report : ColumnMapping -> DataFrame -> DataFrame -> res pyval.

#[local] Abbreviation drift_report_dict := (Drift.drift_report_dict evidently_report).
#[local] Abbreviation check_drift := (Drift.check_drift evidently_report).

(** When the collaborator raises whatever the column mapping, building the
    report raises. *)
Lemma drift_report_dict_raises (reference_data current_data : DataFrame)
    (e : exn) (w : World) :
  (forall cm, evidently_report cm reference_data current_data = Raise e) ->
  exists e', drift_report_dict reference_data current_data w = (w, Raise e').
Proof.
  intros Hfail.
  unfold Drift.drift_report_dict, bind, load_config, lift.
  repeat match goal with
         | |- context [match ?r with Ok _ => _ | Raise _ => _ end] =>
             destruct r; simpl; eauto
         end.
  rewrite Hfail. eauto.
Qed.

(** X2. [check_drift] has no side effect, the flag it returns is the one in
    the verdict, and the verdict records the threshold and the two sample
    sizes; but it is not fail-closed towards the collaborator: the call is
    outside the [try] block, so when the collaborator raises for the two
    samples, [check_drift] raises too and returns no verdict. *)
Theorem check_drift_pure_but_propagates (reference_data current_data : DataFrame)
    (thr : float) (w : World) :
  fst (check_drift reference_data current_data thr w) = w
  /\ (forall w' detected info,
        check_drift reference_data current_data thr w
        = (w', Ok (detected, info)) ->
        drift_detected info = detected
        /\ threshold info = thr
        /\ reference_samples info = len reference_data
        /\ current_samples info = len current_data)
  /\ (forall e,
        (forall cm, evidently_report cm reference_data current_data = Raise e) ->
        exists e', check_drift reference_data current_data thr w = (w, Raise e')).
Proof.
  split; [|split].
  - unfold Drift.check_drift, bind.
    pose proof (drift_report_dict_world evidently_report reference_data
                  current_data w) as Hw.
    destruct (Drift.drift_report_dict _ _ _ w) as [w' [report|e]];
      simpl in Hw; subst w'; [|reflexivity].
    destruct (extract_drift report thr). reflexivity.
  - intros w' detected info. unfold Drift.check_drift, bind.
    destruct (Drift.drift_report_dict _ _ _ w) as [w1 [report|e]];
      [|discriminate].
    destruct (extract_drift report thr) as [d s]. unfold ret.
    intros [= _ <- <-]. simpl. auto.
  - intros e Hfail.
    destruct (drift_report_dict_raises reference_data current_data e w Hfail)
      as [e' He'].
    exists e'. unfold Drift.check_drift, bind. now rewrite He'.
Qed.

End CheckDriftMore.

Section TriggerMore.
Import Py Sys Drift Trigger.

Variable repo_root : path.
Variable remote : list request -> request -> http_outcome.

#[local] Abbreviation trigger_file := (Drift.trigger_file repo_root).
#[local] Abbreviation trigger_retraining := (Drift.trigger_retraining repo_root remote).
#[local] Abbreviation check_retrain_trigger := (Dag.check_retrain_trigger repo_root).

(** What the fallback leaves behind: the request in the log and the marker
    among the files, nothing else changed. *)
Lemma trigger_retraining_fallback_world (w : World) (dag_id : pyval) :
  configured_dag w = Ok dag_id ->
  accepted (remote (http_log w) (run_request w dag_id)) = false ->
  touchable w trigger_file = true ->
  trigger_retraining w
  = ({| files := match files w !! trigger_file with
                 | Some _ => files w
                 | None => <[trigger_file := File]> (files w)
                 end;
        environ := environ w;
        config_yaml := config_yaml w;
        http_log := http_log w ++ [run_request w dag_id] |}, Ok true).
Proof.
  intros Hcfg Hacc Htouch.
  rewrite (trigger_retraining_run repo_root remote w dag_id Hcfg), Hacc.
  unfold bind, touch, ret, touchable in *. simpl.
  destruct (files w !! trigger_file) as [n|]; [reflexivity|].
  destruct (files w !! parent trigger_file) as [[|]|]; try discriminate.
  reflexivity.
Qed.

(** X3. With a configured workflow and a marker that can be touched (it
    exists, or its folder is a directory), firing twice while the
    run-creation call keeps failing is safe for the marker: both runs
    return true, and the second leaves the filesystem exactly as the first
    left it. Only the request is repeated. *)
Theorem trigger_retraining_twice (w : World) (dag_id : pyval) :
  configured_dag w = Ok dag_id ->
  accepted (remote (http_log w) (run_request w dag_id)) = false ->
  accepted (remote (http_log w ++ [run_request w dag_id])
              (run_request w dag_id)) = false ->
  touchable w trigger_file = true ->
  exists w1 w2,
    trigger_retraining w = (w1, Ok true)
    /\ trigger_retraining w1 = (w2, Ok true)
    /\ files w2 = files w1
    /\ is_Some (files w2 !! trigger_file)
    /\ http_log w2 = http_log w ++ [run_request w dag_id; run_request w dag_id].
Proof.
  intros Hcfg Hacc1 Hacc2 Htouch.
  rewrite (trigger_retraining_fallback_world w dag_id Hcfg Hacc1 Htouch).
  match goal with |- exists w1 w2, (?x, _) = _ /\ _ => remember x as w1 eqn:Hw1 end.
  assert (Hcfg1 : configured_dag w1 = Ok dag_id) by now subst w1.
  assert (Hrq : run_request w1 dag_id = run_request w dag_id) by now subst w1.
  assert (Hlog : http_log w1 = http_log w ++ [run_request w dag_id])
    by now subst w1.
  assert (Hmarker : is_Some (files w1 !! trigger_file)).
  { subst w1. simpl. destruct (files w !! trigger_file) eqn:E.
    - rewrite E. eauto.
    - rewrite lookup_insert_eq. eauto. }
  assert (Htouch1 : touchable w1 trigger_file = true).
  { unfold touchable. destruct Hmarker as [n ->]. reflexivity. }
  assert (Hacc : accepted (remote (http_log w1) (run_request w1 dag_id)) = false)
    by now rewrite Hrq, Hlog.
  exists w1. eexists. split; [reflexivity|].
  rewrite (trigger_retraining_fallback_world w1 dag_id Hcfg1 Hacc Htouch1).
  split; [reflexivity|]. simpl.
  destruct Hmarker as [n Hn]. rewrite Hn.
  split; [reflexivity|]. split; [eauto|].
  rewrite Hrq, Hlog. now rewrite <- app_assoc.
Qed.

(** X4. Fire, then consume: from a checkout with no pending marker, a run
    of [trigger_retraining] whose run-creation call is not accepted,
    followed by the DAG's [check_retrain_trigger], gives true and brings
    the filesystem back to what it was before the trigger. *)
Theorem fire_then_consume_restores (w : World) (dag_id : pyval) :
  configured_dag w = Ok dag_id ->
  accepted (remote (http_log w) (run_request w dag_id)) = false ->
  files w !! trigger_file = None ->
  files w !! parent trigger_file = Some Dir ->
  exists w1 w2,
    trigger_retraining w = (w1, Ok true)
    /\ check_retrain_trigger w1 = (w2, Ok true)
    /\ files w2 = files w.
Proof.
  intros Hcfg Hacc Hnone Hdir.
  assert (Htouch : touchable w trigger_file = true).
  { unfold touchable. now rewrite Hnone, Hdir. }
  rewrite (trigger_retraining_fallback_world w dag_id Hcfg Hacc Htouch).
  rewrite Hnone.
  eexists. eexists. split; [reflexivity|].
  unfold Dag.check_retrain_trigger, bind, path_exists, unlink, ret. simpl.
  rewrite (same_trigger_file repo_root).
  rewrite lookup_insert_eq.
  rewrite bool_decide_eq_true_2 by eauto.
  simpl. rewrite lookup_insert_eq.
  split; [reflexivity|]. simpl.
  rewrite delete_insert_eq. now apply delete_id.
Qed.

(** X5. When the run-creation call is accepted, no marker is written: in a
    checkout with no pending marker, the DAG's [check_retrain_trigger]
    run right after the trigger returns false. *)
Theorem accepted_trigger_leaves_nothing_to_consume (w : World) (dag_id : pyval) :
  configured_dag w = Ok dag_id ->
  accepted (remote (http_log w) (run_request w dag_id)) = true ->
  files w !! trigger_file = None ->
  exists w1,
    trigger_retraining w = (w1, Ok true)
    /\ check_retrain_trigger w1 = (w1, Ok false).
Proof.
  intros Hcfg Hacc Hnone.
  rewrite (trigger_retraining_run repo_root remote w dag_id Hcfg), Hacc.
  eexists. split; [reflexivity|].
  unfold Dag.check_retrain_trigger, bind, path_exists, ret. simpl.
  rewrite (same_trigger_file repo_root), Hnone.
  rewrite bool_decide_eq_false_2 by (intros [? ?]; discriminate).
  reflexivity.
Qed.

(** X6. A configuration that cannot be read, or that names no workflow
    ([airflow] or [dag_id] missing), makes [trigger_retraining] raise
    before anything happens: no request is sent and no marker is written,
    although the file-based fallback needs neither. *)
Theorem trigger_retraining_needs_configuration (w : World) (e : exn) :
  configured_dag w = Raise e ->
  trigger_retraining w = (w, Raise e).
Proof.
  unfold configured_dag, Drift.trigger_retraining, bind, load_config, lift.
  destruct (config_yaml w) as [config|e0]; simpl; [|now intros [= <-]].
  destruct (getitem config "airflow") as [airflow_config|e1]; simpl;
    [|now intros [= <-]].
  intros ->. reflexivity.
Qed.

End TriggerMore.

Section SamplingMore.
Import Py Sys Drift.

Variable remote : list request -> request -> http_outcome.
Variable rng : Type.
Variable np_seed : Z -> rng.
Variable np_uniform : Q -> Q -> rng -> float * rng.
Variable np_randint : Z -> Z -> rng -> Z * rng.

#[local] Abbreviation draw_trip := (Drift.draw_trip rng np_uniform np_randint).
#[local] Abbreviation sample_once :=
  (Drift.sample_once remote rng np_uniform np_randint).
#[local] Abbreviation sample_loop :=
  (Drift.sample_loop remote rng np_uniform np_randint).
#[local] Abbreviation get_predictions_from_api :=
  (Drift.get_predictions_from_api remote rng np_seed np_uniform np_randint).

#[local] Abbreviation sample_columns := Sampled.sample_columns.

Lemma draw_trip_keys (g : rng) (p : pyval) :
  map fst (with_prediction (fst (draw_trip g)) p) = sample_columns.
Proof.
  unfold Drift.draw_trip.
  repeat match goal with
         | |- context [np_uniform ?a ?b ?g] => destruct (np_uniform a b g)
         | |- context [np_randint ?a ?b ?g] => destruct (np_randint a b g)
         end.
  reflexivity.
Qed.

(** Closes a branch of [sample_once] that appended one record. *)
Ltac sampled Hdata Hdraw :=
  do 2 eexists; split; [reflexivity|]; simpl;
  split; [reflexivity|]; split; [eauto|];
  apply Forall_app; split; [exact Hdata|];
  apply List.Forall_cons; [|apply List.Forall_nil];
  rewrite Hdraw; apply draw_trip_keys.

(** One iteration sends one request to the serving API, changes nothing
    else, and keeps every record on the ten sample columns. *)
Lemma sample_once_effects (api_url : string)
    (st : rng * list (list (string * pyval))) (w : World) :
  Forall (fun record => map fst record = sample_columns) (snd st) ->
  exists w' st',
    sample_once api_url st w = (w', Ok st')
    /\ files w' = files w
    /\ (exists trip, http_log w' = http_log w ++ [PostPredict api_url trip])
    /\ Forall (fun record => map fst record = sample_columns) (snd st').
Proof.
  intros Hdata. unfold Drift.sample_once.
  destruct (draw_trip (fst st)) as [trip g] eqn:Hdraw.
  assert (Htrip : trip = fst (draw_trip (fst st))) by now rewrite Hdraw.
  simpl. unfold try_except, bind at 1, requests_post.
  destruct (remote (http_log w) (PostPredict api_url trip)) as [r|e].
  - destruct (status_code r =? 200).
    + unfold bind, lift, ret.
      destruct (json r) as [result|e].
      * destruct (getitem result "predicted_duration_minutes") as [p|e].
        -- sampled Hdata Htrip.
        -- destruct (np_uniform 5 60 g) as [mock g']. sampled Hdata Htrip.
      * destruct (np_uniform 5 60 g) as [mock g']. sampled Hdata Htrip.
    + unfold ret. do 2 eexists. split; [reflexivity|]. simpl. eauto.
  - destruct (np_uniform 5 60 g) as [mock g']. unfold ret. sampled Hdata Htrip.
Qed.

Lemma sample_loop_effects (api_url : string) (n : nat)
    (st : rng * list (list (string * pyval))) (w : World) :
  Forall (fun record => map fst record = sample_columns) (snd st) ->
  exists w' st' sent,
    sample_loop api_url n st w = (w', Ok st')
    /\ files w' = files w
    /\ http_log w' = http_log w ++ sent
    /\ length sent = n
    /\ Forall (fun rq => exists trip, rq = PostPredict api_url trip) sent
    /\ Forall (fun record => map fst record = sample_columns) (snd st').
Proof.
  revert st w. induction n as [|n IH]; intros st w Hdata; simpl.
  - exists w, st, []. unfold ret. rewrite app_nil_r. repeat split; auto.
  - destruct (sample_once_effects api_url st w Hdata)
      as (w1 & st1 & H1 & Hf1 & (trip & Hl1) & Hd1).
    destruct (IH st1 w1 Hd1) as (w2 & st2 & sent & H2 & Hf2 & Hl2 & Hn & Hs & Hd2).
    exists w2, st2, (PostPredict api_url trip :: sent).
    unfold bind. rewrite H1. split; [exact H2|].
    split; [congruence|]. split.
    { rewrite Hl2, Hl1, <- app_assoc. reflexivity. }
    split; [simpl; congruence|]. split; [|exact Hd2].
    constructor; eauto.
Qed.

(** X7. [get_predictions_from_api] never raises, whatever the serving API
    does. It sends exactly [n_samples] requests (none for a negative
    count), each a POST to [/predict] of the given address, and it leaves
    the filesystem untouched. *)
Theorem get_predictions_from_api_effects (api_url : string) (n_samples : Z)
    (w : World) :
  exists w' df sent,
    get_predictions_from_api api_url n_samples w = (w', Ok df)
    /\ files w' = files w
    /\ http_log w' = http_log w ++ sent
    /\ Z.of_nat (length sent) = Z.max 0 n_samples
    /\ Forall (fun rq => exists trip, rq = PostPredict api_url trip) sent.
Proof.
  unfold Drift.get_predictions_from_api, bind.
  destruct (sample_loop_effects api_url (Z.to_nat n_samples) (np_seed 42, []) w)
    as (w' & st & sent & H & Hf & Hl & Hn & Hs & _); [constructor|].
  rewrite H. unfold ret. exists w', (frame_of_records (snd st)), sent.
  repeat split; auto. lia.
Qed.

(** X8. Every record [get_predictions_from_api] returns has the nine
    sampled fields followed by [predicted_duration]; a non-empty frame has
    exactly these ten columns, and a frame with no record has no column at
    all. *)
Theorem get_predictions_from_api_columns (api_url : string) (n_samples : Z)
    (w w' : World) (df : DataFrame) :
  get_predictions_from_api api_url n_samples w = (w', Ok df) ->
  Forall (fun row => length row = 10%nat) (rows df)
  /\ (rows df <> [] -> columns df = sample_columns)
  /\ (rows df = [] -> columns df = []).
Proof.
  unfold Drift.get_predictions_from_api, bind.
  destruct (sample_loop_effects api_url (Z.to_nat n_samples) (np_seed 42, []) w)
    as (w1 & st & sent & H & _ & _ & _ & _ & Hd); [constructor|].
  rewrite H. unfold ret. intros [= _ <-].
  unfold frame_of_records. simpl.
  destruct (snd st) as [|record data]; simpl.
  - repeat split; auto. congruence.
  - inversion Hd as [|? ? Hrecord Hrest]; subst.
    split; [|split; [auto | discriminate]].
    constructor.
    + rewrite List.length_map, <- (List.length_map fst record), Hrecord.
      reflexivity.
    + clear - Hrest. induction Hrest as [|r l Hr _ IH]; constructor; [|exact IH].
      rewrite List.length_map, <- (List.length_map fst r), Hr. reflexivity.
Qed.

End SamplingMore.

Section MonitorMore.
Import Py Sys Drift.

Variable repo_root : path.
Variable remote : list request -> request -> http_outcome.
Variable evidently_report : ColumnMapping -> DataFrame -> DataFrame -> res pyval.
Variable rng : Type.
Variable np_seed : Z -> rng.
Variable np_uniform : Q -> Q -> rng -> float * rng.
Variable np_randint : Z -> Z -> rng -> Z * rng.
Variable ingest_data : string -> bool -> M DataFrame.

#[local] Abbreviation load_reference_data := (Drift.load_reference_data ingest_data).
#[local] Abbreviation current_sample :=
  (Drift.current_sample remote rng np_seed np_uniform np_randint ingest_data).
#[local] Abbreviation monitor_drift :=
  (Drift.monitor_drift repo_root remote evidently_report rng np_seed
     np_uniform np_randint ingest_data).

(** X9. A failure ends the monitoring cycle with an exception and without
    a trigger: when ingesting the reference month raises, [monitor_drift]
    raises the same exception at once; and when the drift collaborator
    raises for the two samples, [monitor_drift] raises with the world as
    the data acquisition left it, so no run-creation request was sent and
    no marker was written. It does not return false in either case. *)
Theorem monitor_drift_stops_on_failure (reference_month : string)
    (current_month : option string) (api_url : string) (thr : float)
    (n_samples : Z) (w : World) :
  (forall w1 e,
     load_reference_data reference_month w = (w1, Raise e) ->
     monitor_drift reference_month current_month api_url thr n_samples w
     = (w1, Raise e))
  /\ (forall w1 w2 reference_data current_data e,
       load_reference_data reference_month w = (w1, Ok reference_data) ->
       current_sample current_month api_url n_samples w1
       = (w2, Ok current_data) ->
       (forall cm, evidently_report cm reference_data current_data = Raise e) ->
       exists e',
         monitor_drift reference_month current_month api_url thr n_samples w
         = (w2, Raise e')).
Proof.
  split.
  - intros w1 e Href. unfold Drift.monitor_drift, bind at 1. now rewrite Href.
  - intros w1 w2 reference_data current_data e Href Hcur Hfail.
    destruct (drift_report_dict_raises evidently_report reference_data
                current_data e w2 Hfail) as [e' He'].
    exists e'. unfold Drift.monitor_drift, bind at 1. rewrite Href.
    unfold bind at 1. rewrite Hcur. unfold bind at 1, Drift.check_drift, bind at 1.
    now rewrite He'.
Qed.

End MonitorMore.

Section ServeMore.
Import Py Serve Request Estimator.

Variable model_predict : DataFrame -> res (list float).
Variable features : list string.
Variable serving_model_version : string.

#[local] Abbreviation predict := (Serve.predict model_predict features serving_model_version).
#[local] Abbreviation route_predict :=
  (Serve.route_predict model_predict features serving_model_version).
#[local] Abbreviation route_predict_batch :=
  (Serve.route_predict_batch model_predict features serving_model_version).

(** X10. The batch route validates all or nothing: one request outside the
    field bounds anywhere in the list makes the whole batch a validation
    failure, and the estimator sees none of the other requests. *)
Theorem route_predict_batch_all_or_nothing (body : list TripRequest)
    (t : TripRequest) :
  In t body ->
  ~ within_field_bounds t ->
  route_predict_batch body = ([], ValidationFailure).
Proof.
  intros Hin Hbad. unfold Serve.route_predict_batch.
  destruct (forallb validate body) eqn:Hall; [|reflexivity].
  rewrite forallb_forall in Hall. specialize (Hall t Hin).
  apply validate_spec in Hall. contradiction.
Qed.

Lemma make_frame_mismatch (data : list (list pyval)) (row : list pyval) :
  length row <> length features ->
  In row data ->
  make_frame data features = Raise ValueError.
Proof.
  intros Hlen Hin. unfold make_frame.
  destruct (forallb _ data) eqn:Hall; [|reflexivity].
  rewrite forallb_forall in Hall. specialize (Hall row Hin).
  apply Nat.eqb_eq in Hall. contradiction.
Qed.

(** X11. With a feature list that does not have seven names, every valid
    request is answered with a server error caused by [ValueError], on both
    routes, and the estimator is never called; the empty batch is the one
    exception, it is handed to the estimator as a frame without rows. *)
Theorem wrong_feature_count_fails_every_request :
  length features <> 7%nat ->
  (forall t, validate t = true ->
     route_predict t = ([], ServerError ValueError))
  /\ (forall t body, forallb validate (t :: body) = true ->
        route_predict_batch (t :: body) = ([], ServerError ValueError))
  /\ route_predict_batch []
     = ([{| columns := features; rows := [] |}],
        match model_predict {| columns := features; rows := [] |} with
        | Ok predictions =>
            Success (map (batch_item serving_model_version) predictions)
        | Raise e => ServerError e
        end).
Proof.
  intros Hlen. split; [|split].
  - intros t Hv. unfold Serve.route_predict, Serve.predict. rewrite Hv.
    rewrite (make_frame_mismatch [feature_row t] (feature_row t));
      [reflexivity | simpl; congruence | now left].
  - intros t body Hv. unfold Serve.route_predict_batch, Serve.predict_batch.
    rewrite Hv.
    rewrite (make_frame_mismatch _ (feature_row t));
      [reflexivity | simpl; congruence | now left].
  - unfold Serve.route_predict_batch, Serve.predict_batch. simpl.
    destruct (model_predict _); reflexivity.
Qed.

Lemma make_frame_rows (trips : list TripRequest) :
  length features = 7%nat ->
  make_frame (map feature_row trips) features
  = Ok {| columns := features; rows := map feature_row trips |}.
Proof.
  intros Hlen. unfold make_frame.
  replace (forallb _ _) with true; [reflexivity|].
  symmetry. apply forallb_forall. intros row Hrow.
  apply in_map_iff in Hrow as (t & <- & _). rewrite Hlen. reflexivity.
Qed.

(** X12. For an estimator that predicts each row on its own and a list of
    seven feature names, a batch of valid requests is answered item by
    item with what the single-record route answers for each request, in
    the order of the requests, and the estimator is called once, on the
    frame of all the rows. *)
Theorem route_predict_batch_pointwise (body : list TripRequest) :
  pointwise model_predict ->
  length features = 7%nat ->
  forallb validate body = true ->
  exists items,
    route_predict_batch body
    = ([{| columns := features; rows := map feature_row body |}],
       Success items)
    /\ Forall2
         (fun t item =>
            exists calls r,
              route_predict t = (calls, Success r)
              /\ item = [("predicted_duration_minutes",
                          PyFloat (predicted_duration_minutes r));
                         ("model_version", PyStr (model_version r))])
         body items.
Proof.
  intros [f Hf] Hlen Hvalid.
  unfold Serve.route_predict_batch, Serve.predict_batch.
  rewrite Hvalid, (make_frame_rows body Hlen), Hf. simpl.
  eexists. split; [reflexivity|].
  rewrite forallb_forall in Hvalid.
  induction body as [|t body IH]; simpl; constructor.
  - unfold Serve.route_predict, Serve.predict.
    rewrite (Hvalid t) by now left.
    change [feature_row t] with (map feature_row [t]).
    rewrite (make_frame_rows [t] Hlen), Hf. simpl.
    do 2 eexists. split; reflexivity.
  - apply IH. intros t' Ht'. apply Hvalid. now right.
Qed.

End ServeMore.

Section LoaderFacts.
Import Py Sys Loader.

Variable estimator : Type.
Variable mlflow_load_model : pyval -> string -> res estimator.
Variable joblib_load_model : string -> res estimator.
Variable joblib_load_features : string -> res pyval.
Variable resolve : string -> path.

#[local] Abbreviation load_model :=
  (Loader.load_model estimator mlflow_load_model joblib_load_model
     joblib_load_features resolve).
#[local] Abbreviation dashboard_load_model :=
  (Loader.dashboard_load_model estimator mlflow_load_model joblib_load_model
     joblib_load_features resolve).

(** Unfolds the monadic steps of the two loaders. *)
Ltac run_loader :=
  unfold Loader.load_model, Loader.dashboard_load_model, bind, try_except,
    load_config, lift, ret, raise, os_path_exists, path_exists,
    configured_features, configured_model_dir, os_path_join in *.

(** X13. [load_model] asks the registry for
    [models:/nyc_taxi_trip_duration/<version>], for the version [latest]
    as for any other; when the registry answers, it returns that estimator
    with the configured feature list, and neither the filesystem nor
    joblib is consulted. *)
Theorem load_model_prefers_registry (model_version : string) (w : World)
    (config mlflow_config tracking_uri features : pyval) (model : estimator) :
  config_yaml w = Ok config ->
  getitem config "mlflow" = Ok mlflow_config ->
  getitem mlflow_config "tracking_uri" = Ok tracking_uri ->
  mlflow_load_model tracking_uri
    ("models:/nyc_taxi_trip_duration/" ++ model_version) = Ok model ->
  configured_features config = Ok features ->
  load_model model_version w = (w, Ok (model, features)).
Proof.
  intros Hcfg Hml Huri Hload Hfeat. run_loader.
  rewrite Hcfg, Hml, Huri.
  assert (Hsame : (if String.eqb model_version "latest"
                   then mlflow_load_model tracking_uri
                          "models:/nyc_taxi_trip_duration/latest"
                   else mlflow_load_model tracking_uri
                          ("models:/nyc_taxi_trip_duration/" ++ model_version))
                  = Ok model).
  { destruct (String.eqb_spec model_version "latest") as [->|_]; exact Hload. }
  rewrite Hsame.
  destruct (getitem config "model") as [model_config|]; simpl in Hfeat;
    [|discriminate].
  now rewrite Hfeat.
Qed.

(** Runs the registry attempt of both loaders when the registry is down:
    every case ends in the handler. *)
Ltac registry_fails Hdown mlflow_config model_version :=
  let e1 := fresh "e" in
  let e2 := fresh "e" in
  let He1 := fresh "He" in
  let He2 := fresh "He" in
  destruct (getitem mlflow_config "tracking_uri") as [tracking_uri|];
  [ destruct (Hdown tracking_uri "models:/nyc_taxi_trip_duration/latest")
      as [e1 He1];
    destruct (Hdown tracking_uri
                (String.append "models:/nyc_taxi_trip_duration/" model_version))
      as [e2 He2];
    rewrite ?He1, ?He2;
    destruct (String.eqb model_version "latest")
  | ]; simpl.

(** X14. With the registry down and no [model.joblib] in the configured
    model directory, [load_model] of the serving module raises
    [FileNotFoundError], while [load_model] of the dashboard returns
    [(None, None)]; neither changes anything. *)
Theorem load_model_without_any_model (model_version : string) (w : World)
    (config mlflow_config : pyval) (model_dir : string) :
  config_yaml w = Ok config ->
  getitem config "mlflow" = Ok mlflow_config ->
  registry_down mlflow_load_model ->
  configured_model_dir config = Ok (PyStr model_dir) ->
  files w !! resolve (path_join model_dir "model.joblib") = None ->
  load_model model_version w = (w, Raise FileNotFoundError)
  /\ dashboard_load_model w = (w, Ok None).
Proof.
  intros Hcfg Hml Hdown Hdir Hnone. run_loader.
  rewrite Hcfg, Hml.
  destruct (getitem config "model") as [model_config|]; simpl in Hdir;
    [|discriminate].
  registry_fails Hdown mlflow_config model_version;
    rewrite ?Hdir, ?Hnone;
    rewrite ?bool_decide_eq_false_2 by (intros [? ?]; discriminate);
    split; reflexivity.
Qed.

(** X15. With the registry down and a local [model.joblib] that joblib
    loads, [load_model] returns that estimator; its feature list is the
    content of [features.joblib] when that file exists, and the configured
    list when it does not. *)
Theorem load_model_local_features (model_version : string) (w : World)
    (config mlflow_config : pyval) (model_dir : string) (model : estimator) :
  config_yaml w = Ok config ->
  getitem config "mlflow" = Ok mlflow_config ->
  registry_down mlflow_load_model ->
  configured_model_dir config = Ok (PyStr model_dir) ->
  is_Some (files w !! resolve (path_join model_dir "model.joblib")) ->
  joblib_load_model (path_join model_dir "model.joblib") = Ok model ->
  (forall stored,
     is_Some (files w !! resolve (path_join model_dir "features.joblib")) ->
     joblib_load_features (path_join model_dir "features.joblib") = Ok stored ->
     load_model model_version w = (w, Ok (model, stored)))
  /\ (forall features,
        files w !! resolve (path_join model_dir "features.joblib") = None ->
        configured_features config = Ok features ->
        load_model model_version w = (w, Ok (model, features))).
Proof.
  intros Hcfg Hml Hdown Hdir Hfile Hmodel.
  split.
  - intros stored Hhas Hstored. run_loader.
    rewrite Hcfg, Hml.
    destruct (getitem config "model") as [model_config|]; simpl in Hdir;
      [|discriminate].
    registry_fails Hdown mlflow_config model_version.
    all: rewrite Hdir, (bool_decide_eq_true_2 _ Hfile); simpl.
    all: rewrite Hmodel, (bool_decide_eq_true_2 _ Hhas), Hstored.
    all: reflexivity.
  - intros features Hnone Hfeat. run_loader.
    rewrite Hcfg, Hml.
    destruct (getitem config "model") as [model_config|]; simpl in Hdir, Hfeat;
      [|discriminate].
    registry_fails Hdown mlflow_config model_version.
    all: rewrite Hdir, (bool_decide_eq_true_2 _ Hfile); simpl.
    all: rewrite Hmodel, Hnone.
    all: rewrite bool_decide_eq_false_2 by (intros [? ?]; discriminate).
    all: rewrite Hfeat; reflexivity.
Qed.

(** X16. The dashboard loads what the serving module loads for the version
    [latest]: the same estimator and feature list when the serving loader
    returns, the same exception when both raise; they part only where the
    serving loader finds no local model and raises [FileNotFoundError],
    there the dashboard returns [(None, None)]. Neither changes the
    world. *)
Theorem dashboard_loads_what_serving_loads (w : World) :
  fst (load_model "latest" w) = w
  /\ fst (dashboard_load_model w) = w
  /\ match snd (load_model "latest" w), snd (dashboard_load_model w) with
     | Ok loaded, Ok (Some loaded') => loaded = loaded'
     | Raise e, Raise e' => e = e'
     | Raise e, Ok None => e = FileNotFoundError
     | _, _ => False
     end.
Proof.
  run_loader. simpl.
  repeat match goal with
         | |- context [match ?r with Ok _ => _ | Raise _ => _ end] =>
             lazymatch r with
             | config_yaml _ => idtac
             | getitem _ _ => idtac
             | mlflow_load_model _ _ => idtac
             | joblib_load_model _ => idtac
             | joblib_load_features _ => idtac
             end;
             destruct r; simpl
         | |- context [bool_decide ?P] => destruct (bool_decide P); simpl
         | |- context [match ?v with PyStr _ => _ | _ => _ end] =>
             is_var v; destruct v; simpl
         end; auto.
Qed.

End LoaderFacts.

Section CalendarFacts.
Import Calendar.

Lemma format_02d_two_characters (m : Z) :
  1 <= m <= 12 -> String.length (format_02d m) = 2%nat.
Proof.
  intros H.
  assert (Hcases : m = 1 \/ m = 2 \/ m = 3 \/ m = 4 \/ m = 5 \/ m = 6 \/ m = 7
                   \/ m = 8 \/ m = 9 \/ m = 10 \/ m = 11 \/ m = 12) by lia.
  repeat (destruct Hcases as [->|Hcases]; [reflexivity|]).
  subst m. reflexivity.
Qed.

(** X17. For every date, [get_latest_month] names the calendar month just
    before the current one: its text is the year, a dash and a two-digit
    month between 01 and 12, and counted in months it is exactly one less
    than now; in January that is December of the year before. *)
Theorem get_latest_month_is_previous_month (now_year now_month : Z) :
  1 <= now_month <= 12 ->
  exists year month : Z,
    get_latest_month now_year now_month
    = (str_int year ++ "-" ++ format_02d month)%string
    /\ 1 <= month <= 12
    /\ String.length (format_02d month) = 2%nat
    /\ 12 * year + month = 12 * now_year + now_month - 1
    /\ (now_month = 1 -> year = now_year - 1 /\ month = 12).
Proof.
  intros Hm. unfold get_latest_month.
  destruct (now_month =? 1) eqn:E.
  - apply Z.eqb_eq in E. subst now_month.
    exists (now_year - 1), 12. repeat split; lia.
  - apply Z.eqb_neq in E.
    exists now_year, (now_month - 1).
    split; [reflexivity|]. split; [lia|].
    split; [apply format_02d_two_characters; lia|].
    split; lia.
Qed.

End CalendarFacts.

(** The theorem in January 2024. *)
Lemma get_latest_month_is_previous_month_witness :
  Calendar.get_latest_month 2024 1 = "2023-12".
Proof.
  destruct (get_latest_month_is_previous_month 2024 1 ltac:(lia))
    as (year & month & Htext & _ & _ & _ & Hjan).
  destruct (Hjan eq_refl) as [-> ->]. exact Htext.
Defined.

Section DashboardFacts.
Import Py Serve Request Dashboard.

Variable model_predict : DataFrame -> res (list float).
Variable features : list string.
Variable serving_model_version : string.

#[local] Abbreviation predict_trip_duration :=
  (Dashboard.predict_trip_duration model_predict features).
#[local] Abbreviation predict :=
  (Serve.predict model_predict features serving_model_version).
#[local] Abbreviation route_predict :=
  (Serve.route_predict model_predict features serving_model_version).

(** X18. On the dictionary of a trip the dashboard's
    [predict_trip_duration] hands the estimator the same frame as the
    serving handler [predict] and returns the same duration, and returns
    [None] exactly when the handler fails; but it validates nothing, so
    with seven feature names a trip outside the field bounds, which the
    serving route refuses, still reaches the estimator. *)
Theorem predict_trip_duration_matches_predict (t : TripRequest) :
  fst (predict_trip_duration (trip_dict t)) = fst (predict t)
  /\ snd (predict_trip_duration (trip_dict t))
     = match snd (predict t) with
       | Success r => Some (predicted_duration_minutes r)
       | _ => None
       end
  /\ (length features = 7%nat ->
      ~ within_field_bounds t ->
      route_predict t = ([], ValidationFailure)
      /\ fst (predict_trip_duration (trip_dict t))
         = [{| columns := features; rows := [feature_row t] |}]).
Proof.
  assert (Hsame : predict_trip_duration (trip_dict t)
                  = match make_frame [feature_row t] features with
                    | Raise _ => ([], None)
                    | Ok X =>
                        match model_predict X with
                        | Raise _ => ([X], None)
                        | Ok [] => ([X], None)
                        | Ok (prediction :: _) => ([X], Some prediction)
                        end
                    end) by reflexivity.
  rewrite Hsame. unfold Serve.predict.
  split; [|split].
  - destruct (make_frame _ _) as [X|]; [|reflexivity].
    destruct (model_predict X) as [[|p ps]|]; reflexivity.
  - destruct (make_frame _ _) as [X|]; [|reflexivity].
    destruct (model_predict X) as [[|p ps]|]; reflexivity.
  - intros Hlen Hbad. split.
    + unfold Serve.route_predict.
      destruct (validate t) eqn:Hv; [|reflexivity].
      apply validate_spec in Hv. contradiction.
    + rewrite make_frame_singleton by (rewrite Hlen; reflexivity).
      destruct (model_predict _) as [[|p ps]|]; reflexivity.
Qed.

(** X19. A trip dictionary that lacks one of the seven keys gives [None],
    and the estimator is not called. *)
Theorem predict_trip_duration_missing_key (d : list (string * pyval))
    (key : string) :
  In key trip_keys ->
  assoc_get key d = None ->
  predict_trip_duration (PyDict d) = ([], None).
Proof.
  intros Hkey Hnone. unfold Dashboard.predict_trip_duration. simpl.
  unfold trip_keys in Hkey. simpl in Hkey.
  repeat match goal with
         | |- context [assoc_get ?k d] =>
             lazymatch goal with
             | H : assoc_get k d = _ |- _ => rewrite H
             | _ => destruct (assoc_get k d) eqn:?
             end; simpl
         end; try reflexivity.
  all: repeat (destruct Hkey as [<-|Hkey]; [congruence|]); destruct Hkey.
Qed.

End DashboardFacts.

Section FetchFacts.
Import Py Fetch.
#[local] Open Scope fetch_scope.

Variable origin : list (pyval * string) -> pyval * string -> get_outcome.
Variable resolve : string -> Sys.path.
Variable parse_parquet : string -> res (list Ingestion.RawTrip).
Variable render_csv : Frame -> string.
Variable minutes_between : Z -> Z -> float.
Variable dt_hour dt_dayofweek dt_month : Z -> Z.

#[local] Abbreviation requests_get := (Fetch.requests_get origin).
#[local] Abbreviation download_nyc_taxi_data :=
  (Fetch.download_nyc_taxi_data origin resolve).
#[local] Abbreviation preprocess_data :=
  (Fetch.preprocess_data resolve parse_parquet minutes_between
     dt_hour dt_dayofweek dt_month).
#[local] Abbreviation ingest_data :=
  (Fetch.ingest_data origin resolve parse_parquet render_csv minutes_between
     dt_hour dt_dayofweek dt_month).

Lemma make_dirs_kept (rest done : Sys.path) (d : gmap Sys.path entry) :
  (forall q : Sys.path, done `prefix_of` q -> q `prefix_of` done ++ rest ->
             d !! q = Some Folder) ->
  make_dirs done rest d = Ok d.
Proof.
  revert done. induction rest as [|name rest IH]; intros done Hall;
    cbn [make_dirs].
  - rewrite (Hall done); [reflexivity | reflexivity |].
    rewrite app_nil_r. reflexivity.
  - rewrite (Hall done); [| reflexivity | now apply prefix_app_r].
    apply IH. intros q Hq1 Hq2. apply Hall.
    + transitivity (done ++ [name]); [now apply prefix_app_r | exact Hq1].
    + now rewrite <- app_assoc in Hq2.
Qed.

(** An existing directory is left as it is. *)
Lemma make_dirs_existing (p : Sys.path) (d : gmap Sys.path entry) :
  directory d p -> make_dirs [] p d = Ok d.
Proof.
  intros Hdir. apply make_dirs_kept. intros q _ Hq. now apply Hdir.
Qed.

#[local] Abbreviation transfer := (Fetch.transfer origin resolve).

(** A download with a readable configuration and an existing data
    directory comes down to the cache check. *)
Lemma download_run (s : Store) (base_url : pyval) (dir month : string) :
  configured_source s = Ok base_url ->
  directory (disk s) (resolve dir) ->
  download_nyc_taxi_data month (PyStr dir) s
  = if bool_decide (is_Some (disk s !! resolve (month_path dir month)))
    then (s, Ok (month_path dir month))
    else transfer base_url (month_file month) (month_path dir month) s.
Proof.
  intros Hsrc Hdir. destruct s as [d cfg log]. simpl in *.
  unfold configured_source in Hsrc. simpl in Hsrc.
  unfold Fetch.download_nyc_taxi_data, bind at 1, load_config. simpl.
  destruct cfg as [config|]; simpl in Hsrc; [|discriminate].
  unfold bind at 1, lift.
  destruct (getitem config "data") as [data_config|]; simpl in Hsrc;
    [|discriminate].
  unfold bind at 1. rewrite Hsrc.
  unfold bind at 1. unfold bind at 1, mkdir_parents. simpl.
  rewrite (make_dirs_existing _ _ Hdir).
  unfold bind at 1, os_path_exists. simpl.
  fold (month_file month). fold (month_path dir month).
  destruct (bool_decide _); reflexivity.
Qed.

(** The same when the data directory is made on the way: the download
    goes on from the disk [mkdir] leaves. *)
Lemma download_run_mkdir (s : Store) (base_url : pyval) (dir month : string)
    (d : gmap Sys.path entry) :
  configured_source s = Ok base_url ->
  make_dirs [] (resolve dir) (disk s) = Ok d ->
  download_nyc_taxi_data month (PyStr dir) s
  = if bool_decide (is_Some (d !! resolve (month_path dir month)))
    then (set_disk d s, Ok (month_path dir month))
    else transfer base_url (month_file month) (month_path dir month)
           (set_disk d s).
Proof.
  intros Hsrc Hmk. destruct s as [d0 cfg log]. simpl in *.
  unfold configured_source in Hsrc. simpl in Hsrc.
  unfold Fetch.download_nyc_taxi_data, bind at 1, load_config. simpl.
  destruct cfg as [config|]; simpl in Hsrc; [|discriminate].
  unfold bind at 1, lift.
  destruct (getitem config "data") as [data_config|]; simpl in Hsrc;
    [|discriminate].
  unfold bind at 1. rewrite Hsrc.
  unfold bind at 1. unfold bind at 1, mkdir_parents. simpl.
  rewrite Hmk.
  unfold bind at 1, os_path_exists. simpl.
  fold (month_file month). fold (month_path dir month).
  destruct (bool_decide _); reflexivity.
Qed.

(** [mkdir] keeps every entry and adds nothing but directories. *)
Lemma make_dirs_adds_folders (rest done : Sys.path)
    (d d' : gmap Sys.path entry) :
  make_dirs done rest d = Ok d' ->
  forall q : Sys.path,
    d' !! q = d !! q \/ (d !! q = None /\ d' !! q = Some Folder).
Proof.
  revert done d. induction rest as [|name rest IH]; intros done d;
    cbn [make_dirs]; destruct (d !! done) as [[|content]|] eqn:Hdone;
    try discriminate.
  - intros [= <-] q. now left.
  - intros [= <-] q. destruct (decide (q = done)) as [->|Hne].
    + right. now rewrite lookup_insert_eq.
    + left. now rewrite lookup_insert_ne.
  - intros Hrest q. exact (IH _ _ Hrest q).
  - intros Hrest q. destruct (IH _ _ Hrest q) as [Hsame|[Hnone Hnew]].
    + destruct (decide (q = done)) as [->|Hne].
      * right. rewrite Hsame, lookup_insert_eq. auto.
      * left. now rewrite Hsame, lookup_insert_ne.
    + destruct (decide (q = done)) as [->|Hne].
      * rewrite lookup_insert_eq in Hnone. discriminate.
      * right. rewrite lookup_insert_ne in Hnone by auto. auto.
Qed.

Lemma append_empty (c : string) : (c ++ "")%string = c.
Proof.
  induction c as [|a c IH]; [reflexivity|].
  change (String a (c ++ "")%string = String a c). now rewrite IH.
Qed.

Lemma append_assoc (a b c : string) :
  ((a ++ b) ++ c)%string = (a ++ (b ++ c))%string.
Proof.
  induction a as [|x a IH]; [reflexivity|].
  change (String x ((a ++ b) ++ c)%string = String x (a ++ (b ++ c))%string).
  now rewrite IH.
Qed.

(** Writing the chunks appends them, in order, to what the file holds. *)
Lemma write_all_content (p : Sys.path) (chunks : list string) (s : Store)
    (c : string) :
  disk s !! p = Some (Document c) ->
  exists s',
    write_all p chunks s = (s', Ok tt)
    /\ disk s' = <[p := Document (c ++ joined chunks)]> (disk s)
    /\ config_yaml s' = config_yaml s
    /\ fetched s' = fetched s.
Proof.
  revert s c. induction chunks as [|chunk chunks IH]; intros s c Hp; simpl.
  - exists s. unfold ret, joined. cbn [fold_right]. rewrite append_empty.
    rewrite insert_id by exact Hp. auto.
  - unfold bind, write at 1. rewrite Hp.
    destruct (IH (set_disk (<[p := Document (c ++ chunk)]> (disk s)) s)
                (c ++ chunk)%string) as (s' & Hrun & Hdisk & Hcfg & Hlog).
    { simpl. apply lookup_insert_eq. }
    exists s'. rewrite Hrun. split; [reflexivity|].
    rewrite Hdisk. unfold joined. cbn [fold_right set_disk disk config_yaml fetched].
    rewrite insert_insert_eq, append_assoc. auto.
Qed.

(** Putting a file where nothing was keeps the directories. *)
Lemma directory_insert (d : gmap Sys.path entry) (dir p : Sys.path)
    (e : entry) :
  directory d dir -> d !! p = None -> directory (<[p := e]> d) dir.
Proof.
  intros Hdir Hnone q Hq.
  rewrite lookup_insert_ne; [now apply Hdir|].
  intros ->. rewrite (Hdir q Hq) in Hnone. discriminate.
Qed.

(** What a transfer leaves behind when the status passes: the request in
    the log and the received chunks in the file, complete or not. *)
Lemma transfer_passes (s : Store) (base_url : pyval) (dir month : string)
    (status : Z) (chunks : list string) (broken : option exn) :
  disk s !! resolve (month_path dir month) = None ->
  disk s !! Sys.parent (resolve (month_path dir month)) = Some Folder ->
  origin (fetched s) (base_url, month_file month)
  = GetAnswered status chunks broken ->
  passes status ->
  exists s1,
    transfer base_url (month_file month) (month_path dir month) s
    = (s1, match broken with
           | Some e => Raise e
           | None => Ok (month_path dir month)
           end)
    /\ disk s1
       = <[resolve (month_path dir month) := Document (joined chunks)]> (disk s)
    /\ config_yaml s1 = config_yaml s
    /\ fetched s1 = fetched s ++ [(base_url, month_file month)].
Proof.
  intros Hnone Hparent Horigin Hpass.
  unfold Fetch.transfer, bind at 1, Fetch.requests_get. rewrite Horigin.
  unfold bind at 1, raise_for_status.
  replace ((400 <=? status) && (status <? 600)) with false
    by (symmetry; apply andb_false_iff; unfold passes in Hpass;
        destruct Hpass; [left; apply Z.leb_gt | right; apply Z.ltb_ge]; lia).
  unfold ret at 1. unfold bind at 1, open_wb. simpl.
  rewrite Hnone, Hparent.
  match goal with
  | |- context [write_all ?p chunks] =>
      match goal with
      | |- context [bind (write_all p chunks) ?k ?s0] =>
          destruct (write_all_content p chunks s0 "") as (s1 & Hrun & Hd & Hc & Hl);
            [simpl; apply lookup_insert_eq|]
      end
  end.
  exists s1. unfold bind. rewrite Hrun.
  split; [destruct broken; reflexivity|].
  rewrite Hd, Hc, Hl. simpl. rewrite insert_insert_eq. auto.
Qed.

(** X20. With the month file already on disk, [download_nyc_taxi_data]
    returns its path at once: no request is sent and nothing is written. *)
Theorem download_uses_the_file_on_disk (s : Store) (base_url : pyval)
    (dir month : string) :
  configured_source s = Ok base_url ->
  directory (disk s) (resolve dir) ->
  is_Some (disk s !! resolve (month_path dir month)) ->
  download_nyc_taxi_data month (PyStr dir) s = (s, Ok (month_path dir month)).
Proof.
  intros Hsrc Hdir Hfile.
  rewrite (download_run s base_url dir month Hsrc Hdir).
  now rewrite bool_decide_eq_true_2.
Qed.

(** X21. When the data directory exists or can be made, the month file is
    not there, and the request fails or is answered with a status from 400
    to 599, [download_nyc_taxi_data] raises after the one request and
    leaves no file behind: the disk is what [mkdir] made of it, that is
    the old disk with nothing but the missing directories added, and the
    old disk itself when the data directory existed. *)
Theorem download_failure_leaves_no_file (s : Store) (base_url : pyval)
    (dir month : string) (d : gmap Sys.path entry) :
  configured_source s = Ok base_url ->
  make_dirs [] (resolve dir) (disk s) = Ok d ->
  d !! resolve (month_path dir month) = None ->
  (forall q : Sys.path,
     d !! q = disk s !! q \/ (disk s !! q = None /\ d !! q = Some Folder))
  /\ (directory (disk s) (resolve dir) -> d = disk s)
  /\ (forall e,
        origin (fetched s) (base_url, month_file month) = GetFailed e ->
        exists s1,
          download_nyc_taxi_data month (PyStr dir) s = (s1, Raise e)
          /\ disk s1 = d
          /\ fetched s1 = fetched s ++ [(base_url, month_file month)])
  /\ (forall status chunks broken,
        origin (fetched s) (base_url, month_file month)
        = GetAnswered status chunks broken ->
        400 <= status < 600 ->
        exists s1,
          download_nyc_taxi_data month (PyStr dir) s
          = (s1, Raise RequestException)
          /\ disk s1 = d
          /\ fetched s1 = fetched s ++ [(base_url, month_file month)]).
Proof.
  intros Hsrc Hmk Hnone.
  pose proof (download_run_mkdir s base_url dir month d Hsrc Hmk) as Hrun.
  rewrite bool_decide_eq_false_2 in Hrun
    by (rewrite Hnone; intros [? ?]; discriminate).
  split; [exact (make_dirs_adds_folders _ _ _ _ Hmk)|].
  split.
  { intros Hdir. rewrite (make_dirs_existing _ _ Hdir) in Hmk.
    now injection Hmk. }
  split.
  - intros e He.
    exists {| disk := d; config_yaml := config_yaml s;
              fetched := fetched s ++ [(base_url, month_file month)] |}.
    rewrite Hrun. unfold Fetch.transfer, bind at 1, Fetch.requests_get.
    simpl. rewrite He. auto.
  - intros status chunks broken He Hstatus.
    exists {| disk := d; config_yaml := config_yaml s;
              fetched := fetched s ++ [(base_url, month_file month)] |}.
    rewrite Hrun. unfold Fetch.transfer, bind at 1, Fetch.requests_get.
    simpl. rewrite He. unfold bind at 1, raise_for_status.
    replace ((400 <=? status) && (status <? 600)) with true
      by (symmetry; apply andb_true_iff; split;
          [apply Z.leb_le | apply Z.ltb_lt]; lia).
    auto.
Qed.

(** X22. A completed download writes the received chunks, in order, to
    the month file, and the next call for the same month finds the file
    and sends no second request. *)
Theorem download_then_cached (s : Store) (base_url : pyval)
    (dir month : string) (status : Z) (chunks : list string) :
  configured_source s = Ok base_url ->
  directory (disk s) (resolve dir) ->
  Sys.parent (resolve (month_path dir month)) = resolve dir ->
  disk s !! resolve (month_path dir month) = None ->
  origin (fetched s) (base_url, month_file month)
  = GetAnswered status chunks None ->
  passes status ->
  exists s1,
    download_nyc_taxi_data month (PyStr dir) s = (s1, Ok (month_path dir month))
    /\ disk s1
       = <[resolve (month_path dir month) := Document (joined chunks)]> (disk s)
    /\ fetched s1 = fetched s ++ [(base_url, month_file month)]
    /\ download_nyc_taxi_data month (PyStr dir) s1
       = (s1, Ok (month_path dir month)).
Proof.
  intros Hsrc Hdir Hinside Hnone Horigin Hpass.
  assert (Hparent : disk s !! Sys.parent (resolve (month_path dir month))
                    = Some Folder).
  { rewrite Hinside. apply Hdir. reflexivity. }
  rewrite (download_run s base_url dir month Hsrc Hdir).
  rewrite bool_decide_eq_false_2 by (rewrite Hnone; intros [? ?]; discriminate).
  destruct (transfer_passes s base_url dir month status chunks None
              Hnone Hparent Horigin Hpass) as (s1 & Hrun & Hd & Hc & Hl).
  exists s1. split; [exact Hrun|]. split; [exact Hd|]. split; [exact Hl|].
  rewrite (download_run s1 base_url dir month).
  - rewrite bool_decide_eq_true_2; [reflexivity|].
    rewrite Hd, lookup_insert_eq. eauto.
  - unfold configured_source in *. now rewrite Hc.
  - rewrite Hd. now apply directory_insert.
Qed.

(** X23. A download cut off in the middle of the stream raises, but the
    chunks received so far stay on disk under the month file's name; the
    next call for the same month takes that partial file for the download
    and returns its path without any request. *)
Theorem interrupted_download_is_taken_for_complete (s : Store)
    (base_url : pyval) (dir month : string) (status : Z)
    (chunks : list string) (e : exn) :
  configured_source s = Ok base_url ->
  directory (disk s) (resolve dir) ->
  Sys.parent (resolve (month_path dir month)) = resolve dir ->
  disk s !! resolve (month_path dir month) = None ->
  origin (fetched s) (base_url, month_file month)
  = GetAnswered status chunks (Some e) ->
  passes status ->
  exists s1,
    download_nyc_taxi_data month (PyStr dir) s = (s1, Raise e)
    /\ disk s1 !! resolve (month_path dir month)
       = Some (Document (joined chunks))
    /\ download_nyc_taxi_data month (PyStr dir) s1
       = (s1, Ok (month_path dir month)).
Proof.
  intros Hsrc Hdir Hinside Hnone Horigin Hpass.
  assert (Hparent : disk s !! Sys.parent (resolve (month_path dir month))
                    = Some Folder).
  { rewrite Hinside. apply Hdir. reflexivity. }
  rewrite (download_run s base_url dir month Hsrc Hdir).
  rewrite bool_decide_eq_false_2 by (rewrite Hnone; intros [? ?]; discriminate).
  destruct (transfer_passes s base_url dir month status chunks (Some e)
              Hnone Hparent Horigin Hpass) as (s1 & Hrun & Hd & Hc & Hl).
  exists s1. split; [exact Hrun|].
  split; [rewrite Hd; apply lookup_insert_eq|].
  rewrite (download_run s1 base_url dir month).
  - rewrite bool_decide_eq_true_2; [reflexivity|].
    rewrite Hd, lookup_insert_eq. eauto.
  - unfold configured_source in *. now rewrite Hc.
  - rewrite Hd. now apply directory_insert.
Qed.

#[local] Abbreviation read_parquet := (Fetch.read_parquet resolve parse_parquet).
#[local] Abbreviation derive :=
  (Fetch.derive minutes_between dt_hour dt_dayofweek dt_month).
#[local] Abbreviation select :=
  (Ingestion.select minutes_between dt_hour dt_dayofweek dt_month).
#[local] Abbreviation valid_duration :=
  (Ingestion.valid_duration minutes_between).
#[local] Abbreviation to_csv := (Fetch.to_csv resolve render_csv).

(** With the configuration readable and the month file on disk,
    [ingest_data] comes down to the cleaning and the optional save. *)
Lemma ingest_run (s : Store) (base_url : pyval) (dir month : string)
    (save_processed : bool) :
  configured_source s = Ok base_url ->
  configured_data_dir s = Ok (PyStr dir) ->
  directory (disk s) (resolve dir) ->
  is_Some (disk s !! resolve (month_path dir month)) ->
  ingest_data month save_processed s
  = match snd (preprocess_data (month_path dir month) s) with
    | Ok df =>
        if save_processed
        then (to_csv df (processed_path dir month) ;;; ret df) s
        else (s, Ok df)
    | Raise e => (s, Raise e)
    end.
Proof.
  intros Hsrc Hdd Hdir Hfile.
  assert (Hdl : download_nyc_taxi_data month (PyStr dir) s
                = (s, Ok (month_path dir month))).
  { rewrite (download_run s base_url dir month Hsrc Hdir).
    now rewrite bool_decide_eq_true_2. }
  unfold configured_data_dir in Hdd.
  unfold Fetch.ingest_data, bind at 1, load_config.
  destruct (config_yaml s) as [config|]; simpl in Hdd; [|discriminate].
  unfold bind at 1, lift.
  destruct (getitem config "data") as [data_config|]; simpl in Hdd;
    [|discriminate].
  unfold bind at 1. rewrite Hdd.
  unfold bind at 1. rewrite Hdl.
  unfold bind at 1.
  change (preprocess_data (month_path dir month) s)
    with (s, snd (preprocess_data (month_path dir month) s)).
  destruct (snd (preprocess_data (month_path dir month) s)) as [df|e];
    [|reflexivity].
  destruct save_processed; reflexivity.
Qed.

(** After the two masks no cell of a row is missing, under any column. *)
Lemma nothing_missing (r : Ingestion.RawTrip) (t : Ingestion.Trip)
    (col : string) :
  Ingestion.valid_record r = true -> valid_duration r = true ->
  select r = Ok t ->
  missing (r, t) col = false.
Proof.
  intros Hv Hd Hs.
  pose proof (select_complete minutes_between dt_hour dt_dayofweek dt_month
                r t Hv Hd Hs) as Hc.
  unfold Ingestion.complete in Hc.
  repeat (apply andb_true_iff in Hc as [Hc ?]).
  apply (valid_record_spec r) in Hv as (_ & _ & [pu Hpu] & [do Hdo]).
  apply (valid_duration_spec minutes_between r) in Hd as (q & Hq & _).
  assert (Hpick : is_Some (Ingestion.lpep_pickup_datetime r)
                  /\ is_Some (Ingestion.lpep_dropoff_datetime r)).
  { unfold Ingestion.duration_of in Hq.
    destruct (Ingestion.lpep_pickup_datetime r),
      (Ingestion.lpep_dropoff_datetime r); try discriminate; eauto. }
  destruct Hpick as [[p Hp] [o Ho]].
  unfold missing. rewrite Hpu, Hdo, Hp, Ho.
  repeat match goal with
         | H : negb (Ingestion.isna ?x) = true |- _ =>
             apply negb_true_iff in H; rewrite H
         | H : Ingestion.notna ?x = true |- _ => rewrite H
         end.
  simpl.
  repeat match goal with
         | |- context [if ?b then _ else _] => destruct b
         end; reflexivity.
Qed.

(** The rows after line 119 are the rows passing both masks, each with its
    computed columns. *)
Lemma derive_rows (raw : list Ingestion.RawTrip) :
  exists rows,
    Ingestion.map_res derive
      (List.filter valid_duration (List.filter Ingestion.valid_record raw))
    = Ok rows
    /\ Forall2 (fun r row => fst row = r /\ select r = Ok (snd row))
         (List.filter
            (fun r => Ingestion.valid_record r && valid_duration r) raw)
         rows
    /\ (forall cols, dropna cols rows = rows).
Proof.
  set (kept := List.filter valid_duration
                 (List.filter Ingestion.valid_record raw)).
  assert (Hkept : forall r, In r kept ->
            Ingestion.valid_record r = true /\ valid_duration r = true).
  { intros r. unfold kept. rewrite !filter_In. tauto. }
  destruct (map_res_total derive kept) as [rows Hrows].
  { intros r Hr. apply Hkept in Hr as [Hv _].
    destruct (select_total minutes_between dt_hour dt_dayofweek dt_month r Hv)
      as [t Ht].
    exists (r, t). unfold Fetch.derive. now rewrite Ht. }
  assert (Hderived : forall r row, derive r = Ok row ->
            fst row = r /\ select r = Ok (snd row)).
  { intros r row. unfold Fetch.derive.
    destruct (select r) as [t|]; simpl; [|discriminate].
    now intros [= <-]. }
  exists rows. split; [exact Hrows|]. split.
  - replace (List.filter
               (fun r => Ingestion.valid_record r && valid_duration r) raw)
      with kept.
    + pose proof (map_res_Forall2 _ _ _ Hrows) as HF.
      clear - HF Hderived. induction HF; constructor; auto.
    + unfold kept. clear. induction raw as [|r l IH]; simpl; [reflexivity|].
      destruct (Ingestion.valid_record r); simpl; [|exact IH].
      destruct (valid_duration r); simpl; [now rewrite IH | exact IH].
  - intros cols. unfold dropna. apply filter_all.
    intros [r t] Hrow.
    destruct (map_res_In _ _ _ Hrows _ Hrow) as (r0 & Hr0 & Hd0).
    destruct (Hderived _ _ Hd0) as [Hfst Hsel]. simpl in Hfst, Hsel.
    subst r0. apply Hkept in Hr0 as [Hv Hd].
    apply forallb_forall. intros col _.
    now rewrite (nothing_missing r t col Hv Hd Hsel).
Qed.

(** What the cleaning gives for a month file that parses: an error of the
    configuration or of the target, or the frame of the selected
    columns. *)
Lemma preprocess_data_run (s : Store) (filepath content : string)
    (raw : list Ingestion.RawTrip) :
  disk s !! resolve filepath = Some (Document content) ->
  parse_parquet content = Ok raw ->
  exists rows,
    Forall2 (fun r row => fst row = r /\ select r = Ok (snd row))
      (List.filter
         (fun r => Ingestion.valid_record r && valid_duration r) raw)
      rows
    /\ snd (preprocess_data filepath s)
       = res_bind (configured_target s) (fun target =>
         res_bind (selected_columns target) (fun cols =>
         Ok {| selected := cols; records := rows |})).
Proof.
  intros Hfile Hparse.
  destruct (derive_rows raw) as (rows & Hrows & HF & Hdrop).
  exists rows. split; [exact HF|].
  unfold Fetch.preprocess_data, Fetch.read_parquet, configured_target. simpl.
  rewrite Hfile, Hparse. simpl. rewrite Hrows. simpl.
  destruct (config_yaml s) as [config|]; simpl; [|reflexivity].
  destruct (getitem config "model") as [model_config|]; simpl; [|reflexivity].
  destruct (getitem model_config "target") as [target|]; simpl; [|reflexivity].
  destruct (selected_columns target) as [cols|]; simpl; [|reflexivity].
  now rewrite Hdrop.
Qed.

(** X24. With the data directory in place and a month file on disk that
    parses, [ingest_data] sends no request. When the configuration names a
    target that can be looked up among the columns, it returns the same
    frame whatever [save_processed] is: the selected columns over one row
    for each row of the file that passes the two masks, in order, none
    dropped for a missing value; without the flag the store is left as it
    was, and with it the only change is the processed file, written from
    the frame returned. When the configuration has no target, or one that
    cannot be looked up, [ingest_data] raises that error and leaves the
    store as it was, with or without the flag. *)
Theorem ingest_data_save_flag (s : Store) (base_url : pyval)
    (dir month content : string) (raw : list Ingestion.RawTrip) :
  configured_source s = Ok base_url ->
  configured_data_dir s = Ok (PyStr dir) ->
  directory (disk s) (resolve dir) ->
  disk s !! resolve (month_path dir month) = Some (Document content) ->
  parse_parquet content = Ok raw ->
  (forall target cols,
     configured_target s = Ok target ->
     selected_columns target = Ok cols ->
     exists df,
       selected df = cols
       /\ Forall2 (fun r row => fst row = r /\ select r = Ok (snd row))
            (List.filter
               (fun r => Ingestion.valid_record r && valid_duration r) raw)
            (records df)
       /\ ingest_data month false s = (s, Ok df)
       /\ (disk s !! resolve (processed_path dir month) <> Some Folder ->
           disk s !! Sys.parent (resolve (processed_path dir month))
           = Some Folder ->
           exists s1,
             ingest_data month true s = (s1, Ok df)
             /\ disk s1
                = <[resolve (processed_path dir month)
                    := Document (render_csv df)]> (disk s)
             /\ fetched s1 = fetched s))
  /\ (forall e save_processed,
        configured_target s = Raise e
        \/ (exists target,
              configured_target s = Ok target
              /\ selected_columns target = Raise e) ->
        ingest_data month save_processed s = (s, Raise e)).
Proof.
  intros Hsrc Hdd Hdir Hfile Hparse.
  assert (Hsome : is_Some (disk s !! resolve (month_path dir month)))
    by (rewrite Hfile; eauto).
  destruct (preprocess_data_run s (month_path dir month) content raw
              Hfile Hparse) as (rows & HF & Hclean).
  split.
  - intros target cols Htarget Hcols.
    assert (Hframe : snd (preprocess_data (month_path dir month) s)
                     = Ok {| selected := cols; records := rows |}).
    { rewrite Hclean, Htarget. simpl. now rewrite Hcols. }
    exists {| selected := cols; records := rows |}.
    split; [reflexivity|]. split; [exact HF|].
    rewrite !(ingest_run s base_url dir month _ Hsrc Hdd Hdir Hsome), Hframe.
    split; [reflexivity|].
    intros Hnotdir Hparent.
    unfold Fetch.to_csv, bind, open_wb, write. rewrite Hparent.
    destruct (disk s !! resolve (processed_path dir month))
      as [[|old]|] eqn:Hold;
      [congruence | |]; simpl; rewrite lookup_insert_eq;
      (eexists; split; [reflexivity|]; simpl; rewrite insert_insert_eq; auto).
  - intros e save_processed Hbad.
    rewrite (ingest_run s base_url dir month _ Hsrc Hdd Hdir Hsome), Hclean.
    destruct Hbad as [Htarget | (target & Htarget & Hcols)];
      rewrite Htarget; simpl; [reflexivity|].
    rewrite Hcols. reflexivity.
Qed.

(** X25. A month file that cannot be read as a table makes [ingest_data]
    raise what the reader raised, with the store unchanged: the file stays
    on disk, so the next call finds it again, sends no request and fails
    the same way. *)
Theorem ingest_data_unreadable_file_persists (s : Store) (base_url : pyval)
    (dir month : string) (content : string) (e : exn)
    (save_processed : bool) :
  configured_source s = Ok base_url ->
  configured_data_dir s = Ok (PyStr dir) ->
  directory (disk s) (resolve dir) ->
  disk s !! resolve (month_path dir month) = Some (Document content) ->
  parse_parquet content = Raise e ->
  ingest_data month save_processed s = (s, Raise e).
Proof.
  intros Hsrc Hdd Hdir Hfile Hparse.
  rewrite (ingest_run s base_url dir month _ Hsrc Hdd Hdir)
    by (rewrite Hfile; eauto).
  unfold Fetch.preprocess_data, Fetch.read_parquet. simpl.
  now rewrite Hfile, Hparse.
Qed.

End FetchFacts.

(* ===================================================================== *)
(** * The further properties at concrete inputs *)
(* ===================================================================== *)

(** The theorem at a collaborator that rejects its input. *)
Lemma check_drift_pure_but_propagates_witness :
  exists e,
    Drift.check_drift Stand.evidently_fails Doubles.frame Doubles.frame
      Doubles.half Doubles.idle
    = (Doubles.idle, Py.Raise e).
Proof.
  destruct (check_drift_pure_but_propagates Stand.evidently_fails
              Doubles.frame Doubles.frame Doubles.half Doubles.idle)
    as (_ & _ & Hraises).
  apply (Hraises Py.ValueError). intros cm. reflexivity.
Defined.

(** The theorem with the orchestration service down. *)
Lemma trigger_retraining_twice_witness :
  exists w1 w2,
    Drift.trigger_retraining Doubles.repo_root Doubles.remote_down Doubles.idle
    = (w1, Py.Ok true)
    /\ Drift.trigger_retraining Doubles.repo_root Doubles.remote_down w1
       = (w2, Py.Ok true)
    /\ Sys.files w2 = Sys.files w1.
Proof.
  destruct (trigger_retraining_twice Doubles.repo_root Doubles.remote_down
              Doubles.idle (Py.PyStr "retrain_model_dag")
              eq_refl eq_refl eq_refl eq_refl)
    as (w1 & w2 & H1 & H2 & Hfiles & _).
  exists w1, w2. auto.
Defined.

(** The theorem from the idle checkout, with the orchestration service
    down. *)
Lemma fire_then_consume_restores_witness :
  exists w1 w2,
    Drift.trigger_retraining Doubles.repo_root Doubles.remote_down Doubles.idle
    = (w1, Py.Ok true)
    /\ Dag.check_retrain_trigger Doubles.repo_root w1 = (w2, Py.Ok true)
    /\ Sys.files w2 = Sys.files Doubles.idle.
Proof.
  exact (fire_then_consume_restores Doubles.repo_root Doubles.remote_down
           Doubles.idle (Py.PyStr "retrain_model_dag")
           eq_refl eq_refl eq_refl eq_refl).
Defined.

(** The theorem with an orchestration service that accepts the run. *)
Lemma accepted_trigger_leaves_nothing_to_consume_witness :
  exists w1,
    Drift.trigger_retraining Doubles.repo_root Doubles.remote_accepting
      Doubles.idle
    = (w1, Py.Ok true)
    /\ Dag.check_retrain_trigger Doubles.repo_root w1 = (w1, Py.Ok false).
Proof.
  exact (accepted_trigger_leaves_nothing_to_consume Doubles.repo_root
           Doubles.remote_accepting Doubles.idle (Py.PyStr "retrain_model_dag")
           eq_refl eq_refl eq_refl).
Defined.

(** The theorem at a configuration without the [airflow] section. *)
Lemma trigger_retraining_needs_configuration_witness :
  Drift.trigger_retraining Doubles.repo_root Doubles.remote_down
    Stand.unconfigured
  = (Stand.unconfigured, Py.Raise Py.KeyError).
Proof.
  exact (trigger_retraining_needs_configuration Doubles.repo_root
           Doubles.remote_down Stand.unconfigured Py.KeyError eq_refl).
Defined.

(** The theorem for three samples with nothing listening. *)
Lemma get_predictions_from_api_columns_witness :
  exists w' df,
    Drift.get_predictions_from_api Doubles.remote_down nat Doubles.np_seed
      Doubles.np_uniform Doubles.np_randint "http://localhost:8000" 3
      Doubles.idle
    = (w', Py.Ok df)
    /\ Py.columns df = Sampled.sample_columns.
Proof.
  pose (run := Drift.get_predictions_from_api Doubles.remote_down nat
                 Doubles.np_seed Doubles.np_uniform Doubles.np_randint
                 "http://localhost:8000" 3 Doubles.idle).
  pose (df := match snd run with
              | Py.Ok df => df
              | Py.Raise _ => {| Py.columns := []; Py.rows := [] |}
              end).
  assert (Hrun : run = (fst run, Py.Ok df)) by (vm_compute; reflexivity).
  destruct (get_predictions_from_api_columns Doubles.remote_down nat
              Doubles.np_seed Doubles.np_uniform Doubles.np_randint
              "http://localhost:8000" 3 Doubles.idle (fst run) df Hrun)
    as (_ & Hcolumns & _).
  exists (fst run), df. split; [exact Hrun|].
  apply Hcolumns. vm_compute. discriminate.
Defined.

(** The theorem when the reference month cannot be ingested. *)
Lemma monitor_drift_stops_on_failure_witness :
  Drift.monitor_drift Doubles.repo_root Doubles.remote_down
    (Doubles.evidently_says (Doubles.report_of (Py.PyBool true))) nat
    Doubles.np_seed Doubles.np_uniform Doubles.np_randint Stand.ingest_fails
    "2023-01" None "http://localhost:8000" Doubles.half 3 Doubles.idle
  = (Doubles.idle, Py.Raise Py.FileNotFoundError).
Proof.
  destruct (monitor_drift_stops_on_failure Doubles.repo_root
              Doubles.remote_down
              (Doubles.evidently_says (Doubles.report_of (Py.PyBool true)))
              nat Doubles.np_seed Doubles.np_uniform Doubles.np_randint
              Stand.ingest_fails "2023-01" None "http://localhost:8000"
              Doubles.half 3 Doubles.idle) as [Hreference _].
  apply Hreference. reflexivity.
Defined.

(** The theorem at a batch whose second request has seven passengers. *)
Lemma route_predict_batch_all_or_nothing_witness :
  Serve.route_predict_batch Doubles.constant_model Doubles.feature_names
    "latest" [Doubles.minimal_request; Doubles.crowded_request]
  = ([], Serve.ValidationFailure).
Proof.
  apply (route_predict_batch_all_or_nothing Doubles.constant_model
           Doubles.feature_names "latest"
           [Doubles.minimal_request; Doubles.crowded_request]
           Doubles.crowded_request).
  - right. left. reflexivity.
  - intros (_ & [_ Hmax] & _). vm_compute in Hmax. apply Hmax. reflexivity.
Defined.

(** The theorem at a feature list of one name. *)
Lemma wrong_feature_count_fails_every_request_witness :
  Serve.route_predict Doubles.constant_model ["trip_distance"] "latest"
    Doubles.minimal_request
  = ([], Serve.ServerError Py.ValueError).
Proof.
  destruct (wrong_feature_count_fails_every_request Doubles.constant_model
              ["trip_distance"] "latest" ltac:(discriminate))
    as (Hsingle & _).
  apply Hsingle. reflexivity.
Defined.

Lemma constant_model_pointwise : Estimator.pointwise Doubles.constant_model.
Proof. exists (fun _ => Doubles.float_of 12 0). intros X. reflexivity. Qed.

(** The theorem at a batch of two requests. *)
Lemma route_predict_batch_pointwise_witness :
  exists items,
    Serve.route_predict_batch Doubles.constant_model Doubles.feature_names
      "latest" [Doubles.minimal_request; Doubles.minimal_request]
    = ([{| Py.columns := Doubles.feature_names;
           Py.rows := map Serve.feature_row
                        [Doubles.minimal_request; Doubles.minimal_request] |}],
       Serve.Success items)
    /\ length items = 2%nat.
Proof.
  destruct (route_predict_batch_pointwise Doubles.constant_model
              Doubles.feature_names "latest"
              [Doubles.minimal_request; Doubles.minimal_request]
              constant_model_pointwise eq_refl eq_refl)
    as (items & Hrun & Hitems).
  exists items. split; [exact Hrun|].
  apply Forall2_length in Hitems. now rewrite <- Hitems.
Defined.

(** The theorem for version 3 with the registry answering. *)
Lemma load_model_prefers_registry_witness :
  Loader.load_model string Stand.mlflow_serving Stand.joblib_load_model
    Stand.joblib_load_features Stand.resolve "3" Stand.trained
  = (Stand.trained,
     Py.Ok ("models:/nyc_taxi_trip_duration/3",
            Py.PyList (map Py.PyStr Doubles.feature_names))).
Proof.
  exact (load_model_prefers_registry string Stand.mlflow_serving
           Stand.joblib_load_model Stand.joblib_load_features Stand.resolve
           "3" Stand.trained Stand.config Stand.mlflow_config
           (Py.PyStr "sqlite:///mlflow.db")
           (Py.PyList (map Py.PyStr Doubles.feature_names))
           "models:/nyc_taxi_trip_duration/3"
           eq_refl eq_refl eq_refl eq_refl eq_refl).
Defined.

Lemma mlflow_down_registry_down : Loader.registry_down Stand.mlflow_down.
Proof. intros tracking_uri model_uri. eexists. reflexivity. Qed.

(** The theorem in a checkout before any training. *)
Lemma load_model_without_any_model_witness :
  Loader.load_model string Stand.mlflow_down Stand.joblib_load_model
    Stand.joblib_load_features Stand.resolve "latest" Stand.untrained
  = (Stand.untrained, Py.Raise Py.FileNotFoundError)
  /\ Loader.dashboard_load_model string Stand.mlflow_down
       Stand.joblib_load_model Stand.joblib_load_features Stand.resolve
       Stand.untrained
     = (Stand.untrained, Py.Ok None).
Proof.
  exact (load_model_without_any_model string Stand.mlflow_down
           Stand.joblib_load_model Stand.joblib_load_features Stand.resolve
           "latest" Stand.untrained Stand.config Stand.mlflow_config "models"
           eq_refl eq_refl mlflow_down_registry_down eq_refl eq_refl).
Defined.

(** The theorem in a checkout with a local model and no stored feature
    list. *)
Lemma load_model_local_features_witness :
  Loader.load_model string Stand.mlflow_down Stand.joblib_load_model
    Stand.joblib_load_features Stand.resolve "latest" Stand.trained
  = (Stand.trained,
     Py.Ok ("models/model.joblib",
            Py.PyList (map Py.PyStr Doubles.feature_names))).
Proof.
  destruct (load_model_local_features string Stand.mlflow_down
              Stand.joblib_load_model Stand.joblib_load_features Stand.resolve
              "latest" Stand.trained Stand.config Stand.mlflow_config "models"
              "models/model.joblib"
              eq_refl eq_refl mlflow_down_registry_down eq_refl
              (ex_intro _ Sys.File eq_refl) eq_refl)
    as [_ Hconfigured].
  apply Hconfigured; reflexivity.
Defined.

(** The theorem at the request with seven passengers. *)
Lemma predict_trip_duration_matches_predict_witness :
  Serve.route_predict Doubles.constant_model Doubles.feature_names "latest"
    Doubles.crowded_request
  = ([], Serve.ValidationFailure)
  /\ fst (Dashboard.predict_trip_duration Doubles.constant_model
            Doubles.feature_names
            (Dashboard.trip_dict Doubles.crowded_request))
     = [{| Py.columns := Doubles.feature_names;
           Py.rows := [Serve.feature_row Doubles.crowded_request] |}].
Proof.
  destruct (predict_trip_duration_matches_predict Doubles.constant_model
              Doubles.feature_names "latest" Doubles.crowded_request)
    as (_ & _ & Hunchecked).
  apply Hunchecked; [reflexivity|].
  intros (_ & [_ Hmax] & _). vm_compute in Hmax. apply Hmax. reflexivity.
Defined.

(** The theorem at a dictionary without its [hour]. *)
Lemma predict_trip_duration_missing_key_witness :
  Dashboard.predict_trip_duration Doubles.constant_model Doubles.feature_names
    (Py.PyDict Stand.no_hour)
  = ([], None).
Proof.
  apply (predict_trip_duration_missing_key Doubles.constant_model
           Doubles.feature_names Stand.no_hour "hour").
  - right. right. left. reflexivity.
  - reflexivity.
Defined.

Lemma directory_by_depth (d : gmap Sys.path Fetch.entry) (p : Sys.path) :
  (forall n : nat, (n <= length p)%nat ->
     d !! (take n p : Sys.path) = Some Fetch.Folder) ->
  Fetch.directory d p.
Proof.
  intros Hdepth q [k ->].
  specialize (Hdepth (length q)). rewrite take_app_length in Hdepth.
  apply Hdepth. rewrite length_app. lia.
Qed.

(** Checks a directory of a concrete disk level by level. *)
Ltac walk :=
  apply directory_by_depth; intros n Hn; vm_compute in Hn;
  repeat (destruct n as [|n]; [reflexivity | try lia]).

Lemma empty_store_data_dir :
  Fetch.directory (Fetch.disk Stand.empty_store) (Stand.resolve "data").
Proof. walk. Qed.

Lemma january_store_data_dir :
  Fetch.directory (Fetch.disk Stand.january_store) (Stand.resolve "data").
Proof. walk. Qed.

Lemma cut_store_data_dir :
  Fetch.directory (Fetch.disk Stand.cut_store) (Stand.resolve "data").
Proof. walk. Qed.

(** The theorem with the month file on disk and the file server down. *)
Lemma download_uses_the_file_on_disk_witness :
  Fetch.download_nyc_taxi_data Stand.origin_down Stand.resolve "2023-01"
    (Py.PyStr "data") Stand.january_store
  = (Stand.january_store, Py.Ok "data/green_tripdata_2023-01.parquet").
Proof.
  exact (download_uses_the_file_on_disk Stand.origin_down Stand.resolve
           Stand.january_store
           (Py.PyStr "https://d37ci6vzurychx.cloudfront.net/trip-data")
           "data" "2023-01" eq_refl january_store_data_dir
           (ex_intro _ (Fetch.Document Stand.month_bytes) eq_refl)).
Defined.

Lemma fresh_store_mkdir :
  Fetch.make_dirs [] (Stand.resolve "data") (Fetch.disk Stand.fresh_store)
  = Py.Ok Stand.folders.
Proof. vm_compute. reflexivity. Qed.

Lemma empty_store_mkdir :
  Fetch.make_dirs [] (Stand.resolve "data") (Fetch.disk Stand.empty_store)
  = Py.Ok Stand.folders.
Proof. vm_compute. reflexivity. Qed.

(** The theorem with the file server down, before the data directory is
    made, and with the file missing on the server. *)
Lemma download_failure_leaves_no_file_witness :
  (exists s1,
     Fetch.download_nyc_taxi_data Stand.origin_down Stand.resolve "2023-01"
       (Py.PyStr "data") Stand.fresh_store
     = (s1, Py.Raise Py.RequestException)
     /\ Fetch.disk s1 = Fetch.disk Stand.empty_store)
  /\ (exists s1,
        Fetch.download_nyc_taxi_data Stand.origin_missing Stand.resolve
          "2023-01" (Py.PyStr "data") Stand.empty_store
        = (s1, Py.Raise Py.RequestException)
        /\ Fetch.disk s1 = Fetch.disk Stand.empty_store).
Proof.
  split.
  - destruct (download_failure_leaves_no_file Stand.origin_down Stand.resolve
                Stand.fresh_store
                (Py.PyStr "https://d37ci6vzurychx.cloudfront.net/trip-data")
                "data" "2023-01" Stand.folders eq_refl fresh_store_mkdir
                eq_refl)
      as (_ & _ & Hdown & _).
    destruct (Hdown Py.RequestException eq_refl) as (s1 & Hrun & Hdisk & _).
    exists s1. auto.
  - destruct (download_failure_leaves_no_file Stand.origin_missing
                Stand.resolve Stand.empty_store
                (Py.PyStr "https://d37ci6vzurychx.cloudfront.net/trip-data")
                "data" "2023-01" Stand.folders eq_refl empty_store_mkdir
                eq_refl)
      as (_ & _ & _ & Hrefused).
    destruct (Hrefused 404 [] None eq_refl ltac:(lia))
      as (s1 & Hrun & Hdisk & _).
    exists s1. auto.
Defined.

(** The theorem with a file server that serves the month file in two
    chunks. *)
Lemma download_then_cached_witness :
  exists s1,
    Fetch.download_nyc_taxi_data Stand.origin_serving Stand.resolve "2023-01"
      (Py.PyStr "data") Stand.empty_store
    = (s1, Py.Ok "data/green_tripdata_2023-01.parquet")
    /\ Fetch.disk s1 = Fetch.disk Stand.january_store
    /\ Fetch.download_nyc_taxi_data Stand.origin_serving Stand.resolve
         "2023-01" (Py.PyStr "data") s1
       = (s1, Py.Ok "data/green_tripdata_2023-01.parquet").
Proof.
  destruct (download_then_cached Stand.origin_serving Stand.resolve
              Stand.empty_store
              (Py.PyStr "https://d37ci6vzurychx.cloudfront.net/trip-data")
              "data" "2023-01" 200 Stand.month_chunks
              eq_refl empty_store_data_dir eq_refl eq_refl eq_refl
              ltac:(left; lia))
    as (s1 & Hrun & Hdisk & _ & Hagain).
  exists s1. split; [exact Hrun|]. split; [|exact Hagain].
  rewrite Hdisk. reflexivity.
Defined.

(** The theorem with a stream that breaks after the first chunk. *)
Lemma interrupted_download_is_taken_for_complete_witness :
  exists s1,
    Fetch.download_nyc_taxi_data Stand.origin_cut Stand.resolve "2023-01"
      (Py.PyStr "data") Stand.empty_store
    = (s1, Py.Raise Py.RequestException)
    /\ Fetch.disk s1 !! Stand.resolve "data/green_tripdata_2023-01.parquet"
       = Some (Fetch.Document "PAR1")
    /\ Fetch.download_nyc_taxi_data Stand.origin_cut Stand.resolve "2023-01"
         (Py.PyStr "data") s1
       = (s1, Py.Ok "data/green_tripdata_2023-01.parquet").
Proof.
  exact (interrupted_download_is_taken_for_complete Stand.origin_cut
           Stand.resolve Stand.empty_store
           (Py.PyStr "https://d37ci6vzurychx.cloudfront.net/trip-data")
           "data" "2023-01" 200 ["PAR1"] Py.RequestException
           eq_refl empty_store_data_dir eq_refl eq_refl eq_refl
           ltac:(left; lia)).
Defined.

(** The theorem with the file of January 2023 on disk, with the target
    configured and with a configuration that has only its [data]
    section. *)
Lemma ingest_data_save_flag_witness :
  (exists df s1,
     Fetch.ingest_data Stand.origin_down Stand.resolve Stand.parse_parquet
       Stand.render_csv Doubles.minutes_between Doubles.dt_hour
       Doubles.dt_dayofweek Doubles.dt_month "2023-01" false
       Stand.january_store
     = (Stand.january_store, Py.Ok df)
     /\ Fetch.ingest_data Stand.origin_down Stand.resolve Stand.parse_parquet
          Stand.render_csv Doubles.minutes_between Doubles.dt_hour
          Doubles.dt_dayofweek Doubles.dt_month "2023-01" true
          Stand.january_store
        = (s1, Py.Ok df)
     /\ Fetch.selected df
        = Fetch.feature_columns ++ ["trip_duration_minutes"]
     /\ length (Fetch.records df) = 1%nat
     /\ Fetch.disk s1 !! Stand.resolve "data/processed_2023-01.csv"
        = Some (Fetch.Document (Stand.render_csv df)))
  /\ Fetch.ingest_data Stand.origin_down Stand.resolve Stand.parse_parquet
       Stand.render_csv Doubles.minutes_between Doubles.dt_hour
       Doubles.dt_dayofweek Doubles.dt_month "2023-01" true
       Stand.untargeted_store
     = (Stand.untargeted_store, Py.Raise Py.KeyError).
Proof.
  split.
  - destruct (ingest_data_save_flag Stand.origin_down Stand.resolve
                Stand.parse_parquet Stand.render_csv Doubles.minutes_between
                Doubles.dt_hour Doubles.dt_dayofweek Doubles.dt_month
                Stand.january_store
                (Py.PyStr "https://d37ci6vzurychx.cloudfront.net/trip-data")
                "data" "2023-01" Stand.month_bytes
                [Doubles.ride; Doubles.long_ride]
                eq_refl eq_refl january_store_data_dir eq_refl eq_refl)
      as [Htargeted _].
    destruct (Htargeted (Py.PyStr "trip_duration_minutes")
                (Fetch.feature_columns ++ ["trip_duration_minutes"])
                eq_refl eq_refl)
      as (df & Hcols & Hrows & Hplain & Hsave).
    destruct (Hsave ltac:(vm_compute; discriminate) eq_refl)
      as (s1 & Hsaved & Hdisk & _).
    exists df, s1. split; [exact Hplain|]. split; [exact Hsaved|].
    split; [exact Hcols|]. split.
    + apply Forall2_length in Hrows. rewrite <- Hrows. reflexivity.
    + rewrite Hdisk. apply lookup_insert_eq.
  - destruct (ingest_data_save_flag Stand.origin_down Stand.resolve
                Stand.parse_parquet Stand.render_csv Doubles.minutes_between
                Doubles.dt_hour Doubles.dt_dayofweek Doubles.dt_month
                Stand.untargeted_store
                (Py.PyStr "https://d37ci6vzurychx.cloudfront.net/trip-data")
                "data" "2023-01" Stand.month_bytes
                [Doubles.ride; Doubles.long_ride]
                eq_refl eq_refl january_store_data_dir eq_refl eq_refl)
      as [_ Huntargeted].
    apply Huntargeted. left. reflexivity.
Defined.

(** The theorem with a month file that is cut off. *)
Lemma ingest_data_unreadable_file_persists_witness :
  Fetch.ingest_data Stand.origin_down Stand.resolve Stand.parse_parquet
    Stand.render_csv Doubles.minutes_between Doubles.dt_hour
    Doubles.dt_dayofweek Doubles.dt_month "2023-01" true Stand.cut_store
  = (Stand.cut_store, Py.Raise Py.ValueError).
Proof.
  exact (ingest_data_unreadable_file_persists Stand.origin_down Stand.resolve
           Stand.parse_parquet Stand.render_csv Doubles.minutes_between
           Doubles.dt_hour Doubles.dt_dayofweek Doubles.dt_month
           Stand.cut_store
           (Py.PyStr "https://d37ci6vzurychx.cloudfront.net/trip-data")
           "data" "2023-01" "PAR1" Py.ValueError true
           eq_refl eq_refl cut_store_data_dir eq_refl eq_refl).
Defined.
